(** * Cypher chain: a shallow embedding of the ledger core

    The development follows the Python sources

      - [cypher/utils.py]        hashing helpers and the Merkle root,
      - [cypher/transaction.py]  inputs, outputs, transactions, signing,
                                 verification, coin selection,
      - [cypher/block.py]        block header, proof-of-work search,
      - [cypher/blockchain.py]   chain, UTXO set, mempool, persistence.

    Library calls ([hashlib], [ecdsa], [json]) and the constants of
    [cypher/config.py] are parameters of the development; everything the
    repository itself defines is translated function by function. *)

From Stdlib Require Import ZArith String Ascii List DecimalString DecimalZ DecimalPos.
From Stdlib.Strings Require Import Byte.
From stdpp Require Import base list strings numbers gmap.

Local Open Scope string_scope.
Local Open Scope list_scope.

(* ================================================================== *)
(** * Outcomes of Python code *)
(* ================================================================== *)

(** The exceptions the modelled code can meet.  [ValueError], with its
    message, is raised by the repository's own [raise] statements and by
    [int]; [TypeError], [KeyError], [IndexError] and [AttributeError] by the
    operations of the built-in types; [External] is any exception that
    comes out of a library call ([BadSignatureError], [MalformedPointError],
    the [ValueError] of [bytes.fromhex], [FileNotFoundError],
    [JSONDecodeError]), under its class name.  All of them derive from
    Python's [Exception], so an [except Exception] clause catches each. *)
Inductive exn : Type :=
| ValueError (msg : string)
| TypeError
| KeyError
| IndexError
| AttributeError
| External (name : string).

(** A call returns a value, raises, runs out of the fuel given to an
    unbounded loop, or leaves the typed data model (a field received a
    value outside its annotated type; Python goes on, the model does not). *)
Inductive result (A : Type) : Type :=
| Ok (a : A)
| Raise (e : exn)
| OutOfFuel
| Untyped.
Arguments Ok {A} a.
Arguments Raise {A} e.
Arguments OutOfFuel {A}.
Arguments Untyped {A}.

#[global] Instance result_ret : MRet result := fun A a => Ok a.
#[global] Instance result_bind : MBind result := fun A B f m =>
  match m with
  | Ok a => f a
  | Raise e => Raise e
  | OutOfFuel => OutOfFuel
  | Untyped => Untyped
  end.
#[global] Instance result_fmap : FMap result := fun A B f m =>
  match m with
  | Ok a => Ok (f a)
  | Raise e => Raise e
  | OutOfFuel => OutOfFuel
  | Untyped => Untyped
  end.

(** [try: body  except Exception: handler]. *)
Definition try_except {A} (body : result A) (handler : exn -> result A) : result A :=
  match body with
  | Raise e => handler e
  | r => r
  end.

(** A [for] loop whose body may leave the enclosing function with a value:
    [inl v] is [return v] taken inside the loop, [inr acc] the state of the
    loop variables when the iteration went through. *)
Fixpoint for_loop {A S R} (body : A -> S -> result (R + S)) (l : list A) (acc : S)
  : result (R + S) :=
  match l with
  | [] => Ok (inr acc)
  | x :: l' =>
      r ← body x acc;
      match r with
      | inl v => Ok (inl v)
      | inr acc' => for_loop body l' acc'
      end
  end.

(** A [for] loop with no [return] inside. *)
Fixpoint fold_result {A S} (body : A -> S -> result S) (l : list A) (acc : S)
  : result S :=
  match l with
  | [] => Ok acc
  | x :: l' => acc' ← body x acc; fold_result body l' acc'
  end.

(* ================================================================== *)
(** * Python dictionaries: insertion-ordered, unique keys *)
(* ================================================================== *)

Abbreviation dict K V := (list (K * V)).

Section pydict.
Context {K V : Type} `{EqDecision K}.

Fixpoint dict_get (d : dict K V) (k : K) : option V :=
  match d with
  | [] => None
  | (k', v) :: d' => if decide (k' = k) then Some v else dict_get d' k
  end.

(** [k in d] *)
Definition dict_contains (d : dict K V) (k : K) : bool :=
  match dict_get d k with Some _ => true | None => false end.

(** [d[k] = v]: an existing key keeps its place, a new one goes last. *)
Fixpoint dict_set (d : dict K V) (k : K) (v : V) : dict K V :=
  match d with
  | [] => [(k, v)]
  | (k', v') :: d' =>
      if decide (k' = k) then (k', v) :: d' else (k', v') :: dict_set d' k v
  end.

Fixpoint dict_remove (d : dict K V) (k : K) : dict K V :=
  match d with
  | [] => []
  | (k', v) :: d' => if decide (k' = k) then d' else (k', v) :: dict_remove d' k
  end.

(** [del d[k]] *)
Definition dict_del (d : dict K V) (k : K) : result (dict K V) :=
  if dict_contains d k then Ok (dict_remove d k) else Raise KeyError.

(** [d[k]] *)
Definition dict_getitem (d : dict K V) (k : K) : result V :=
  match dict_get d k with Some v => Ok v | None => Raise KeyError end.

Definition dict_keys (d : dict K V) : list K := map fst d.
End pydict.

(* ================================================================== *)
(** * Python values that reach [json] *)
(* ================================================================== *)

#[warnings="-register-all"]
Inductive pyval (F : Type) : Type :=
| PNone
| PBool (b : bool)
| PInt (z : Z)
| PFloat (f : F)
| PStr (s : string)
| PList (l : list (pyval F))
| PDict (d : list (string * pyval F)).
Arguments PNone {F}.
Arguments PBool {F} b.
Arguments PInt {F} z.
Arguments PFloat {F} f.
Arguments PStr {F} s.
Arguments PList {F} l.
Arguments PDict {F} d.

(** A file of the data directory: absent, opened for writing and left
    empty, or holding one JSON document.  [json.dump] followed by
    [json.load] is taken to give back the tree that was written. *)
Inductive file (F : Type) : Type :=
| Missing
| Empty
| Json (v : pyval F).
Arguments Missing {F}.
Arguments Empty {F}.
Arguments Json {F} v.

(* ================================================================== *)
(** * Strings, bytes, integers *)
(* ================================================================== *)

Abbreviation bytes := (list byte).

#[global] Instance byte_eq_decision : EqDecision byte := Byte.byte_eq_dec.

(** [str.encode()] *)
Definition encode (s : string) : bytes := list_byte_of_string s.

Definition hex_digit (n : N) : ascii :=
  match n with
  | 0%N => "0" | 1%N => "1" | 2%N => "2" | 3%N => "3"
  | 4%N => "4" | 5%N => "5" | 6%N => "6" | 7%N => "7"
  | 8%N => "8" | 9%N => "9" | 10%N => "a" | 11%N => "b"
  | 12%N => "c" | 13%N => "d" | 14%N => "e" | _ => "f"
  end%char.

Definition byte_hex (b : byte) : string :=
  let n := Byte.to_N b in
  String (hex_digit (n / 16)) (String (hex_digit (n mod 16)) EmptyString).

(** [bytes.hex()] *)
Fixpoint bytes_hex (bs : bytes) : string :=
  match bs with
  | [] => ""
  | b :: bs' => byte_hex b +:+ bytes_hex bs'
  end.

(** ["0" * n] *)
Definition str_repeat (s : string) (n : Z) : string :=
  Nat.iter (Z.to_nat n) (fun acc => s +:+ acc) "".

(** [s.startswith(p)] *)
Definition startswith (s p : string) : bool := String.prefix p s.

(** [str(z)] for an [int]. *)
Definition str_of_int (z : Z) : string := NilZero.string_of_int (Z.to_int z).

(** [int(s)] on a decimal literal with an optional minus sign.  The other
    spellings Python accepts (a plus sign, blanks around the literal,
    underscores, non-ASCII digits) raise here. *)
Definition int_of_str (s : string) : result Z :=
  match NilZero.int_of_string s with
  | Some d => Ok (Z.of_int d)
  | None => Raise (ValueError "invalid literal for int()")
  end.

(** [s.split(":")]: the pieces between the colons, empty ones included. *)
Fixpoint split_colon_go (cur : string) (s : string) : list string :=
  match s with
  | EmptyString => [cur]
  | String c s' =>
      if Ascii.eqb c ":"%char
      then cur :: split_colon_go "" s'
      else split_colon_go (cur +:+ String c EmptyString) s'
  end.
Definition split_colon (s : string) : list string := split_colon_go "" s.

(** [l[i]] on a list. *)
Definition list_getitem {A} (l : list A) (i : nat) : result A :=
  match l !! i with Some x => Ok x | None => Raise IndexError end.

(** Truth value of an [Optional[str]]: [None] and [""] are false. *)
Definition truthy (o : option string) : bool :=
  match o with
  | None => false
  | Some s => negb (String.eqb s "")
  end.

(** [sum(...)] over integers. *)
Definition sum_Z (l : list Z) : Z := fold_left Z.add l 0%Z.

(* ================================================================== *)
(** * Library calls and configuration *)
(* ================================================================== *)

(** A library call returns or raises an exception of the named class. *)
Inductive outcome (A : Type) : Type :=
| Returns (a : A)
| Raises (name : string).
Arguments Returns {A} a.
Arguments Raises {A} name.

Definition call {A} (o : outcome A) : result A :=
  match o with
  | Returns a => Ok a
  | Raises name => Raise (External name)
  end.

(** What the code imports from [hashlib], [json], [ecdsa] and the built-in
    types.  [lib_vk_verify] is [VerifyingKey.verify]: it returns [True] or
    raises, which is why its value carries no information. *)
Class Library (float : Type) : Type := {
  sha256 : bytes -> bytes;
  ripemd160 : bytes -> bytes;
  lib_fromhex : string -> outcome bytes;
  json_dumps : pyval float -> string;
  VerifyingKey : Type;
  SigningKey : Type;
  lib_vk_from_string : bytes -> outcome VerifyingKey;
  lib_vk_verify : VerifyingKey -> bytes -> bytes -> outcome unit;
  vk_to_string : VerifyingKey -> bytes;
  lib_sk_from_string : bytes -> outcome SigningKey;
  get_verifying_key : SigningKey -> VerifyingKey;
  sign_deterministic : SigningKey -> bytes -> bytes
}.

(** The constants of [cypher/config.py]. *)
Class Config : Type := {
  DIFFICULTY : Z;
  BLOCK_REWARD : Z;
  GENESIS_MESSAGE : string
}.

Section Cypher.
Context {float : Type} `{Lib : Library float} `{Cfg : Config}.

Abbreviation pyobj := (pyval float).

(** [bytes.fromhex(s)] *)
Definition bytes_fromhex (s : string) : result bytes := call (lib_fromhex s).
(** [VerifyingKey.from_string(b, curve=SECP256k1)] *)
Definition VerifyingKey_from_string (b : bytes) : result VerifyingKey :=
  call (lib_vk_from_string b).
(** [vk.verify(sig, data)] *)
Definition vk_verify (vk : VerifyingKey) (sig data : bytes) : result unit :=
  call (lib_vk_verify vk sig data).
(** [SigningKey.from_string(b, curve=SECP256k1)] *)
Definition SigningKey_from_string (b : bytes) : result SigningKey :=
  call (lib_sk_from_string b).

(* ------------------------------------------------------------------ *)
(** ** [cypher/utils.py] *)
(* ------------------------------------------------------------------ *)

Definition sha256d_hex (data : bytes) : string :=
  bytes_hex (sha256 (sha256 data)).

(** [json.dumps(obj, sort_keys=True, separators=(",", ":"))] *)
Definition to_json (obj : pyobj) : string := json_dumps obj.

(** [bytes.fromhex(x)] where [x] may be [None]. *)
Definition fromhex_opt (x : option string) : result bytes :=
  match x with
  | None => Raise TypeError
  | Some s => bytes_fromhex s
  end.

(** [range(0, n, 2)] *)
Definition range_step2 (n : nat) : list nat :=
  map (fun k => 2 * k)%nat (seq 0 (Nat.div2 (n + 1))).

(** The body of the inner [for] loop at index [i]. *)
Definition merkle_at (level : list (option string)) (i : nat) : result (option string) :=
  left ← list_getitem level i;
  right ← (if bool_decide (i + 1 < length level)%nat
           then list_getitem level (i + 1)
           else Ok left);
  lb ← fromhex_opt left;
  rb ← fromhex_opt right;
  Ok (Some (sha256d_hex (lb ++ rb))).

(** One pass of the inner [for] loop: the next level. *)
Definition merkle_next (level : list (option string)) : result (list (option string)) :=
  mapM (merkle_at level) (range_step2 (length level)).

(** The [while len(level) > 1] loop. *)
Fixpoint merkle_loop (fuel : nat) (level : list (option string))
  : result (option string) :=
  if bool_decide (1 < length level)%nat then
    match fuel with
    | O => OutOfFuel
    | S fuel' => nxt ← merkle_next level; merkle_loop fuel' nxt
    end
  else list_getitem level 0.

Definition merkle_root_hex (txids : list (option string)) : result (option string) :=
  match txids with
  | [] => Ok (Some (sha256d_hex []))
  | _ => merkle_loop (length txids) txids
  end.

(* ------------------------------------------------------------------ *)
(** ** [cypher/transaction.py] *)
(* ------------------------------------------------------------------ *)

Definition pubkey_to_address (pubkey_hex : string) : result string :=
  pub_bytes ← bytes_fromhex pubkey_hex;
  Ok ("CYPH" +:+ bytes_hex (ripemd160 (sha256 pub_bytes))).

(** An input object is an instance of the dataclass [TxInput], or, after a
    reload, a class made by [type("TxInput", (), i)]: the same four
    attributes, no methods. *)
Inductive TxInputClass : Type := Dataclass | Synthesized.

Record TxInput : Type := {
  tin_class : TxInputClass;
  tin_txid : string;
  tin_vout : Z;
  tin_signature : option string;
  tin_pubkey : option string
}.

Record TxOutput : Type := {
  out_amount : Z;
  out_address : string
}.

Record Transaction : Type := {
  tx_inputs : list TxInput;
  tx_outputs : list TxOutput;
  tx_timestamp : float;
  tx_txid : option string;
  tx_coinbase : bool
}.

(** Keys of the UTXO dictionary: [(tx.txid, idx)]. *)
Abbreviation UTXOKey := (option string * Z)%type.
Abbreviation UtxoDict := (dict UTXOKey TxOutput).

Definition opt_str (o : option string) : pyobj :=
  match o with None => PNone | Some s => PStr s end.

Definition TxInput_to_dict (self : TxInput) (include_sig : bool) : result pyobj :=
  match tin_class self with
  | Synthesized => Raise AttributeError
  | Dataclass =>
      let d := [("txid", PStr (tin_txid self)); ("vout", PInt (tin_vout self))] in
      Ok (PDict (if include_sig
                 then d ++ [("signature", opt_str (tin_signature self));
                            ("pubkey", opt_str (tin_pubkey self))]
                 else d))
  end.

Definition TxOutput_to_dict (self : TxOutput) : pyobj :=
  PDict [("amount", PInt (out_amount self)); ("address", PStr (out_address self))].

Definition Transaction_to_dict (self : Transaction) (include_sig : bool) : result pyobj :=
  ins ← mapM (fun i => TxInput_to_dict i include_sig) (tx_inputs self);
  Ok (PDict [("inputs", PList ins);
             ("outputs", PList (map TxOutput_to_dict (tx_outputs self)));
             ("timestamp", PFloat (tx_timestamp self));
             ("coinbase", PBool (tx_coinbase self))]).

(** The signature-stripped canonical preimage. *)
Definition preimage_of (self : Transaction) : result bytes :=
  d ← Transaction_to_dict self false;
  Ok (encode (to_json d)).

Definition compute_txid (self : Transaction) : result string :=
  preimage ← preimage_of self;
  Ok (sha256d_hex preimage).

Definition set_txid (tx : Transaction) (t : option string) : Transaction :=
  {| tx_inputs := tx_inputs tx; tx_outputs := tx_outputs tx;
     tx_timestamp := tx_timestamp tx; tx_txid := t;
     tx_coinbase := tx_coinbase tx |}.

Definition set_inputs (tx : Transaction) (ins : list TxInput) : Transaction :=
  {| tx_inputs := ins; tx_outputs := tx_outputs tx;
     tx_timestamp := tx_timestamp tx; tx_txid := tx_txid tx;
     tx_coinbase := tx_coinbase tx |}.

(** The reference [(tin.txid, tin.vout)] of an input. *)
Definition ref_of (tin : TxInput) : UTXOKey := (Some (tin_txid tin), tin_vout tin).

Definition set_sig (tin : TxInput) (sig pub : string) : TxInput :=
  {| tin_class := tin_class tin; tin_txid := tin_txid tin; tin_vout := tin_vout tin;
     tin_signature := Some sig; tin_pubkey := Some pub |}.

Definition sign_inputs (self : Transaction) (priv_hex : string) (utxo_map : UtxoDict)
  : result Transaction :=
  if tx_coinbase self then
    t ← compute_txid self; Ok (set_txid self (Some t))
  else
    kb ← bytes_fromhex priv_hex;
    sk ← SigningKey_from_string kb;
    let vk := get_verifying_key sk in
    let pub_hex := bytes_hex (vk_to_string vk) in
    from_addr ← pubkey_to_address pub_hex;
    _ ← fold_result
          (fun tin (_ : unit) =>
             match dict_get utxo_map (ref_of tin) with
             | None => Raise (ValueError "Referenced UTXO not found")
             | Some o =>
                 if bool_decide (out_address o = from_addr)
                 then Ok tt
                 else Raise (ValueError "Attempting to spend UTXO not owned by provided key")
             end)
          (tx_inputs self) tt;
    preimage ← preimage_of self;
    let sig := bytes_hex (sign_deterministic sk preimage) in
    let signed := set_inputs self (map (fun tin => set_sig tin sig pub_hex) (tx_inputs self)) in
    t ← compute_txid signed;
    Ok (set_txid signed (Some t)).

(** The body of the input loop of [verify]; the loop variable is
    [total_in]. *)
Definition verify_input (utxo_map : UtxoDict) (preimage : bytes)
    (tin : TxInput) (total_in : Z) : result (bool + Z) :=
  match dict_get utxo_map (ref_of tin) with
  | None => Ok (inl false)
  | Some utxo =>
      let total_in := (total_in + out_amount utxo)%Z in
      if negb (truthy (tin_signature tin)) || negb (truthy (tin_pubkey tin))
      then Ok (inl false)
      else
        let sig := default "" (tin_signature tin) in
        let pub := default "" (tin_pubkey tin) in
        pb ← bytes_fromhex pub;
        vk ← VerifyingKey_from_string pb;
        sb ← bytes_fromhex sig;
        _ ← vk_verify vk sb preimage;
        addr ← pubkey_to_address pub;
        if bool_decide (addr = out_address utxo) then Ok (inr total_in)
        else Ok (inl false)
  end.

(** The [try] block of [verify]. *)
Definition verify_body (self : Transaction) (utxo_map : UtxoDict) : result bool :=
  preimage ← preimage_of self;
  r ← for_loop (verify_input utxo_map preimage) (tx_inputs self) 0%Z;
  match r with
  | inl b => Ok b
  | inr total_in =>
      let total_out := sum_Z (map out_amount (tx_outputs self)) in
      if bool_decide (total_out > total_in)%Z then Ok false
      else
        t ← compute_txid self;
        Ok (bool_decide (Some t = tx_txid self))
  end.

Definition verify (self : Transaction) (utxo_map : UtxoDict) : result bool :=
  if tx_coinbase self then Ok true
  else try_except (verify_body self utxo_map) (fun _ => Ok false).

Definition make_coinbase (now : float) (to_address : string) (amount : Z)
  : result Transaction :=
  let tx := {| tx_inputs := [];
               tx_outputs := [{| out_amount := amount; out_address := to_address |}];
               tx_timestamp := now; tx_txid := None; tx_coinbase := true |} in
  t ← compute_txid tx;
  Ok (set_txid tx (Some t)).

(** The selection loop of [build_simple_tx]: [break] once the running
    total covers the amount.  The loop variables are [(ins, total)]. *)
Fixpoint select_inputs (available : list (UTXOKey * TxOutput)) (amount : Z)
    (ins : list UTXOKey) (total : Z) : list UTXOKey * Z :=
  match available with
  | [] => (ins, total)
  | (k, out) :: rest =>
      let ins := ins ++ [k] in
      let total := (total + out_amount out)%Z in
      if bool_decide (total >= amount)%Z then (ins, total)
      else select_inputs rest amount ins total
  end.

(** [TxInput(txid=txid, vout=vout)] for a key of the dictionary.  A key
    whose first component is [None] gives an input whose [txid] is not a
    string. *)
Definition TxInput_of_key (k : UTXOKey) : result TxInput :=
  match fst k with
  | Some t => Ok {| tin_class := Dataclass; tin_txid := t; tin_vout := snd k;
                    tin_signature := None; tin_pubkey := None |}
  | None => Untyped
  end.

Definition build_simple_tx (now : float) (utxos : UtxoDict)
    (from_priv_hex from_pub_hex to_addr : string) (amount : Z)
    (change_addr : option string) : result Transaction :=
  owner_addr ← pubkey_to_address from_pub_hex;
  let available := filter (fun kv => out_address (snd kv) = owner_addr) utxos in
  let '(keys, total) := select_inputs available amount [] 0%Z in
  if bool_decide (total < amount)%Z then Raise (ValueError "Insufficient funds")
  else
    ins ← mapM TxInput_of_key keys;
    let outputs := [{| out_amount := amount; out_address := to_addr |}] in
    let change := (total - amount)%Z in
    let outputs :=
      if bool_decide (change > 0)%Z
      then outputs ++ [{| out_amount := change;
                          out_address := if truthy change_addr
                                         then default "" change_addr
                                         else owner_addr |}]
      else outputs in
    let tx := {| tx_inputs := ins; tx_outputs := outputs; tx_timestamp := now;
                 tx_txid := None; tx_coinbase := false |} in
    sign_inputs tx from_priv_hex utxos.

(* ------------------------------------------------------------------ *)
(** ** [cypher/block.py] *)
(* ------------------------------------------------------------------ *)

Record Block : Type := {
  blk_index : Z;
  blk_prev_hash : string;
  blk_timestamp : float;
  blk_nonce : Z;
  blk_txs : list Transaction;
  blk_merkle_root : option string;
  blk_hash : option string
}.

Definition compute_merkle (self : Block) : result (option string) :=
  merkle_root_hex (map tx_txid (blk_txs self)).

(** [self.merkle_root or ""] *)
Definition or_empty (o : option string) : string :=
  if truthy o then default "" o else "".

Definition header_preimage (self : Block) : bytes :=
  let header := PDict [("index", PInt (blk_index self));
                       ("prev_hash", PStr (blk_prev_hash self));
                       ("timestamp", PFloat (blk_timestamp self));
                       ("nonce", PInt (blk_nonce self));
                       ("merkle_root", PStr (or_empty (blk_merkle_root self)))] in
  encode (to_json header).

Definition compute_hash (self : Block) : string :=
  sha256d_hex (header_preimage self).

Definition set_merkle_root (b : Block) (m : option string) : Block :=
  {| blk_index := blk_index b; blk_prev_hash := blk_prev_hash b;
     blk_timestamp := blk_timestamp b; blk_nonce := blk_nonce b;
     blk_txs := blk_txs b; blk_merkle_root := m; blk_hash := blk_hash b |}.

Definition set_hash (b : Block) (h : option string) : Block :=
  {| blk_index := blk_index b; blk_prev_hash := blk_prev_hash b;
     blk_timestamp := blk_timestamp b; blk_nonce := blk_nonce b;
     blk_txs := blk_txs b; blk_merkle_root := blk_merkle_root b; blk_hash := h |}.

Definition set_nonce (b : Block) (n : Z) : Block :=
  {| blk_index := blk_index b; blk_prev_hash := blk_prev_hash b;
     blk_timestamp := blk_timestamp b; blk_nonce := n;
     blk_txs := blk_txs b; blk_merkle_root := blk_merkle_root b;
     blk_hash := blk_hash b |}.

Definition set_timestamp (b : Block) (t : float) : Block :=
  {| blk_index := blk_index b; blk_prev_hash := blk_prev_hash b;
     blk_timestamp := t; blk_nonce := blk_nonce b;
     blk_txs := blk_txs b; blk_merkle_root := blk_merkle_root b;
     blk_hash := blk_hash b |}.

Definition finalize (self : Block) : result Block :=
  m ← compute_merkle self;
  let self := set_merkle_root self m in
  Ok (set_hash self (Some (compute_hash self))).

(** The [while True] search of [mine_block].  [clock n] is what
    [time.time()] returns when it is read at nonce [n]. *)
Fixpoint mine_loop (fuel : nat) (clock : Z -> float) (prefix : string) (block : Block)
  : result Block :=
  match fuel with
  | O => OutOfFuel
  | S fuel' =>
      let h := compute_hash block in
      if startswith h prefix then Ok (set_hash block (Some h))
      else
        let block := set_nonce block (blk_nonce block + 1)%Z in
        let block :=
          if bool_decide (blk_nonce block mod 100000 = 0)%Z
          then set_timestamp block (clock (blk_nonce block))
          else block in
        mine_loop fuel' clock prefix block
  end.

Definition mine_block (fuel : nat) (clock : Z -> float) (block : Block) (difficulty : Z)
  : result Block :=
  let prefix := str_repeat "0" difficulty in
  m ← compute_merkle block;
  let block := set_merkle_root block m in
  let block := set_nonce block 0%Z in
  mine_loop fuel clock prefix block.

(* ------------------------------------------------------------------ *)
(** ** [cypher/blockchain.py]: the ledger state *)
(* ------------------------------------------------------------------ *)

(** A reference to a dictionary object: the one bound to [self.utxos], or
    one created since ([dict(...)] makes a new object). *)
Inductive dref : Type := Live | Temp (n : nat).

Record State : Type := {
  chain : list Block;
  utxos : UtxoDict;
  mempool : list Transaction;
  temps : list UtxoDict;
  chain_file : file float;
  utxo_file : file float;
  mempool_file : file float
}.

(** Methods of [Blockchain]: state in, outcome and state out.  A raise
    keeps the mutations made before it. *)
Definition M (A : Type) : Type := State -> result A * State.

#[global] Instance M_ret : MRet M := fun A a s => (Ok a, s).
#[global] Instance M_bind : MBind M := fun A B f m s =>
  match m s with
  | (Ok a, s') => f a s'
  | (Raise e, s') => (Raise e, s')
  | (OutOfFuel, s') => (OutOfFuel, s')
  | (Untyped, s') => (Untyped, s')
  end.

Definition lift {A} (r : result A) : M A := fun s => (r, s).
Definition gets {A} (f : State -> A) : M A := fun s => (Ok (f s), s).
Definition modify (f : State -> State) : M unit := fun s => (Ok tt, f s).

Definition with_chain (c : list Block) (s : State) : State :=
  {| chain := c; utxos := utxos s; mempool := mempool s; temps := temps s;
     chain_file := chain_file s; utxo_file := utxo_file s;
     mempool_file := mempool_file s |}.
Definition with_utxos (u : UtxoDict) (s : State) : State :=
  {| chain := chain s; utxos := u; mempool := mempool s; temps := temps s;
     chain_file := chain_file s; utxo_file := utxo_file s;
     mempool_file := mempool_file s |}.
Definition with_mempool (m : list Transaction) (s : State) : State :=
  {| chain := chain s; utxos := utxos s; mempool := m; temps := temps s;
     chain_file := chain_file s; utxo_file := utxo_file s;
     mempool_file := mempool_file s |}.
Definition with_temps (t : list UtxoDict) (s : State) : State :=
  {| chain := chain s; utxos := utxos s; mempool := mempool s; temps := t;
     chain_file := chain_file s; utxo_file := utxo_file s;
     mempool_file := mempool_file s |}.
Definition with_chain_file (f : file float) (s : State) : State :=
  {| chain := chain s; utxos := utxos s; mempool := mempool s; temps := temps s;
     chain_file := f; utxo_file := utxo_file s;
     mempool_file := mempool_file s |}.
Definition with_utxo_file (f : file float) (s : State) : State :=
  {| chain := chain s; utxos := utxos s; mempool := mempool s; temps := temps s;
     chain_file := chain_file s; utxo_file := f;
     mempool_file := mempool_file s |}.
Definition with_mempool_file (f : file float) (s : State) : State :=
  {| chain := chain s; utxos := utxos s; mempool := mempool s; temps := temps s;
     chain_file := chain_file s; utxo_file := utxo_file s;
     mempool_file := f |}.

(** The dictionary a reference points to. *)
Definition deref (r : dref) (s : State) : UtxoDict :=
  match r with
  | Live => utxos s
  | Temp n => default [] (temps s !! n)
  end.

Definition store (r : dref) (d : UtxoDict) (s : State) : State :=
  match r with
  | Live => with_utxos d s
  | Temp n => with_temps (<[n := d]> (temps s)) s
  end.

(** [dict(r)]: a new dictionary object with the entries of [r]. *)
Definition dict_copy (r : dref) : M dref := fun s =>
  (Ok (Temp (length (temps s))), with_temps (temps s ++ [deref r s]) s).

(** [k in r] *)
Definition contains_at (r : dref) (k : UTXOKey) : M bool :=
  gets (fun s => dict_contains (deref r s) k).

(** [r[k] = v] *)
Definition setitem_at (r : dref) (k : UTXOKey) (v : TxOutput) : M unit :=
  modify (fun s => store r (dict_set (deref r s) k v) s).

(** [del r[k]] *)
Definition delitem_at (r : dref) (k : UTXOKey) : M unit := fun s =>
  match dict_del (deref r s) k with
  | Ok d => (Ok tt, store r d s)
  | Raise e => (Raise e, s)
  | OutOfFuel => (OutOfFuel, s)
  | Untyped => (Untyped, s)
  end.

(** [tx.verify(r)] *)
Definition verify_at (tx : Transaction) (r : dref) : M bool := fun s =>
  (verify tx (deref r s), s).

(** [for] loops over the state, as [for_loop]. *)
Fixpoint for_loopM {A S R} (body : A -> S -> M (R + S)) (l : list A) (acc : S)
  : M (R + S) :=
  match l with
  | [] => mret (inr acc)
  | x :: l' =>
      r ← body x acc;
      match r with
      | inl v => mret (inl v)
      | inr acc' => for_loopM body l' acc'
      end
  end.

(** A loop with no [return] inside. *)
Fixpoint for_each {A} (body : A -> M unit) (l : list A) : M unit :=
  match l with
  | [] => mret tt
  | x :: l' => _ ← body x; for_each body l'
  end.

(** [enumerate(l)] *)
Definition enumerate {A} (l : list A) : list (Z * A) :=
  imap (fun i x => (Z.of_nat i, x)) l.

(** [r[(tx.txid, idx)] = o] *)
Definition put_output (r : dref) (tx : Transaction) (io : Z * TxOutput) : M unit :=
  setitem_at r (tx_txid tx, fst io) (snd io).

(** [for idx, o in enumerate(tx.outputs): r[(tx.txid, idx)] = o] *)
Definition add_outputs (r : dref) (tx : Transaction) : M unit :=
  for_each (put_output r tx) (enumerate (tx_outputs tx)).

(** [ref = (i.txid, i.vout); if ref not in r: return False; del r[ref]] *)
Definition spend_input (r : dref) (tin : TxInput) (_ : unit) : M (bool + unit) :=
  present ← contains_at r (ref_of tin);
  if negb present then mret (inl false)
  else _ ← delitem_at r (ref_of tin); mret (inr tt).

(** The loop over [tx.inputs] with the body above. *)
Definition spend_inputs (r : dref) (tx : Transaction) : M (bool + unit) :=
  for_loopM (spend_input r) (tx_inputs tx) tt.

Definition latest_block : M Block := fun s =>
  (match list.last (chain s) with Some b => Ok b | None => Raise IndexError end, s).

(** [f"{txid}:{vout}"] *)
Definition utxo_key_str (k : UTXOKey) : string :=
  (match fst k with Some t => t | None => "None" end) +:+ ":" +:+ str_of_int (snd k).

(** [t.to_dict(include_sig=True) | {"txid": t.txid}] *)
Definition tx_to_raw (t : Transaction) : result pyobj :=
  d ← Transaction_to_dict t true;
  match d with
  | PDict d => Ok (PDict (dict_set d "txid" (opt_str (tx_txid t))))
  | _ => Raise TypeError
  end.

Definition block_to_raw (b : Block) : result pyobj :=
  txs ← mapM tx_to_raw (blk_txs b);
  Ok (PDict [("index", PInt (blk_index b));
             ("prev_hash", PStr (blk_prev_hash b));
             ("timestamp", PFloat (blk_timestamp b));
             ("nonce", PInt (blk_nonce b));
             ("txs", PList txs);
             ("merkle_root", opt_str (blk_merkle_root b));
             ("hash", opt_str (blk_hash b))]).

Definition utxos_to_raw (u : UtxoDict) : pyobj :=
  PDict (fold_left (fun acc kv => dict_set acc (utxo_key_str (fst kv))
                                    (TxOutput_to_dict (snd kv)))
                   u []).

(** [_persist]: the three documents are built and written in turn.  The
    mempool file is opened, and so emptied, before its document is built.
    [json.dump] is taken to write every document the ledger gives it: the
    limit the interpreter puts on the digits of an integer it prints
    ([ValueError] past 4300 digits by default) is not modelled. *)
Definition _persist : M unit :=
  c ← gets chain;
  blocks ← lift (mapM block_to_raw c);
  let raw_chain := PDict [("chain", PList blocks)] in
  _ ← modify (with_chain_file (Json raw_chain));
  u ← gets utxos;
  _ ← modify (with_utxo_file (Json (utxos_to_raw u)));
  _ ← modify (with_mempool_file Empty);
  mp ← gets mempool;
  txs ← lift (mapM tx_to_raw mp);
  modify (with_mempool_file (Json (PList txs))).

(** *** Reading the documents back *)

(** [v[k]] on a loaded document. *)
Definition py_getitem (v : pyobj) (k : string) : result pyobj :=
  match v with
  | PDict d => dict_getitem d k
  | _ => Raise TypeError
  end.

(** [v.get(k, dflt)] *)
Definition py_get (v : pyobj) (k : string) (dflt : pyobj) : result pyobj :=
  match v with
  | PDict d => Ok (default dflt (dict_get d k))
  | _ => Raise AttributeError
  end.

Fixpoint chars (s : string) : list string :=
  match s with
  | EmptyString => []
  | String c s' => String c EmptyString :: chars s'
  end.

(** [for x in v]: the elements of a list, the keys of a dictionary, the
    characters of a string. *)
Definition py_iter (v : pyobj) : result (list pyobj) :=
  match v with
  | PList l => Ok l
  | PDict d => Ok (map (fun kv => PStr (fst kv)) d)
  | PStr s => Ok (map PStr (chars s))
  | _ => Raise TypeError
  end.

Definition as_str (v : pyobj) : result string :=
  match v with PStr s => Ok s | _ => Untyped end.
Definition as_int (v : pyobj) : result Z :=
  match v with PInt z => Ok z | _ => Untyped end.
Definition as_float (v : pyobj) : result float :=
  match v with PFloat f => Ok f | _ => Untyped end.
Definition as_bool (v : pyobj) : result bool :=
  match v with PBool b => Ok b | _ => Untyped end.
Definition as_opt_str (v : pyobj) : result (option string) :=
  match v with PNone => Ok None | PStr s => Ok (Some s) | _ => Untyped end.

(** An attribute of a class made by [type("TxInput", (), i)]. *)
Definition attr (d : list (string * pyobj)) (k : string) : result pyobj :=
  match dict_get d k with Some v => Ok v | None => Untyped end.

(** [type("TxInput", (), i)] *)
Definition synth_input (i : pyobj) : result TxInput :=
  match i with
  | PDict d =>
      if negb (length d =? 4)%nat then Untyped
      else
        t ← attr d "txid" ≫= as_str;
        v ← attr d "vout" ≫= as_int;
        sg ← attr d "signature" ≫= as_opt_str;
        pk ← attr d "pubkey" ≫= as_opt_str;
        Ok {| tin_class := Synthesized; tin_txid := t; tin_vout := v;
              tin_signature := sg; tin_pubkey := pk |}
  | _ => Raise TypeError
  end.

(** [TxOutput] called with the entries of [o] as keywords. *)
Definition TxOutput_of_raw (o : pyobj) : result TxOutput :=
  match o with
  | PDict d =>
      match dict_get d "amount", dict_get d "address" with
      | Some a, Some ad =>
          if negb (length d =? 2)%nat then Raise TypeError
          else
            a ← as_int a;
            ad ← as_str ad;
            Ok {| out_amount := a; out_address := ad |}
      | _, _ => Raise TypeError
      end
  | _ => Raise TypeError
  end.

(** The [Transaction(...)] call of [_load], the same for the chain and the
    mempool. *)
Definition tx_of_raw (t : pyobj) : result Transaction :=
  ri ← py_getitem t "inputs" ≫= py_iter;
  ins ← mapM synth_input ri;
  ro ← py_getitem t "outputs" ≫= py_iter;
  outs ← mapM TxOutput_of_raw ro;
  ts ← py_getitem t "timestamp";
  cb ← py_get t "coinbase" (PBool false);
  ti ← py_get t "txid" PNone;
  ts ← as_float ts;
  cb ← as_bool cb;
  ti ← as_opt_str ti;
  Ok {| tx_inputs := ins; tx_outputs := outs; tx_timestamp := ts;
        tx_txid := ti; tx_coinbase := cb |}.

Definition block_of_raw (b : pyobj) : result Block :=
  rt ← py_getitem b "txs" ≫= py_iter;
  txs ← mapM tx_of_raw rt;
  i ← py_getitem b "index";
  p ← py_getitem b "prev_hash";
  ts ← py_getitem b "timestamp";
  n ← py_getitem b "nonce";
  m ← py_getitem b "merkle_root";
  h ← py_getitem b "hash";
  i ← as_int i; p ← as_str p; ts ← as_float ts; n ← as_int n;
  m ← as_opt_str m; h ← as_opt_str h;
  Ok {| blk_index := i; blk_prev_hash := p; blk_timestamp := ts; blk_nonce := n;
        blk_txs := txs; blk_merkle_root := m; blk_hash := h |}.

(** [(k.split(":")[0], int(k.split(":")[1]))] *)
Definition utxo_key_of_str (k : string) : result UTXOKey :=
  t ← list_getitem (split_colon k) 0;
  v ← list_getitem (split_colon k) 1;
  v ← int_of_str v;
  Ok (Some t, v).

(** The dictionary comprehension over [raw_utxos.items()]. *)
Definition utxos_of_raw (raw : pyobj) : result UtxoDict :=
  match raw with
  | PDict d =>
      fold_result
        (fun (kv : string * pyobj) (acc : UtxoDict) =>
           k ← utxo_key_of_str (fst kv);
           o ← TxOutput_of_raw (snd kv);
           Ok (dict_set acc k o))
        d []
  | _ => Raise AttributeError
  end.

(** [json.load(open(path))] *)
Definition read_json (f : file float) : result pyobj :=
  match f with
  | Missing => Raise (External "FileNotFoundError")
  | Empty => Raise (External "JSONDecodeError")
  | Json v => Ok v
  end.

(** [blk = Block(...); self.chain.append(blk)] *)
Definition load_block (b : pyobj) : M unit :=
  blk ← lift (block_of_raw b);
  modify (fun s => with_chain (chain s ++ [blk]) s).

(** [tx = Transaction(...); self.mempool.append(tx)] *)
Definition load_pending (t : pyobj) : M unit :=
  tx ← lift (tx_of_raw t);
  modify (fun s => with_mempool (mempool s ++ [tx]) s).

Definition _load : M unit :=
  raw ← gets chain_file ≫= (fun f => lift (read_json f));
  _ ← modify (with_chain []);
  blocks ← lift (py_getitem raw "chain" ≫= py_iter);
  _ ← for_each load_block blocks;
  raw_utxos ← gets utxo_file ≫= (fun f => lift (read_json f));
  u ← lift (utxos_of_raw raw_utxos);
  _ ← modify (with_utxos u);
  mf ← gets mempool_file;
  match mf with
  | Missing => modify (with_mempool [])
  | _ =>
      raw_mempool ← lift (read_json mf);
      _ ← modify (with_mempool []);
      txs ← lift (py_iter raw_mempool);
      for_each load_pending txs
  end.

(** The coinbase transaction of the genesis block. *)
Definition genesis_tx (now : float) : result Transaction :=
  let tx := {| tx_inputs := []; tx_outputs := []; tx_timestamp := now;
               tx_txid := None; tx_coinbase := true |} in
  t ← compute_txid tx;
  Ok (set_txid tx (Some t)).

Definition _init_genesis (now_tx now_blk : float) (clock : Z -> float) (fuel : nat)
  : M unit :=
  gtx ← lift (genesis_tx now_tx);
  let genesis := {| blk_index := 0; blk_prev_hash := GENESIS_MESSAGE;
                    blk_timestamp := now_blk; blk_nonce := 0%Z; blk_txs := [gtx];
                    blk_merkle_root := None; blk_hash := None |} in
  genesis ← lift (mine_block fuel clock genesis DIFFICULTY);
  _ ← modify (with_chain [genesis]);
  _ ← modify (with_utxos []);
  _ ← modify (with_mempool []);
  _persist.

(** [Blockchain(data_dir)] on a data directory holding the three files. *)
Definition new_ledger (cf uf mf : file float) : State :=
  {| chain := []; utxos := []; mempool := []; temps := [];
     chain_file := cf; utxo_file := uf; mempool_file := mf |}.


(** *** Admission, application, validation, mining *)

(** [if not tx.txid: tx.txid = tx.compute_txid()] *)
Definition assign_txid (tx : Transaction) : result Transaction :=
  if negb (truthy (tx_txid tx))
  then t ← compute_txid tx; Ok (set_txid tx (Some t))
  else Ok tx.

(** [{(i.txid, i.vout) for t in self.mempool for i in t.inputs}] *)
Definition spent_in_mempool (mp : list Transaction) : gset UTXOKey :=
  list_to_set (flat_map (fun t => map ref_of (tx_inputs t)) mp).

(** [if (i.txid, i.vout) in spent_in_mempool: return False] *)
Definition check_unspent (spent : gset UTXOKey) (i : TxInput) (_ : unit)
  : result (bool + unit) :=
  if bool_decide (ref_of i ∈ spent) then Ok (inl false) else Ok (inr tt).

Definition add_transaction (tx : Transaction) : M bool :=
  tx ← lift (assign_txid tx);
  if tx_coinbase tx then mret false
  else
    ok ← verify_at tx Live;
    if negb ok then mret false
    else
      mp ← gets mempool;
      if existsb (fun t => bool_decide (tx_txid t = tx_txid tx)) mp then mret false
      else
        let spent := spent_in_mempool mp in
        r ← lift (for_loop (check_unspent spent) (tx_inputs tx) tt);
        match r with
        | inl b => mret b
        | inr _ =>
            _ ← modify (fun s => with_mempool (mempool s ++ [tx]) s);
            _ ← _persist;
            mret true
        end.

Definition apply_tx (tx : Transaction) : M bool :=
  if tx_coinbase tx then
    _ ← add_outputs Live tx; mret true
  else
    ok ← verify_at tx Live;
    if negb ok then mret false
    else
      r ← spend_inputs Live tx;
      match r with
      | inl b => mret b
      | inr _ => _ ← add_outputs Live tx; mret true
      end.

(** The body of the replay loop of [validate_block]. *)
Definition validate_tx (utxo_copy : dref) (tx : Transaction) (_ : unit)
  : M (bool + unit) :=
  bad ← (if tx_coinbase tx then mret false
         else ok ← verify_at tx utxo_copy; mret (negb ok));
  if bad : bool then mret (inl false)
  else if tx_coinbase tx then
    _ ← add_outputs utxo_copy tx; mret (inr tt)
  else
    r ← spend_inputs utxo_copy tx;
    match r with
    | inl b => mret (inl b)
    | inr _ => _ ← add_outputs utxo_copy tx; mret (inr tt)
    end.

Definition validate_block (block prev : Block) : M bool :=
  if negb (bool_decide (Some (blk_prev_hash block) = blk_hash prev)) then mret false
  else if negb (truthy (blk_hash block))
          || negb (startswith (default "" (blk_hash block)) (str_repeat "0" DIFFICULTY))
  then mret false
  else if negb (bool_decide (Some (compute_hash block) = blk_hash block)) then mret false
  else
    m ← lift (compute_merkle block);
    if negb (bool_decide (m = blk_merkle_root block)) then mret false
    else
      match blk_txs block with
      | [] => mret false
      | tx0 :: _ =>
          if negb (tx_coinbase tx0) then mret false
          else
            let reward_out := sum_Z (map out_amount (tx_outputs tx0)) in
            if negb (bool_decide (reward_out = BLOCK_REWARD)) then mret false
            else
              utxo_copy ← dict_copy Live;
              r ← for_loopM (validate_tx utxo_copy) (blk_txs block) tt;
              match r with
              | inl b => mret b
              | inr _ => mret true
              end
      end.

(** A loop over the state with no [return] inside, carrying [acc]. *)
Fixpoint foldM {A S} (body : A -> S -> M S) (l : list A) (acc : S) : M S :=
  match l with
  | [] => mret acc
  | x :: l' => acc' ← body x acc; foldM body l' acc'
  end.

(** The loop that folds a block into the ledger, written twice in the
    source (in [mine] and in [try_add_block]):
    [for tx in txs: self.apply_tx(tx); self.mempool = [t for t in
    self.mempool if t.txid != tx.txid]]. *)
Definition commit_tx (tx : Transaction) : M unit :=
  _ ← apply_tx tx;
  modify (fun s =>
    with_mempool (filter (fun t => tx_txid t ≠ tx_txid tx) (mempool s)) s).

Definition commit_txs (txs : list Transaction) : M unit :=
  for_each commit_tx txs.

(** [del utxo_temp[(i.txid, i.vout)]] *)
Definition del_input (utxo_temp : dref) (i : TxInput) : M unit :=
  delitem_at utxo_temp (ref_of i).

(** The body of the selection loop of [mine] over [list(self.mempool)]. *)
Definition select_tx (utxo_temp : dref) (tx : Transaction) (selected : list Transaction)
  : M (list Transaction) :=
  ok ← verify_at tx utxo_temp;
  if ok : bool then
    _ ← for_each (del_input utxo_temp) (tx_inputs tx);
    _ ← add_outputs utxo_temp tx;
    mret (selected ++ [tx])
  else mret selected.

Definition mine (now_cb now_blk : float) (clock : Z -> float) (fuel : nat)
    (miner_address : string) : M (option Block) :=
  coinbase ← lift (make_coinbase now_cb miner_address BLOCK_REWARD);
  utxo_temp ← dict_copy Live;
  mp ← gets mempool;
  selected ← foldM (select_tx utxo_temp) mp [coinbase];
  c ← gets chain;
  latest ← latest_block;
  match blk_hash latest with
  | None => lift Untyped
  | Some prev_hash =>
      let block := {| blk_index := Z.of_nat (length c); blk_prev_hash := prev_hash;
                      blk_timestamp := now_blk; blk_nonce := 0%Z; blk_txs := selected;
                      blk_merkle_root := None; blk_hash := None |} in
      mined ← lift (mine_block fuel clock block DIFFICULTY);
      latest ← latest_block;
      ok ← validate_block mined latest;
      if ok : bool then
        _ ← commit_txs selected;
        _ ← modify (fun s => with_chain (chain s ++ [mined]) s);
        _ ← _persist;
        mret (Some mined)
      else mret None
  end.

Definition try_add_block (block : Block) : M bool :=
  c ← gets chain;
  if negb (bool_decide (blk_index block = Z.of_nat (length c))) then mret false
  else
    latest ← latest_block;
    ok ← validate_block block latest;
    if negb ok then mret false
    else
      _ ← commit_txs (blk_txs block);
      _ ← modify (fun s => with_chain (chain s ++ [block]) s);
      _ ← _persist;
      mret true.

Definition balance (address : string) : M Z :=
  gets (fun s => sum_Z (map (fun kv => out_amount (snd kv))
                            (filter (fun kv => out_address (snd kv) = address) (utxos s)))).

End Cypher.

Arguments Transaction : clear implicits.
Arguments Block : clear implicits.
Arguments State : clear implicits.
Arguments M : clear implicits.

Abbreviation UTXOKey := (option string * Z)%type.
Abbreviation UtxoDict := (dict UTXOKey TxOutput).

(* ================================================================== *)
(** * A small instance of the library interface

    Used to run the model on concrete ledgers: a checksum in place of the
    hash functions, a keyed checksum in place of ECDSA, a plain printer in
    place of [json.dumps].  Nothing proved in general depends on it. *)
(* ================================================================== *)

Module Toy.

Definition checksum (data : bytes) : bytes :=
  match Byte.of_N (fold_left (fun acc b => (acc * 3 + Byte.to_N b + 1) mod 256)%N data 7%N) with
  | Some b => [b]
  | None => [x00]
  end.

Definition hex_value (c : ascii) : option N :=
  let n := N_of_ascii c in
  if ((48 <=? n) && (n <=? 57))%N then Some (n - 48)%N
  else if ((97 <=? n) && (n <=? 102))%N then Some (n - 87)%N
  else if ((65 <=? n) && (n <=? 70))%N then Some (n - 55)%N
  else None.

Fixpoint fromhex (s : string) : outcome bytes :=
  match s with
  | EmptyString => Returns []
  | String c1 (String c2 s') =>
      match hex_value c1, hex_value c2 with
      | Some h, Some l =>
          match Byte.of_N (16 * h + l), fromhex s' with
          | Some b, Returns rest => Returns (b :: rest)
          | _, _ => Raises "ValueError"
          end
      | _, _ => Raises "ValueError"
      end
  | _ => Raises "ValueError"
  end.

Fixpoint dumps (v : pyval Z) : string :=
  match v with
  | PNone => "null"
  | PBool true => "true"
  | PBool false => "false"
  | PInt z => str_of_int z
  | PFloat f => str_of_int f +:+ ".0"
  | PStr s => "'" +:+ s +:+ "'"
  | PList l =>
      "[" +:+ (fix go (l : list (pyval Z)) : string :=
                 match l with
                 | [] => ""
                 | x :: r => dumps x +:+ "," +:+ go r
                 end) l +:+ "]"
  | PDict d =>
      "{" +:+ (fix go (d : list (string * pyval Z)) : string :=
                 match d with
                 | [] => ""
                 | (k, x) :: r => k +:+ ":" +:+ dumps x +:+ "," +:+ go r
                 end) d +:+ "}"
  end.

(** A signature is the key followed by the checksum of the message. *)
Definition verify_sig (vk sig msg : bytes) : outcome unit :=
  if bool_decide (sig = vk ++ checksum msg) then Returns tt else Raises "BadSignatureError".

Definition lib : Library Z := {|
  sha256 := checksum;
  ripemd160 := checksum;
  lib_fromhex := fromhex;
  json_dumps := dumps;
  VerifyingKey := bytes;
  SigningKey := bytes;
  lib_vk_from_string := fun b => Returns b;
  lib_vk_verify := verify_sig;
  vk_to_string := fun vk => vk;
  lib_sk_from_string := fun b => Returns b;
  get_verifying_key := fun sk => sk;
  sign_deterministic := fun sk msg => sk ++ checksum msg
|}.

Definition cfg : Config := {|
  DIFFICULTY := 1;
  BLOCK_REWARD := 50;
  GENESIS_MESSAGE := "genesis"
|}.

End Toy.

(* ================================================================== *)
(** * [cypher/node.py]: transactions and blocks as payloads *)
(* ================================================================== *)

(** The truth value of a [float], the one operation on floats the
    payload code needs ([x or y] on a value that came out of JSON). *)
Class Floats (float : Type) : Type := {
  float_truth : float -> bool
}.

Section Node.
Context {float : Type} `{Lib : Library float} `{Flt : Floats float} `{Cfg : Config}.

(* The record types, taken at the section's [float]. *)
#[local] Abbreviation Transaction := (Transaction float).
#[local] Abbreviation Block := (Block float).

(** [{"txid": i.txid, "vout": i.vout, "signature": i.signature,
    "pubkey": i.pubkey}]: attribute reads, which an input object of
    either class answers. *)
Definition input_to_payload (i : TxInput) : pyval float :=
  PDict [("txid", PStr (tin_txid i)); ("vout", PInt (tin_vout i));
         ("signature", opt_str (tin_signature i)); ("pubkey", opt_str (tin_pubkey i))].

(** [{"amount": o.amount, "address": o.address}] *)
Definition output_to_payload (o : TxOutput) : pyval float :=
  PDict [("amount", PInt (out_amount o)); ("address", PStr (out_address o))].

Definition tx_to_payload (tx : Transaction) : pyval float :=
  PDict [("inputs", PList (map input_to_payload (tx_inputs tx)));
         ("outputs", PList (map output_to_payload (tx_outputs tx)));
         ("timestamp", PFloat (tx_timestamp tx));
         ("coinbase", PBool (tx_coinbase tx));
         ("txid", opt_str (tx_txid tx))].

(** [TxInput] called with the entries of [i] as keywords: [txid] and
    [vout] are required, [signature] and
    [pubkey] default to [None], any other keyword is a [TypeError], and so
    is an [i] that is no mapping. *)
Definition TxInput_of_payload (i : pyval float) : result TxInput :=
  match i with
  | PDict d =>
      if negb (forallb (fun kv => bool_decide (fst kv ∈ ["txid"; "vout"; "signature"; "pubkey"]))
                       d)
      then Raise TypeError
      else
        match dict_get d "txid", dict_get d "vout" with
        | Some t, Some v =>
            t ← as_str t;
            v ← as_int v;
            sg ← as_opt_str (default PNone (dict_get d "signature"));
            pk ← as_opt_str (default PNone (dict_get d "pubkey"));
            Ok {| tin_class := Dataclass; tin_txid := t; tin_vout := v;
                  tin_signature := sg; tin_pubkey := pk |}
        | _, _ => Raise TypeError
        end
  | _ => Raise TypeError
  end.

(** The truth value of what [p.get("txid")] gave: [None], [""], zero, an
    empty list or dictionary and [False] are false. *)
Definition py_truth (v : pyval float) : bool :=
  match v with
  | PNone => false
  | PBool b => b
  | PInt z => negb (z =? 0)%Z
  | PFloat f => float_truth f
  | PStr s => negb (String.eqb s "")
  | PList l => negb (bool_decide (l = []))
  | PDict d => negb (bool_decide (d = []))
  end.

Definition payload_to_tx (p : pyval float) : result Transaction :=
  ri ← py_getitem p "inputs" ≫= py_iter;
  ins ← mapM TxInput_of_payload ri;
  ro ← py_getitem p "outputs" ≫= py_iter;
  outs ← mapM TxOutput_of_raw ro;
  ts ← py_getitem p "timestamp";
  cb ← py_get p "coinbase" (PBool false);
  ts ← as_float ts;
  cb ← as_bool cb;
  let tx := {| tx_inputs := ins; tx_outputs := outs; tx_timestamp := ts;
               tx_txid := None; tx_coinbase := cb |} in
  ti ← py_get p "txid" PNone;
  if py_truth ti then
    ti ← as_opt_str ti; Ok (set_txid tx ti)
  else
    t ← compute_txid tx; Ok (set_txid tx (Some t)).

Definition block_to_payload (b : Block) : pyval float :=
  PDict [("index", PInt (blk_index b));
         ("prev_hash", PStr (blk_prev_hash b));
         ("timestamp", PFloat (blk_timestamp b));
         ("nonce", PInt (blk_nonce b));
         ("txs", PList (map tx_to_payload (blk_txs b)));
         ("merkle_root", opt_str (blk_merkle_root b));
         ("hash", opt_str (blk_hash b))].

Definition payload_to_block (p : pyval float) : result Block :=
  rt ← py_getitem p "txs" ≫= py_iter;
  txs ← mapM payload_to_tx rt;
  i ← py_getitem p "index";
  ph ← py_getitem p "prev_hash";
  ts ← py_getitem p "timestamp";
  n ← py_getitem p "nonce";
  m ← py_getitem p "merkle_root";
  h ← py_getitem p "hash";
  i ← as_int i; ph ← as_str ph; ts ← as_float ts; n ← as_int n;
  m ← as_opt_str m; h ← as_opt_str h;
  Ok {| blk_index := i; blk_prev_hash := ph; blk_timestamp := ts; blk_nonce := n;
        blk_txs := txs; blk_merkle_root := m; blk_hash := h |}.

End Node.

(** The truth value of a float of the small instance, whose floats are
    integers. *)
#[global] Instance Toy_floats : Floats Z := {| float_truth := fun z => negb (z =? 0)%Z |}.

(* ================================================================== *)
(** * Specification-level notions *)
(* ================================================================== *)

Section Spec.
Context {float : Type} `{Lib : Library float} `{Cfg : Config}.

(* The record types, taken at the section's [float]. *)
#[local] Abbreviation Transaction := (Transaction float).
#[local] Abbreviation Block := (Block float).
#[local] Abbreviation State := (State float).
#[local] Abbreviation M := (M float).

(** ** Verification of a transaction *)

(** The stored signature validates over [preimage] with the stored public
    key: both decode, the key parses, and [verify] of the key accepts. *)
Definition signature_valid (pub sig : string) (preimage : bytes) : Prop :=
  exists pb vk sb,
    bytes_fromhex pub = Ok pb /\ VerifyingKey_from_string pb = Ok vk /\
    bytes_fromhex sig = Ok sb /\ vk_verify vk sb preimage = Ok tt.

(** The per-input checks of [verify], one conjunct for each. *)
Record input_ok (utxo_map : UtxoDict) (preimage : bytes) (tin : TxInput) : Prop := {
  ok_present : dict_get utxo_map (ref_of tin) <> None;
  ok_signed : truthy (tin_signature tin) = true /\ truthy (tin_pubkey tin) = true;
  ok_signature :
    signature_valid (default "" (tin_pubkey tin)) (default "" (tin_signature tin)) preimage;
  ok_owner :
    exists o, dict_get utxo_map (ref_of tin) = Some o /\
              pubkey_to_address (default "" (tin_pubkey tin)) = Ok (out_address o)
}.

(** The amount an input refers to; an input counts each time it occurs. *)
Definition input_amount (utxo_map : UtxoDict) (tin : TxInput) : Z :=
  match dict_get utxo_map (ref_of tin) with
  | Some o => out_amount o
  | None => 0
  end.

Definition total_in (utxo_map : UtxoDict) (tx : Transaction) : Z :=
  sum_Z (map (input_amount utxo_map) (tx_inputs tx)).

Definition total_out (tx : Transaction) : Z :=
  sum_Z (map out_amount (tx_outputs tx)).

(** Every check of [verify] passes. *)
Record checks_pass (tx : Transaction) (utxo_map : UtxoDict) : Prop := {
  cp_inputs : exists preimage, preimage_of tx = Ok preimage /\
                Forall (input_ok utxo_map preimage) (tx_inputs tx);
  cp_amounts : (total_out tx <= total_in utxo_map tx)%Z;
  cp_txid : exists t, compute_txid tx = Ok t /\ tx_txid tx = Some t
}.

(** The ways a check of [verify] fails, as the specification lists them. *)
Inductive check_fails (tx : Transaction) (utxo_map : UtxoDict) : Prop :=
| fails_absent tin :
    tin ∈ tx_inputs tx -> dict_get utxo_map (ref_of tin) = None ->
    check_fails tx utxo_map
| fails_unsigned tin :
    tin ∈ tx_inputs tx ->
    truthy (tin_signature tin) = false \/ truthy (tin_pubkey tin) = false ->
    check_fails tx utxo_map
| fails_signature tin sig pub :
    tin ∈ tx_inputs tx ->
    tin_signature tin = Some sig -> tin_pubkey tin = Some pub ->
    (forall preimage, preimage_of tx = Ok preimage -> ~ signature_valid pub sig preimage) ->
    check_fails tx utxo_map
| fails_owner tin pub o :
    tin ∈ tx_inputs tx ->
    tin_pubkey tin = Some pub -> dict_get utxo_map (ref_of tin) = Some o ->
    pubkey_to_address pub <> Ok (out_address o) ->
    check_fails tx utxo_map
| fails_amounts :
    (total_out tx > total_in utxo_map tx)%Z -> check_fails tx utxo_map
| fails_txid :
    (forall t, compute_txid tx = Ok t -> tx_txid tx <> Some t) ->
    check_fails tx utxo_map.

(** ** Replaying transactions over a UTXO dictionary *)

(** The dictionary after the outputs of [tx] were added under
    [(tx.txid, index)]. *)
Definition put_outputs (u : UtxoDict) (tx : Transaction) : UtxoDict :=
  fold_left (fun d (io : Z * TxOutput) => dict_set d (tx_txid tx, fst io) (snd io))
            (enumerate (tx_outputs tx)) u.

(** Remove the referenced outputs one after the other; the answer is
    [inl false], with the removals made so far, when a reference is no
    longer there. *)
Fixpoint spend_run (u : UtxoDict) (ins : list TxInput) : (bool + unit) * UtxoDict :=
  match ins with
  | [] => (inr tt, u)
  | tin :: ins' =>
      if dict_contains u (ref_of tin)
      then spend_run (dict_remove u (ref_of tin)) ins'
      else (inl false, u)
  end.

(** Every referenced output is present in the evolving dictionary. *)
Definition spend (u : UtxoDict) (ins : list TxInput) : option UtxoDict :=
  match spend_run u ins with
  | (inr _, u') => Some u'
  | (inl _, _) => None
  end.

(** The effect of one transaction on a dictionary, and whether the
    transaction went through ([inr]) or was refused ([inl false]). *)
Definition tx_step (u : UtxoDict) (tx : Transaction) : result (bool + unit) * UtxoDict :=
  if tx_coinbase tx then (Ok (inr tt), put_outputs u tx)
  else
    match verify tx u with
    | Ok true =>
        match spend_run u (tx_inputs tx) with
        | (inr _, u1) => (Ok (inr tt), put_outputs u1 tx)
        | (inl b, u1) => (Ok (inl b), u1)
        end
    | Ok false => (Ok (inl false), u)
    | Raise e => (Raise e, u)
    | OutOfFuel => (OutOfFuel, u)
    | Untyped => (Untyped, u)
    end.

Fixpoint replay_run (u : UtxoDict) (txs : list Transaction)
  : result (bool + unit) * UtxoDict :=
  match txs with
  | [] => (Ok (inr tt), u)
  | tx :: txs' =>
      match tx_step u tx with
      | (Ok (inr _), u') => replay_run u' txs'
      | other => other
      end
  end.

(** Replaying in order: a coinbase transaction adds its outputs; any other
    transaction must verify against the dictionary as it stands, finds each
    output it references still there, removes it, and adds its own outputs,
    before the next transaction is looked at. *)
Inductive replay : UtxoDict -> list Transaction -> UtxoDict -> Prop :=
| replay_nil u : replay u [] u
| replay_coinbase u tx txs u' :
    tx_coinbase tx = true ->
    replay (put_outputs u tx) txs u' ->
    replay u (tx :: txs) u'
| replay_spend u tx txs u1 u' :
    tx_coinbase tx = false ->
    verify tx u = Ok true ->
    spend u (tx_inputs tx) = Some u1 ->
    replay (put_outputs u1 tx) txs u' ->
    replay u (tx :: txs) u'.

(** The stateless conditions of block validation. *)
Record block_header_ok (block prev : Block) : Prop := {
  hdr_prev : blk_hash prev = Some (blk_prev_hash block);
  hdr_pow : exists h, blk_hash block = Some h /\ h <> "" /\
                      startswith h (str_repeat "0" DIFFICULTY) = true;
  hdr_hash : blk_hash block = Some (compute_hash block);
  hdr_merkle : compute_merkle block = Ok (blk_merkle_root block);
  hdr_coinbase : exists tx0 rest,
      blk_txs block = tx0 :: rest /\ tx_coinbase tx0 = true /\
      sum_Z (map out_amount (tx_outputs tx0)) = BLOCK_REWARD
}.

(** What the commit loop leaves of a mempool: the transactions whose txid
    is the txid of no transaction of the block. *)
Definition prune (txs : list Transaction) (mp : list Transaction) : list Transaction :=
  filter (fun t => tx_txid t ∉ map tx_txid txs) mp.

(** ** Reloading *)

(** [Blockchain(data_dir)] on the files a ledger wrote. *)
Definition reload (s : State) : result unit * State :=
  _load (new_ledger (chain_file s) (utxo_file s) (mempool_file s)).

(** An input as it comes back from the files: the same attributes on a
    class made by [type]. *)
Definition as_loaded_input (i : TxInput) : TxInput :=
  {| tin_class := Synthesized; tin_txid := tin_txid i; tin_vout := tin_vout i;
     tin_signature := tin_signature i; tin_pubkey := tin_pubkey i |}.

Definition as_loaded_tx (t : Transaction) : Transaction :=
  set_inputs t (map as_loaded_input (tx_inputs t)).

Definition as_loaded_block (b : Block) : Block :=
  {| blk_index := blk_index b; blk_prev_hash := blk_prev_hash b;
     blk_timestamp := blk_timestamp b; blk_nonce := blk_nonce b;
     blk_txs := map as_loaded_tx (blk_txs b);
     blk_merkle_root := blk_merkle_root b; blk_hash := blk_hash b |}.

Fixpoint has_colon (s : string) : bool :=
  match s with
  | EmptyString => false
  | String c s' => Ascii.eqb c ":"%char || has_colon s'
  end.

(** A key of the UTXO dictionary whose txid is a string without a colon. *)
Definition plain_key (k : UTXOKey) : Prop :=
  exists t, fst k = Some t /\ has_colon t = false.

(** ** Coin selection *)

Definition amounts (l : list (UTXOKey * TxOutput)) : list Z :=
  map (fun kv => out_amount (snd kv)) l.

(** The entries of the dictionary owned by an address, in iteration
    order. *)
Definition owned_by (owner : string) (u : UtxoDict) : list (UTXOKey * TxOutput) :=
  filter (fun kv => out_address (snd kv) = owner) u.

(** The selection as the claim words it: entries are taken in order and
    the taking stops as soon as the accumulated amount covers the amount
    asked for, which it may do before anything is taken. *)
Definition stops_as_soon_as_covered (available : list (UTXOKey * TxOutput)) (amount : Z)
    (keys : list UTXOKey) (total : Z) : Prop :=
  exists k : nat,
    keys = map fst (take k available) /\
    total = sum_Z (amounts (take k available)) /\
    (k = length available \/ (total >= amount)%Z) /\
    (forall j : nat, (j < k)%nat -> (sum_Z (amounts (take j available)) < amount)%Z).

(** The selection as the loop makes it: the first [k] entries are taken,
    in order, and the accumulated amount is compared with the amount asked
    for after each taking, never before the first.  The taking stops at
    the first entry with which the accumulated amount covers the amount
    asked for, or when the entries are exhausted. *)
Definition first_fit (available : list (UTXOKey * TxOutput)) (amount : Z)
    (keys : list UTXOKey) (total : Z) : Prop :=
  exists k : nat,
    keys = map fst (take k available) /\
    total = sum_Z (amounts (take k available)) /\
    (k = length available \/ ((0 < k)%nat /\ (total >= amount)%Z)) /\
    (forall j : nat, (0 < j < k)%nat ->
                     (sum_Z (amounts (take j available)) < amount)%Z).

(** The exception, if any, is not the one of the funds check. *)
Definition not_insufficient {A} (r : result A) : Prop :=
  r <> Raise (ValueError "Insufficient funds").

(** The address the change goes to: the one given, the owner's when none
    is given. *)
Definition change_address (change_addr : option string) (owner : string) : string :=
  match change_addr with
  | Some a => if String.eqb a "" then owner else a
  | None => owner
  end.

(** ** Admission to the mempool *)

(** The grounds on which [add_transaction] turns a transaction down, the
    transaction being the one that results from the assignment of a txid. *)
Inductive admission_refused (tx : Transaction) (s : State) : Prop :=
| refused_coinbase : tx_coinbase tx = true -> admission_refused tx s
| refused_verify : verify tx (utxos s) = Ok false -> admission_refused tx s
| refused_duplicate t :
    t ∈ mempool s -> tx_txid t = tx_txid tx -> admission_refused tx s
| refused_conflict i t j :
    i ∈ tx_inputs tx -> t ∈ mempool s -> j ∈ tx_inputs t -> ref_of i = ref_of j ->
    admission_refused tx s.

(** The deletions of the selection loop of [mine]: the first reference
    that is no longer in the dictionary raises [KeyError]. *)
Fixpoint del_run (u : UtxoDict) (ins : list TxInput) : result unit * UtxoDict :=
  match ins with
  | [] => (Ok tt, u)
  | i :: ins' =>
      if dict_contains u (ref_of i)
      then del_run (dict_remove u (ref_of i)) ins'
      else (Raise KeyError, u)
  end.

(** Every input object of the chain and of the mempool is an instance of
    the dataclass: the ledger was built by this process, not reloaded. *)
Definition tx_dataclass (t : Transaction) : Prop :=
  Forall (fun i => tin_class i = Dataclass) (tx_inputs t).
Definition persistable (s : State) : Prop :=
  Forall (fun b => Forall tx_dataclass (blk_txs b)) (chain s) /\
  Forall tx_dataclass (mempool s).

(** A reference points to an existing dictionary. *)
Definition valid (r : dref) (s : State) : Prop :=
  match r with
  | Live => True
  | Temp n => (n < length (temps s))%nat
  end.

(** [s'] differs from [s] at most in the dictionaries created since. *)
Record frame (s s' : State) : Prop := {
  frame_chain : chain s' = chain s;
  frame_utxos : utxos s' = utxos s;
  frame_mempool : mempool s' = mempool s;
  frame_chain_file : chain_file s' = chain_file s;
  frame_utxo_file : utxo_file s' = utxo_file s;
  frame_mempool_file : mempool_file s' = mempool_file s;
  frame_temps : exists new, temps s' = temps s ++ new
}.

(** The in-memory part of two states is the same. *)
Definition same_memory (s s' : State) : Prop :=
  chain s' = chain s /\ utxos s' = utxos s /\ mempool s' = mempool s /\
  temps s' = temps s.

(** [True] for a loop that went through, the returned value otherwise. *)
Definition to_bool (r : bool + unit) : bool :=
  match r with inl b => b | inr _ => true end.

(** ** The Merkle root, as the specification words it *)

(** [doubleHash] of the concatenation of the byte decodings of a pair. *)
Definition pair_hash (left right : option string) : result (option string) :=
  lb ← fromhex_opt left;
  rb ← fromhex_opt right;
  Ok (Some (sha256d_hex (lb ++ rb))).

(** Replace each adjacent pair by its hash; a last element without a
    partner is paired with itself. *)
Fixpoint pair_up (level : list (option string)) : result (list (option string)) :=
  match level with
  | [] => Ok []
  | [x] => h ← pair_hash x x; Ok [h]
  | x :: y :: rest => h ← pair_hash x y; r ← pair_up rest; Ok (h :: r)
  end.

(** Pair up again and again until one element remains. *)
Inductive merkle_reduces : list (option string) -> option string -> Prop :=
| reduces_one x : merkle_reduces [x] x
| reduces_step level next root :
    (1 < length level)%nat ->
    pair_up level = Ok next ->
    merkle_reduces next root ->
    merkle_reduces level root.

(** The outcome is a value or an exception: the run neither exhausted a
    fuel nor left the typed model. *)
Definition settled {A} (r : result A) : Prop :=
  match r with
  | Ok _ | Raise _ => True
  | OutOfFuel | Untyped => False
  end.

End Spec.


(* ================================================================== *)
(** * Further notions: signing, payloads, value *)
(* ================================================================== *)

Section SpecMore.
Context {float : Type} `{Lib : Library float} `{Cfg : Config}.

(* The record types, taken at the section's [float]. *)
#[local] Abbreviation Transaction := (Transaction float).
#[local] Abbreviation Block := (Block float).
#[local] Abbreviation State := (State float).
#[local] Abbreviation M := (M float).

(** ** Signing *)

(** Two input objects of the same class that name the same output. *)
Definition same_reference (i j : TxInput) : Prop :=
  tin_class i = tin_class j /\ tin_txid i = tin_txid j /\ tin_vout i = tin_vout j.

(** Two transactions that differ at most in the signatures and public keys
    of their inputs and in the stored txid. *)
Definition same_unsigned (a b : Transaction) : Prop :=
  Forall2 same_reference (tx_inputs a) (tx_inputs b) /\
  tx_outputs a = tx_outputs b /\ tx_timestamp a = tx_timestamp b /\
  tx_coinbase a = tx_coinbase b.

(** [vk.to_string().hex()] for the verifying key of [sk]. *)
Definition pub_hex_of (sk : SigningKey) : string :=
  bytes_hex (vk_to_string (get_verifying_key sk)).

(** The transaction with every input carrying the signature of [sk] over
    [preimage] and the public key of [sk]. *)
Definition signed_with (sk : SigningKey) (preimage : bytes) (tx : Transaction)
  : Transaction :=
  set_inputs tx
    (map (fun tin => set_sig tin (bytes_hex (sign_deterministic sk preimage)) (pub_hex_of sk))
         (tx_inputs tx)).

(** The input names an output of the map that belongs to the address. *)
Definition owned_input (u : UtxoDict) (addr : string) (tin : TxInput) : Prop :=
  exists o, dict_get u (ref_of tin) = Some o /\ out_address o = addr.

(** The body of the loop that checks the inputs against the signer's
    address. *)
Definition owner_check (u : UtxoDict) (from_addr : string) (tin : TxInput) (_ : unit)
  : result unit :=
  match dict_get u (ref_of tin) with
  | None => Raise (ValueError "Referenced UTXO not found")
  | Some o =>
      if bool_decide (out_address o = from_addr)
      then Ok tt
      else Raise (ValueError "Attempting to spend UTXO not owned by provided key")
  end.

(** The private key, given in hex, is the key [sk]. *)
Definition key_of (priv_hex : string) (sk : SigningKey) : Prop :=
  exists kb, bytes_fromhex priv_hex = Ok kb /\ SigningKey_from_string kb = Ok sk.

(** What the development asks of the libraries when it follows a
    signature from [sign_inputs] to [verify]: [bytes.fromhex] undoes
    [bytes.hex]; the public key and the signatures of the key are not
    empty; and the verifying key rebuilt from its string accepts them. *)
Definition hex_roundtrip : Prop :=
  forall b : bytes, lib_fromhex (bytes_hex b) = Returns b.

Record signing_key_ok (sk : SigningKey) : Prop := {
  key_public : vk_to_string (get_verifying_key sk) <> [];
  key_signs : forall m, sign_deterministic sk m <> [];
  key_accepts : forall m, exists vk,
      lib_vk_from_string (vk_to_string (get_verifying_key sk)) = Returns vk /\
      lib_vk_verify vk (sign_deterministic sk m) m = Returns tt
}.

(** ** Applying a transaction *)

(** The dictionary after the outputs the inputs name were removed. *)
Definition remove_refs (u : UtxoDict) (ins : list TxInput) : UtxoDict :=
  fold_left (fun d i => dict_remove d (ref_of i)) ins u.

(** ** The Merkle root *)

(** An element of a level that [bytes.fromhex] decodes. *)
Definition decodes (x : option string) : Prop :=
  exists s b, x = Some s /\ bytes_fromhex s = Ok b.

(** An element of a level that came out of [sha256d_hex]. *)
Definition is_double_hash (x : option string) : Prop :=
  exists data, x = Some (sha256d_hex data).




(** ** Objects without [to_dict] *)

#[global] Instance TxInputClass_eq_decision : EqDecision TxInputClass.
Proof. solve_decision. Defined.

#[global] Instance tx_dataclass_decision (t : Transaction) : Decision (tx_dataclass t).
Proof. unfold tx_dataclass. apply _. Defined.

(** The call returns, or raises [AttributeError]. *)
Definition attribute_error_or_ok {A} (r : result A) : Prop :=
  (exists a, r = Ok a) \/ r = Raise AttributeError.

(** ** Payloads *)

(** An input as [TxInput] builds it from its four fields. *)
Definition as_dataclass_input (i : TxInput) : TxInput :=
  {| tin_class := Dataclass; tin_txid := tin_txid i; tin_vout := tin_vout i;
     tin_signature := tin_signature i; tin_pubkey := tin_pubkey i |}.

Definition as_dataclass_tx (t : Transaction) : Transaction :=
  set_inputs t (map as_dataclass_input (tx_inputs t)).

Definition as_dataclass_block (b : Block) : Block :=
  {| blk_index := blk_index b; blk_prev_hash := blk_prev_hash b;
     blk_timestamp := blk_timestamp b; blk_nonce := blk_nonce b;
     blk_txs := map as_dataclass_tx (blk_txs b);
     blk_merkle_root := blk_merkle_root b; blk_hash := blk_hash b |}.

(** ** Value *)

(** The sum of the amounts of a UTXO dictionary. *)
Definition value (u : UtxoDict) : Z := sum_Z (amounts u).

(** No amount of the dictionary is negative. *)
Definition nonneg (u : UtxoDict) : Prop :=
  Forall (fun kv : UTXOKey * TxOutput => (0 <= out_amount (snd kv))%Z) u.

(** No output of the transaction has a negative amount. *)
Definition outputs_nonneg (tx : Transaction) : Prop :=
  Forall (fun o => (0 <= out_amount o)%Z) (tx_outputs tx).

(** What the coinbase transactions of a list pay out. *)
Definition coinbase_total (txs : list Transaction) : Z :=
  sum_Z (map total_out (filter (fun t => tx_coinbase t = true) txs)).

(** ** Balances *)

(** What [balance] adds up: the amounts of the outputs of the dictionary
    that belong to the address. *)
Definition balance_of (addr : string) (u : UtxoDict) : Z :=
  sum_Z (amounts (owned_by addr u)).

(** What a list of outputs pays to the address. *)
Definition paid_to (addr : string) (outs : list TxOutput) : Z :=
  sum_Z (map out_amount (filter (fun o => out_address o = addr) outs)).

(** What an output, if there is one, holds for the address. *)
Definition held (addr : string) (o : option TxOutput) : Z :=
  match o with
  | Some o => if bool_decide (out_address o = addr) then out_amount o else 0%Z
  | None => 0%Z
  end.

(** What the outputs the inputs name hold for the address. *)
Definition spent_from (addr : string) (u : UtxoDict) (ins : list TxInput) : Z :=
  sum_Z (map (fun i => held addr (dict_get u (ref_of i))) ins).

(** ** What [mine] selects *)

(** Chain, UTXO dictionary and mempool are the same in two states. *)
Definition same_live (s s' : State) : Prop :=
  chain s' = chain s /\ utxos s' = utxos s /\ mempool s' = mempool s.

End SpecMore.

(* ================================================================== *)
(** * Sample ledgers over the small instance *)
(* ================================================================== *)

Module Sample.
#[local] Existing Instance Toy.lib.
#[local] Existing Instance Toy.cfg.

(** One unspent output of 50 owned by the key [aa]. *)
Definition u0 : UtxoDict :=
  [((Some "08", 0%Z), {| out_amount := 50; out_address := "CYPHd6" |})].

Definition spend_08 (sig : string) : TxInput :=
  {| tin_class := Dataclass; tin_txid := "08"; tin_vout := 0;
     tin_signature := Some sig; tin_pubkey := Some "aa" |}.

(** A signed transfer of 20 out of [u0], with 30 of change. *)
Definition tx_pay : (Transaction Z) :=
  {| tx_inputs := [spend_08 "aa30"];
     tx_outputs := [{| out_amount := 20; out_address := "BOB" |};
                    {| out_amount := 30; out_address := "CYPHd6" |}];
     tx_timestamp := 104%Z; tx_txid := Some "46"; tx_coinbase := false |}.

(** The same transfer before a txid was assigned. *)
Definition tx_pay_no_txid : (Transaction Z) := set_txid tx_pay None.

(** A signed transaction that names the one output of [u0] twice and pays
    out 100. *)
Definition tx_dup : (Transaction Z) :=
  {| tx_inputs := [spend_08 "aa39"; spend_08 "aa39"];
     tx_outputs := [{| out_amount := 100; out_address := "BOB" |}];
     tx_timestamp := 105%Z; tx_txid := Some "4f"; tx_coinbase := false |}.

Definition no_files (c : list (Block Z)) (u : UtxoDict) (m : list (Transaction Z)) : State Z :=
  {| chain := c; utxos := u; mempool := m; temps := [];
     chain_file := Missing; utxo_file := Missing; mempool_file := Missing |}.

(** A ledger holding [u0] and nothing else. *)
Definition s_u0 : State Z := no_files [] u0 [].

(** The genesis block and the block mined on top of it for the address
    [CYPH16], as [_init_genesis] and [mine] compute them over the small
    instance. *)
Definition genesis_block : Block Z :=
  {| blk_index := 0; blk_prev_hash := "genesis"; blk_timestamp := 101%Z;
     blk_nonce := 4;
     blk_txs := [{| tx_inputs := []; tx_outputs := []; tx_timestamp := 100%Z;
                    tx_txid := Some "dc"; tx_coinbase := true |}];
     blk_merkle_root := Some "dc"; blk_hash := Some "09" |}.

Definition block_1 : Block Z :=
  {| blk_index := 1; blk_prev_hash := "09"; blk_timestamp := 103%Z;
     blk_nonce := 12;
     blk_txs := [{| tx_inputs := [];
                    tx_outputs := [{| out_amount := 50; out_address := "CYPH16" |}];
                    tx_timestamp := 102%Z; tx_txid := Some "08";
                    tx_coinbase := true |}];
     blk_merkle_root := Some "08"; blk_hash := Some "0b" |}.

(** A block for the same place in the chain, as a peer may send it: its
    coinbase transaction carries a txid of the peer's choosing, and the
    nonce is the one [mine_block] finds for it. *)
Definition block_foreign : Block Z :=
  {| blk_index := 1; blk_prev_hash := "09"; blk_timestamp := 201%Z;
     blk_nonce := 3;
     blk_txs := [{| tx_inputs := [];
                    tx_outputs := [{| out_amount := 50; out_address := "CYPHd6" |}];
                    tx_timestamp := 200%Z; tx_txid := Some "ab:1";
                    tx_coinbase := true |}];
     blk_merkle_root := Some "ab:1"; blk_hash := Some "03" |}.

(** The ledger right after genesis. *)
Definition s_genesis : State Z := no_files [genesis_block] [] [].

End Sample.
(** Case analysis on the first call a sequence of binds depends on. *)
Ltac case_bind :=
  match goal with
  | |- context [@mbind result _ _ _ _ ?m] => destruct m eqn:?
  | |- context [match ?m with
                | Ok _ => _ | Raise _ => _ | OutOfFuel => _ | Untyped => _
                end] => destruct m eqn:?
  end; simpl; try discriminate.

Section VerifyFacts.
Context {float : Type} `{Lib : Library float} `{Cfg : Config}.

(* The record types, taken at the section's [float]. *)
#[local] Abbreviation Transaction := (Transaction float).
#[local] Abbreviation Block := (Block float).
#[local] Abbreviation State := (State float).
#[local] Abbreviation M := (M float).

Lemma sum_Z_from (l : list Z) (a : Z) : fold_left Z.add l a = (a + sum_Z l)%Z.
Proof.
  unfold sum_Z. revert a. induction l as [|x l IH]; intros a; simpl.
  - lia.
  - rewrite IH, (IH (0 + x)%Z). lia.
Qed.

Lemma sum_Z_cons (x : Z) (l : list Z) : sum_Z (x :: l) = (x + sum_Z l)%Z.
Proof. unfold sum_Z at 1. simpl. rewrite sum_Z_from. lia. Qed.

Lemma sum_Z_app (l1 l2 : list Z) : sum_Z (l1 ++ l2) = (sum_Z l1 + sum_Z l2)%Z.
Proof.
  induction l1 as [|x l1 IH]; simpl.
  - unfold sum_Z at 2. simpl. lia.
  - rewrite !sum_Z_cons, IH. lia.
Qed.

(** What one passage through the body of the input loop establishes. *)
Lemma verify_input_inr u pre tin acc total :
  verify_input u pre tin acc = Ok (inr total) ->
  input_ok u pre tin /\ total = (acc + input_amount u tin)%Z.
Proof.
  unfold verify_input, input_amount.
  destruct (dict_get u (ref_of tin)) as [o|] eqn:Hget; [|discriminate].
  destruct (truthy (tin_signature tin)) eqn:Hs; simpl; [|discriminate].
  destruct (truthy (tin_pubkey tin)) eqn:Hp; simpl; [|discriminate].
  destruct (bytes_fromhex (default "" (tin_pubkey tin))) as [pb| | |] eqn:Hpb;
    simpl; try discriminate.
  destruct (VerifyingKey_from_string pb) as [vk| | |] eqn:Hvk; simpl; try discriminate.
  destruct (bytes_fromhex (default "" (tin_signature tin))) as [sb| | |] eqn:Hsb;
    simpl; try discriminate.
  destruct (vk_verify vk sb pre) as [[]| | |] eqn:Hv; simpl; try discriminate.
  destruct (pubkey_to_address (default "" (tin_pubkey tin))) as [addr| | |] eqn:Ha;
    simpl; try discriminate.
  case_bool_decide as Haddr; [|discriminate].
  intros [= <-]. split; [|reflexivity].
  split.
  - congruence.
  - auto.
  - exists pb, vk, sb. auto.
  - exists o. subst addr. auto.
Qed.

Lemma bind_Ok {A B} (m : result A) (f : A -> result B) (b : B) :
  m ≫= f = Ok b -> exists a, m = Ok a /\ f a = Ok b.
Proof. destruct m; simpl; try discriminate. eauto. Qed.

Lemma verify_input_inl u pre tin acc b :
  verify_input u pre tin acc = Ok (inl b) -> b = false.
Proof.
  unfold verify_input.
  destruct (dict_get u (ref_of tin)) as [o|]; [|congruence].
  destruct (negb _ || negb _); [congruence|].
  do 5 case_bind.
  case_bool_decide; congruence.
Qed.

Lemma verify_inputs_inl u pre ins acc b :
  for_loop (verify_input u pre) ins acc = Ok (inl b) -> b = false.
Proof.
  revert acc. induction ins as [|tin ins IH]; intros acc; simpl; [discriminate|].
  intros H. apply bind_Ok in H as ([b'|acc'] & Hb & H).
  - injection H as <-. eapply verify_input_inl, Hb.
  - eauto.
Qed.

Lemma verify_inputs_inr u pre ins acc total :
  for_loop (verify_input u pre) ins acc = Ok (inr total) ->
  Forall (input_ok u pre) ins /\
  total = (acc + sum_Z (map (input_amount u) ins))%Z.
Proof.
  revert acc. induction ins as [|tin ins IH]; intros acc; simpl.
  - intros [= <-]. split; [constructor|]. unfold sum_Z. simpl. lia.
  - intros H. apply bind_Ok in H as ([b|acc'] & Hbody & H); [discriminate|].
    apply verify_input_inr in Hbody as [Hok ->].
    apply IH in H as [Hall ->].
    split; [constructor; assumption|]. rewrite sum_Z_cons. lia.
Qed.

(** [verify] answers [True] only when every check passes. *)
Lemma verify_true_checks tx u :
  tx_coinbase tx = false -> verify tx u = Ok true -> checks_pass tx u.
Proof.
  intros Hcb. unfold verify. rewrite Hcb. unfold try_except.
  destruct (verify_body tx u) as [b| | |] eqn:Hbody; try discriminate.
  intros [= ->]. unfold verify_body in Hbody.
  apply bind_Ok in Hbody as (pre & Hpre & Hbody).
  apply bind_Ok in Hbody as ([b|total] & Hloop & Hbody).
  { injection Hbody as ->. apply verify_inputs_inl in Hloop. discriminate. }
  apply verify_inputs_inr in Hloop as [Hall ->].
  case_bool_decide as Hamt; [discriminate|].
  apply bind_Ok in Hbody as (t & Ht & Hbody).
  injection Hbody as Hbody. apply bool_decide_eq_true in Hbody.
  split.
  - eauto.
  - unfold total_out, total_in. lia.
  - eauto.
Qed.

(** *** [verify] always returns *)

Lemma settled_call {A} (o : outcome A) : settled (call o).
Proof. destruct o; exact I. Qed.

Lemma settled_bind {A B} (m : result A) (f : A -> result B) :
  settled m -> (forall a, m = Ok a -> settled (f a)) -> settled (m ≫= f).
Proof. destruct m; simpl; auto; contradiction. Qed.

Lemma settled_mapM {A B} (f : A -> result B) (l : list A) :
  (forall a, settled (f a)) -> settled (mapM f l).
Proof.
  intros Hf. induction l as [|a l IH]; simpl; [exact I|].
  apply settled_bind; [apply Hf|]. intros b _.
  apply settled_bind; [exact IH|]. intros bs _. exact I.
Qed.

Lemma settled_for_loop {A S R} (body : A -> S -> result (R + S)) l acc :
  (forall a s, settled (body a s)) -> settled (for_loop body l acc).
Proof.
  intros Hb. revert acc. induction l as [|a l IH]; intros acc; simpl; [exact I|].
  apply settled_bind; [apply Hb|]. intros [v|acc'] _; [exact I | apply IH].
Qed.

Lemma settled_preimage_of tx : settled (preimage_of tx).
Proof.
  unfold preimage_of, Transaction_to_dict.
  apply settled_bind.
  - apply settled_bind; [|intros; exact I].
    apply settled_mapM. intros i. unfold TxInput_to_dict.
    destruct (tin_class i); exact I.
  - intros; exact I.
Qed.

Lemma settled_compute_txid tx : settled (compute_txid tx).
Proof.
  unfold compute_txid. apply settled_bind; [apply settled_preimage_of|].
  intros; exact I.
Qed.

Lemma settled_pubkey_to_address pub : settled (pubkey_to_address pub).
Proof.
  unfold pubkey_to_address. apply settled_bind; [apply settled_call|].
  intros; exact I.
Qed.

Lemma settled_verify_input u pre tin acc : settled (verify_input u pre tin acc).
Proof.
  unfold verify_input.
  destruct (dict_get u (ref_of tin)); [|exact I].
  destruct (negb _ || negb _); [exact I|].
  repeat (apply settled_bind;
          [first [apply settled_call | apply settled_pubkey_to_address]|intros ? _]).
  case_bool_decide; exact I.
Qed.

Lemma settled_verify_body tx u : settled (verify_body tx u).
Proof.
  unfold verify_body.
  apply settled_bind; [apply settled_preimage_of|]. intros pre _.
  apply settled_bind; [apply settled_for_loop, settled_verify_input|].
  intros [b|total] _; [exact I|].
  case_bool_decide; [exact I|].
  apply settled_bind; [apply settled_compute_txid|]. intros; exact I.
Qed.

(** Whatever happens inside, [verify] hands a boolean to its caller. *)
Lemma verify_returns tx u : exists b, verify tx u = Ok b.
Proof.
  unfold verify. destruct (tx_coinbase tx); [eauto|].
  pose proof (settled_verify_body tx u) as H.
  destruct (verify_body tx u); simpl in *; eauto; contradiction.
Qed.

(** *** When the checks pass, [verify] accepts *)

Lemma verify_input_ok u pre tin acc :
  input_ok u pre tin ->
  verify_input u pre tin acc = Ok (inr (acc + input_amount u tin)%Z).
Proof.
  intros [Hpres [Hs Hp] (pb & vk & sb & Hpb & Hvk & Hsb & Hv) (o & Hget & Haddr)].
  unfold verify_input, input_amount. rewrite Hget, Hs, Hp. simpl.
  rewrite Hpb. simpl. rewrite Hvk. simpl. rewrite Hsb. simpl. rewrite Hv. simpl.
  rewrite Haddr. simpl. rewrite bool_decide_eq_true_2 by reflexivity. reflexivity.
Qed.

Lemma verify_inputs_ok u pre ins acc :
  Forall (input_ok u pre) ins ->
  for_loop (verify_input u pre) ins acc
  = Ok (inr (acc + sum_Z (map (input_amount u) ins))%Z).
Proof.
  intros Hall. revert acc. induction Hall as [|tin ins Hok Hall IH]; intros acc; simpl.
  - unfold sum_Z. simpl. do 2 f_equal. lia.
  - rewrite (verify_input_ok _ _ _ _ Hok). simpl. rewrite IH, sum_Z_cons.
    do 2 f_equal. lia.
Qed.

Lemma checks_verify_true tx u :
  tx_coinbase tx = false -> checks_pass tx u -> verify tx u = Ok true.
Proof.
  intros Hcb [(pre & Hpre & Hall) Hamt (t & Ht & Htx)].
  unfold verify. rewrite Hcb. unfold verify_body. rewrite Hpre. simpl.
  rewrite (verify_inputs_ok _ _ _ _ Hall). simpl.
  unfold total_out, total_in in Hamt.
  rewrite bool_decide_eq_false_2 by lia.
  rewrite Ht. simpl. rewrite bool_decide_eq_true_2 by congruence. reflexivity.
Qed.

Lemma check_fails_not_pass tx u : check_fails tx u -> ~ checks_pass tx u.
Proof.
  intros Hfail [(pre & Hpre & Hall) Hamt (t & Ht & Htx)].
  rewrite Forall_forall in Hall.
  destruct Hfail as [tin Hin Habs|tin Hin Huns|tin sig pub Hin Hsig Hpub Hbad
                    |tin pub o Hin Hpub Hget Hneq|Hgt|Hid].
  - destruct (Hall tin Hin) as [Hp _ _ _]. contradiction.
  - destruct (Hall tin Hin) as [_ [Hs Hp] _ _]. destruct Huns; congruence.
  - destruct (Hall tin Hin) as [_ _ Hv _]. rewrite Hsig, Hpub in Hv. simpl in Hv.
    exact (Hbad pre Hpre Hv).
  - destruct (Hall tin Hin) as [_ _ _ (o' & Hget' & Ha)].
    rewrite Hpub in Ha. simpl in Ha. congruence.
  - lia.
  - exact (Hid t Ht Htx).
Qed.

(** C1.  For a coinbase transaction [verify] answers true whatever the
    UTXO set.  For any other transaction it answers false as soon as one
    check fails (a reference absent from the UTXO set, a missing signature
    or public key, a signature that does not validate over the stripped
    preimage, an address that is not the one of the referenced output,
    outputs that exceed the inputs, a stored txid that is not the recomputed
    one), and true exactly when all of them pass.  In every case the caller
    receives a boolean: nothing is raised. *)
Theorem verify_checks (tx : Transaction) (u : UtxoDict) :
  (tx_coinbase tx = true -> verify tx u = Ok true) /\
  (tx_coinbase tx = false ->
     (check_fails tx u -> verify tx u = Ok false) /\
     (verify tx u = Ok true <-> checks_pass tx u)) /\
  (exists b, verify tx u = Ok b).
Proof.
  split; [|split].
  - intros Hcb. unfold verify. rewrite Hcb. reflexivity.
  - intros Hcb. split.
    + intros Hfail. destruct (verify_returns tx u) as [[|] Hb]; [|exact Hb].
      exfalso. eapply check_fails_not_pass; [exact Hfail|].
      apply verify_true_checks; assumption.
    + split; [apply verify_true_checks | apply checks_verify_true]; assumption.
  - apply verify_returns.
Qed.
End VerifyFacts.

(* ================================================================== *)
(** * The Merkle root *)
(* ================================================================== *)

Section MerkleFacts.
Context {float : Type} `{Lib : Library float}.

(* The record types, taken at the section's [float]. *)
#[local] Abbreviation Transaction := (Transaction float).
#[local] Abbreviation Block := (Block float).
#[local] Abbreviation State := (State float).
#[local] Abbreviation M := (M float).

Lemma div2_SS (n : nat) : Nat.div2 (S (S n) + 1) = S (Nat.div2 (n + 1)).
Proof. replace (S (S n) + 1)%nat with (S (S (n + 1))) by lia. reflexivity. Qed.

(** Walking the indices two by two visits the adjacent pairs. *)
Lemma merkle_at_pairs (pre l : list (option string)) (k : nat) :
  length pre = (2 * k)%nat ->
  mapM (merkle_at (pre ++ l)) (map (fun j => 2 * j)%nat (seq k (Nat.div2 (length l + 1))))
  = pair_up l.
Proof.
  revert pre k. induction l as [l IH] using (induction_ltof1 _ (@length _)).
  unfold ltof in IH. intros pre k Hpre.
  destruct l as [|x [|y rest]].
  - reflexivity.
  - change (mapM (merkle_at (pre ++ [x])) [(2 * k)%nat]
            = (h ← pair_hash x x; Ok [h])).
    assert (Hat : merkle_at (pre ++ [x]) (2 * k) = pair_hash x x).
    { unfold merkle_at, list_getitem.
      rewrite !lookup_app_r by lia.
      replace (2 * k - length pre)%nat with 0%nat by lia.
      rewrite bool_decide_eq_false_2 by (rewrite length_app; simpl; lia).
      reflexivity. }
    cbn [mapM]. rewrite Hat. destruct (pair_hash x x); reflexivity.
  - cbn [length]. rewrite div2_SS.
    change (mapM (merkle_at (pre ++ x :: y :: rest))
                 (map (fun j => (2 * j)%nat) (seq k (S (Nat.div2 (length rest + 1))))))
      with (h ← merkle_at (pre ++ x :: y :: rest) (2 * k)%nat;
            r ← mapM (merkle_at (pre ++ x :: y :: rest))
                     (map (fun j => (2 * j)%nat) (seq (S k) (Nat.div2 (length rest + 1))));
            mret (h :: r)).
    assert (Hat : merkle_at (pre ++ x :: y :: rest) (2 * k) = pair_hash x y).
    { unfold merkle_at, list_getitem.
      rewrite !lookup_app_r by lia.
      replace (2 * k - length pre)%nat with 0%nat by lia.
      replace (2 * k + 1 - length pre)%nat with 1%nat by lia.
      rewrite bool_decide_eq_true_2 by (rewrite length_app; simpl; lia).
      reflexivity. }
    rewrite Hat.
    replace (pre ++ x :: y :: rest) with ((pre ++ [x; y]) ++ rest)
      by (rewrite <- app_assoc; reflexivity).
    rewrite (IH rest) by (rewrite ?length_app; simpl; lia).
    reflexivity.
Qed.

(** The inner loop of the source computes the pairing of the
    specification. *)
Lemma merkle_next_pair_up (level : list (option string)) :
  merkle_next level = pair_up level.
Proof. exact (merkle_at_pairs [] level 0 eq_refl). Qed.

Lemma pair_up_length (level next : list (option string)) :
  pair_up level = Ok next -> length next = Nat.div2 (length level + 1).
Proof.
  revert next. induction level as [level IH] using (induction_ltof1 _ (@length _)).
  unfold ltof in IH. intros next.
  destruct level as [|x [|y rest]]; simpl.
  - intros [= <-]. reflexivity.
  - destruct (pair_hash x x); simpl; try discriminate. intros [= <-]. reflexivity.
  - destruct (pair_hash x y); simpl; try discriminate.
    destruct (pair_up rest) as [r| | |] eqn:Hr; simpl; try discriminate.
    intros [= <-].
    change (S (length r) = Nat.div2 (S (S (length rest)) + 1)).
    rewrite div2_SS. f_equal. apply IH; [simpl; lia | exact Hr].
Qed.

Lemma div2_lt (n : nat) : (1 < n -> Nat.div2 (n + 1) < n)%nat.
Proof.
  intros H. pose proof (Nat.div2_odd (n + 1)) as E.
  destruct (Nat.odd (n + 1)); simpl in E; lia.
Qed.

Lemma settled_pair_up (level : list (option string)) : settled (pair_up level).
Proof.
  assert (Hh : forall a b, settled (pair_hash a b)).
  { intros a b. unfold pair_hash.
    assert (Hf : forall o, settled (fromhex_opt o)).
    { intros [s|]; [apply settled_call | exact I]. }
    apply settled_bind; [apply Hf|]. intros ? _.
    apply settled_bind; [apply Hf|]. intros ? _. exact I. }
  induction level as [level IH] using (induction_ltof1 _ (@length _)).
  unfold ltof in IH.
  destruct level as [|x [|y rest]]; simpl.
  - exact I.
  - apply settled_bind; [apply Hh|]. intros; exact I.
  - apply settled_bind; [apply Hh|]. intros ? _.
    apply settled_bind; [apply IH; simpl; lia|]. intros; exact I.
Qed.

(** With the fuel [merkle_root_hex] gives it, the [while] loop comes to an
    end: it returns or raises. *)
Lemma settled_merkle_loop (fuel : nat) (level : list (option string)) :
  (length level <= fuel)%nat -> settled (merkle_loop fuel level).
Proof.
  revert level. induction fuel as [|fuel IH]; intros level Hlen.
  - simpl. rewrite bool_decide_eq_false_2 by lia.
    unfold list_getitem. destruct (level !! 0%nat); exact I.
  - simpl. case_bool_decide as Hgt.
    + rewrite merkle_next_pair_up.
      apply settled_bind; [apply settled_pair_up|]. intros nxt Hnxt.
      apply IH. apply pair_up_length in Hnxt. pose proof (div2_lt _ Hgt). lia.
    + unfold list_getitem. destruct (level !! 0%nat); exact I.
Qed.

Lemma merkle_loop_reduces (fuel : nat) (level : list (option string)) (root : option string) :
  (length level <= fuel)%nat ->
  merkle_loop fuel level = Ok root <-> merkle_reduces level root.
Proof.
  intros Hlen. split.
  - revert level Hlen. induction fuel as [|fuel IH]; intros level Hlen.
    + destruct level; [|simpl in Hlen; lia]. discriminate.
    + simpl. case_bool_decide as Hgt.
      * rewrite merkle_next_pair_up. intros H.
        apply bind_Ok in H as (nxt & Hnxt & H).
        eapply reduces_step; [exact Hgt|exact Hnxt|].
        apply IH; [|exact H].
        apply pair_up_length in Hnxt. pose proof (div2_lt _ Hgt). lia.
      * destruct level as [|x [|y rest]]; simpl in *; try lia; [discriminate|].
        intros [= <-]. constructor.
  - intros Hred. revert fuel Hlen.
    induction Hred as [x|level next root Hgt Hnext Hred IH]; intros fuel Hlen.
    + destruct fuel; reflexivity.
    + destruct fuel as [|fuel]; [lia|]. simpl.
      rewrite bool_decide_eq_true_2 by exact Hgt.
      rewrite merkle_next_pair_up, Hnext. simpl.
      apply IH. apply pair_up_length in Hnext. pose proof (div2_lt _ Hgt). lia.
Qed.


(** *** The order of the txids *)









End MerkleFacts.

(* ================================================================== *)
(** * Dictionaries *)
(* ================================================================== *)

Section DictFacts.
Context {K V : Type} `{EqDecision K}.
Implicit Types (d : dict K V) (k : K) (v : V).

Lemma dict_get_None d k : dict_get d k = None <-> k ∉ dict_keys d.
Proof.
  induction d as [|[k' v'] d IH]; simpl.
  - split; [intros _; apply not_elem_of_nil | reflexivity].
  - destruct (decide (k' = k)) as [->|Hne].
    + split; [discriminate|]. intros H. exfalso. apply H. left.
    + rewrite IH, not_elem_of_cons. split; [auto|tauto].
Qed.

Lemma dict_contains_true d k : dict_contains d k = true <-> k ∈ dict_keys d.
Proof.
  unfold dict_contains. destruct (dict_get d k) eqn:Hg.
  - split; [intros _|reflexivity].
    destruct (decide (k ∈ dict_keys d)) as [Hin|Hnin]; [exact Hin|].
    apply dict_get_None in Hnin. congruence.
  - apply dict_get_None in Hg. split; [discriminate|contradiction].
Qed.

Lemma dict_contains_false d k : dict_contains d k = false <-> k ∉ dict_keys d.
Proof.
  rewrite <- dict_contains_true. destruct (dict_contains d k); split; congruence.
Qed.

Lemma dict_keys_remove_subseteq d k k' :
  k' ∈ dict_keys (dict_remove d k) -> k' ∈ dict_keys d.
Proof.
  induction d as [|[k0 v0] d IH]; simpl; [trivial|].
  destruct (decide (k0 = k)) as [->|Hne]; simpl.
  - intros H. right. exact H.
  - rewrite !elem_of_cons. intros [->|H]; [left; reflexivity|right; auto].
Qed.

Lemma dict_keys_remove_ne d k k' :
  k' ≠ k -> k' ∈ dict_keys d -> k' ∈ dict_keys (dict_remove d k).
Proof.
  intros Hne. induction d as [|[k0 v0] d IH]; simpl; [trivial|].
  destruct (decide (k0 = k)) as [->|Hne0]; simpl.
  - rewrite elem_of_cons. intros [->|H]; [contradiction|exact H].
  - rewrite !elem_of_cons. intros [->|H]; [left; reflexivity|right; auto].
Qed.

Lemma dict_remove_NoDup d k : NoDup (dict_keys d) -> NoDup (dict_keys (dict_remove d k)).
Proof.
  induction d as [|[k0 v0] d IH]; simpl; [trivial|].
  rewrite NoDup_cons. intros [Hnin Hnd].
  destruct (decide (k0 = k)) as [->|Hne]; simpl; [exact Hnd|].
  apply NoDup_cons. split; [|auto].
  intros Hin. apply Hnin. eapply dict_keys_remove_subseteq, Hin.
Qed.

Lemma dict_remove_gone d k : NoDup (dict_keys d) -> k ∉ dict_keys (dict_remove d k).
Proof.
  induction d as [|[k0 v0] d IH]; simpl; [intros _; apply not_elem_of_nil|].
  rewrite NoDup_cons. intros [Hnin Hnd].
  destruct (decide (k0 = k)) as [->|Hne]; simpl; [exact Hnin|].
  rewrite not_elem_of_cons. split; [congruence|auto].
Qed.

Lemma dict_keys_set d k v :
  dict_keys (dict_set d k v) = if dict_contains d k then dict_keys d else dict_keys d ++ [k].
Proof.
  unfold dict_contains. induction d as [|[k0 v0] d IH]; simpl; [reflexivity|].
  destruct (decide (k0 = k)) as [->|Hne]; simpl; [reflexivity|].
  rewrite IH. destruct (dict_get d k); reflexivity.
Qed.

Lemma dict_set_NoDup d k v : NoDup (dict_keys d) -> NoDup (dict_keys (dict_set d k v)).
Proof.
  intros Hnd. rewrite dict_keys_set.
  destruct (dict_contains d k) eqn:Hc; [exact Hnd|].
  apply dict_contains_false in Hc.
  apply NoDup_app. split; [exact Hnd|]. split.
  - intros x Hx Hx'. apply list_elem_of_singleton in Hx'. subst. contradiction.
  - apply NoDup_singleton.
Qed.
Lemma dict_set_fresh d k v : k ∉ dict_keys d -> dict_set d k v = d ++ [(k, v)].
Proof.
  induction d as [|[k0 v0] d IH]; simpl; [reflexivity|].
  rewrite not_elem_of_cons. intros [Hne Hnin].
  destruct (decide (k0 = k)) as [->|_]; [contradiction|]. rewrite IH by exact Hnin.
  reflexivity.
Qed.
End DictFacts.

Section DictMore.
Context {K V : Type} `{EqDecision K}.
Implicit Types (d : dict K V) (k : K) (v : V).

Lemma dict_get_elem d k v : NoDup (dict_keys d) -> (k, v) ∈ d -> dict_get d k = Some v.
Proof.
  induction d as [|[k0 v0] d IH]; simpl.
  - intros _ Hin. apply elem_of_nil in Hin. contradiction.
  - rewrite NoDup_cons, elem_of_cons. intros [Hnin Hnd] [Heq|Hin].
    + injection Heq as -> ->. rewrite decide_True by reflexivity. reflexivity.
    + destruct (decide (k0 = k)) as [->|_]; [|auto].
      exfalso. apply Hnin. apply list_elem_of_fmap. exists (k, v). auto.
Qed.

Lemma dict_get_Some_elem d k v : dict_get d k = Some v -> (k, v) ∈ d.
Proof.
  induction d as [|[k0 v0] d IH]; simpl; [discriminate|].
  destruct (decide (k0 = k)) as [->|_].
  - intros [= ->]. left.
  - intros H. right. auto.
Qed.

Lemma dict_get_remove_ne d k k' :
  k' <> k -> dict_get (dict_remove d k) k' = dict_get d k'.
Proof.
  intros Hne. induction d as [|[k0 v0] d IH]; simpl; [reflexivity|].
  destruct (decide (k0 = k)) as [->|Hne0]; simpl.
  - rewrite decide_False by congruence. reflexivity.
  - rewrite IH. reflexivity.
Qed.

Lemma dict_get_set_eq d k v : dict_get (dict_set d k v) k = Some v.
Proof.
  induction d as [|[k0 v0] d IH]; simpl.
  - rewrite decide_True by reflexivity. reflexivity.
  - destruct (decide (k0 = k)) as [->|Hne]; simpl.
    + rewrite decide_True by reflexivity. reflexivity.
    + rewrite decide_False by exact Hne. exact IH.
Qed.

Lemma dict_get_set_ne d k k' v :
  k' <> k -> dict_get (dict_set d k v) k' = dict_get d k'.
Proof.
  intros Hne. induction d as [|[k0 v0] d IH]; simpl.
  - rewrite decide_False by congruence. reflexivity.
  - destruct (decide (k0 = k)) as [->|Hne0]; simpl.
    + rewrite !decide_False by congruence. reflexivity.
    + rewrite IH. reflexivity.
Qed.
End DictMore.

(* ================================================================== *)
(** * The ledger operations, run *)
(* ================================================================== *)

Section StateFacts.
Context {float : Type} `{Lib : Library float} `{Cfg : Config}.

(* The record types, taken at the section's [float]. *)
#[local] Abbreviation Transaction := (Transaction float).
#[local] Abbreviation Block := (Block float).
#[local] Abbreviation State := (State float).
#[local] Abbreviation M := (M float).

(** *** Equations of the monad and of the loops *)

Lemma bindM_run {A B} (m : M A) (f : A -> M B) (s : State) :
  (m ≫= f) s =
  match m s with
  | (Ok a, s') => f a s'
  | (Raise e, s') => (Raise e, s')
  | (OutOfFuel, s') => (OutOfFuel, s')
  | (Untyped, s') => (Untyped, s')
  end.
Proof. reflexivity. Qed.

Lemma bindM_ok {A B} (m : M A) (f : A -> M B) (s s' : State) (a : A) :
  m s = (Ok a, s') -> (m ≫= f) s = f a s'.
Proof. intros H. rewrite bindM_run, H. reflexivity. Qed.

Lemma for_each_cons {A} (body : A -> M unit) (x : A) (l : list A) (s : State) :
  for_each body (x :: l) s = (body x ≫= fun _ => for_each body l) s.
Proof. reflexivity. Qed.

Lemma for_loopM_cons {A S R} (body : A -> S -> M (R + S)) x l acc (s : State) :
  for_loopM body (x :: l) acc s =
  match body x acc s with
  | (Ok (inl v), s') => (Ok (inl v), s')
  | (Ok (inr acc'), s') => for_loopM body l acc' s'
  | (Raise e, s') => (Raise e, s')
  | (OutOfFuel, s') => (OutOfFuel, s')
  | (Untyped, s') => (Untyped, s')
  end.
Proof.
  cbn [for_loopM]. rewrite bindM_run.
  destruct (body x acc s) as [[[v|acc']| | |] s']; reflexivity.
Qed.

Lemma foldM_cons {A S} (body : A -> S -> M S) x l acc (s : State) :
  foldM body (x :: l) acc s =
  match body x acc s with
  | (Ok acc', s') => foldM body l acc' s'
  | (Raise e, s') => (Raise e, s')
  | (OutOfFuel, s') => (OutOfFuel, s')
  | (Untyped, s') => (Untyped, s')
  end.
Proof. reflexivity. Qed.

(** *** References *)

Lemma deref_store (r : dref) (d : UtxoDict) (s : State) :
  valid r s -> deref r (store r d s) = d.
Proof.
  destruct r as [|n]; simpl; [reflexivity|]. intros Hn.
  rewrite list_lookup_insert_eq by exact Hn. reflexivity.
Qed.

Lemma store_store (r : dref) (d d' : UtxoDict) (s : State) :
  store r d' (store r d s) = store r d' s.
Proof.
  destruct r as [|n]; simpl; unfold with_utxos, with_temps; simpl; [reflexivity|].
  rewrite list_insert_insert_eq. reflexivity.
Qed.

Lemma store_deref (r : dref) (s : State) :
  valid r s -> store r (deref r s) s = s.
Proof.
  destruct r as [|n]; unfold store, deref, valid.
  - intros _. destruct s; reflexivity.
  - intros Hn. destruct (temps s !! n) as [d|] eqn:Hd.
    + simpl. rewrite list_insert_id by exact Hd. destruct s; reflexivity.
    + apply lookup_ge_None_1 in Hd. lia.
Qed.

Lemma valid_store (r r' : dref) (d : UtxoDict) (s : State) :
  valid r s -> valid r (store r' d s).
Proof.
  destruct r as [|n]; [trivial|]. destruct r' as [|m]; simpl; [trivial|].
  rewrite length_insert. trivial.
Qed.

(** Adding outputs through a reference. *)
Lemma put_output_run (r : dref) (tx : Transaction) (io : Z * TxOutput) (s : State) :
  put_output r tx io s
  = (Ok tt, store r (dict_set (deref r s) (tx_txid tx, fst io) (snd io)) s).
Proof. reflexivity. Qed.

Lemma add_outputs_run (r : dref) (tx : Transaction) (s : State) :
  valid r s ->
  add_outputs r tx s = (Ok tt, store r (put_outputs (deref r s) tx) s).
Proof.
  unfold add_outputs, put_outputs. generalize (enumerate (tx_outputs tx)) as l.
  intros l. revert s. induction l as [|io l IH]; intros s Hv.
  - simpl. rewrite store_deref by exact Hv. reflexivity.
  - rewrite for_each_cons, (bindM_ok _ _ _ _ _ (put_output_run r tx io s)).
    rewrite IH by (apply valid_store; exact Hv).
    rewrite deref_store by exact Hv. rewrite store_store. reflexivity.
Qed.

(** Spending inputs through a reference. *)
Lemma spend_input_run (r : dref) (tin : TxInput) (s : State) :
  spend_input r tin tt s
  = if dict_contains (deref r s) (ref_of tin)
    then (Ok (inr tt), store r (dict_remove (deref r s) (ref_of tin)) s)
    else (Ok (inl false), s).
Proof.
  unfold spend_input. rewrite bindM_run. unfold contains_at at 1, gets.
  destruct (dict_contains (deref r s) (ref_of tin)) eqn:Hc; cbn [negb]; [|reflexivity].
  rewrite bindM_run. unfold delitem_at, dict_del. rewrite Hc. reflexivity.
Qed.

Lemma spend_inputs_run (r : dref) (tx : Transaction) (s : State) :
  valid r s ->
  spend_inputs r tx s
  = (Ok (fst (spend_run (deref r s) (tx_inputs tx))),
     store r (snd (spend_run (deref r s) (tx_inputs tx))) s).
Proof.
  unfold spend_inputs. generalize (tx_inputs tx) as ins.
  intros ins. revert s. induction ins as [|tin ins IH]; intros s Hv.
  - simpl. rewrite store_deref by exact Hv. reflexivity.
  - rewrite for_loopM_cons, spend_input_run. cbn [spend_run].
    destruct (dict_contains (deref r s) (ref_of tin)) eqn:Hc.
    + rewrite IH by (apply valid_store; exact Hv).
      rewrite deref_store by exact Hv. rewrite store_store. reflexivity.
    + simpl. rewrite store_deref by exact Hv. reflexivity.
Qed.

Lemma spend_run_inl (u : UtxoDict) (ins : list TxInput) (b : bool) (u' : UtxoDict) :
  spend_run u ins = (inl b, u') -> b = false.
Proof.
  revert u. induction ins as [|tin ins IH]; intros u; simpl; [discriminate|].
  destruct (dict_contains u (ref_of tin)); [apply IH|]. congruence.
Qed.

(** One step of the replay loop of [validate_block]. *)
Lemma validate_tx_run (r : dref) (tx : Transaction) (s : State) :
  valid r s ->
  validate_tx r tx tt s
  = (fst (tx_step (deref r s) tx), store r (snd (tx_step (deref r s) tx)) s).
Proof.
  intros Hv. unfold validate_tx, tx_step.
  destruct (tx_coinbase tx) eqn:Hcb.
  - rewrite bindM_run. cbn [mret M_ret]. cbn beta iota.
    rewrite bindM_run, add_outputs_run by exact Hv. reflexivity.
  - rewrite bindM_run. rewrite bindM_run. unfold verify_at at 1.
    destruct (verify tx (deref r s)) as [[|]| | |]; cbn [mret M_ret negb fst snd];
      cbn beta iota; [|rewrite store_deref by exact Hv; reflexivity..].
    rewrite bindM_run, spend_inputs_run by exact Hv.
    destruct (spend_run (deref r s) (tx_inputs tx)) as [[b|[]] u1];
      cbn [fst snd]; cbn beta iota.
    + reflexivity.
    + rewrite bindM_run, add_outputs_run by (apply valid_store; exact Hv).
      rewrite deref_store by exact Hv. rewrite store_store. reflexivity.
Qed.

Lemma replay_loop_run (r : dref) (txs : list Transaction) (s : State) :
  valid r s ->
  for_loopM (validate_tx r) txs tt s
  = (fst (replay_run (deref r s) txs), store r (snd (replay_run (deref r s) txs)) s).
Proof.
  revert s. induction txs as [|tx txs IH]; intros s Hv.
  - simpl. rewrite store_deref by exact Hv. reflexivity.
  - rewrite for_loopM_cons, validate_tx_run by exact Hv. cbn [replay_run].
    destruct (tx_step (deref r s) tx) as [[[b|[]]| | |] u1]; cbn [fst snd];
      try reflexivity.
    rewrite IH by (apply valid_store; exact Hv).
    rewrite deref_store by exact Hv. rewrite store_store. reflexivity.
Qed.

(** [apply_tx] does to the live dictionary what one replay step does to
    the copy. *)
Lemma apply_tx_run (tx : Transaction) (s : State) :
  apply_tx tx s
  = (to_bool <$> fst (tx_step (utxos s) tx), with_utxos (snd (tx_step (utxos s) tx)) s).
Proof.
  unfold apply_tx, tx_step.
  destruct (tx_coinbase tx) eqn:Hcb.
  - rewrite bindM_run, add_outputs_run by exact I. reflexivity.
  - rewrite bindM_run. unfold verify_at at 1. cbn [deref].
    destruct (verify tx (utxos s)) as [[|]| | |]; cbn [negb]; cbn beta iota;
      try (destruct s; reflexivity).
    rewrite bindM_run, spend_inputs_run by exact I. cbn [deref store].
    destruct (spend_run (utxos s) (tx_inputs tx)) as [[b|[]] u1];
      cbn [fst snd]; cbn beta iota.
    + reflexivity.
    + rewrite bindM_run, add_outputs_run by exact I. reflexivity.
Qed.

(** *** [validate_block] *)

Lemma dict_copy_run (r : dref) (s : State) :
  dict_copy r s = (Ok (Temp (length (temps s))), with_temps (temps s ++ [deref r s]) s).
Proof. reflexivity. Qed.

Lemma deref_fresh (d : UtxoDict) (s : State) :
  deref (Temp (length (temps s))) (with_temps (temps s ++ [d]) s) = d.
Proof.
  unfold deref, with_temps. cbn [temps].
  rewrite lookup_app_r by lia. rewrite Nat.sub_diag. reflexivity.
Qed.

Lemma store_fresh (d d' : UtxoDict) (s : State) :
  store (Temp (length (temps s))) d' (with_temps (temps s ++ [d]) s)
  = with_temps (temps s ++ [d']) s.
Proof.
  unfold store, with_temps. cbn [temps chain utxos mempool chain_file utxo_file
                                   mempool_file].
  rewrite insert_app_r_alt by lia. rewrite Nat.sub_diag. reflexivity.
Qed.

Lemma truthy_Some (o : option string) :
  truthy o = true -> exists h, o = Some h /\ h <> "".
Proof.
  destruct o as [h|]; [|discriminate]. simpl. intros H. exists h. split; [reflexivity|].
  intros ->. discriminate.
Qed.

(** Either [validate_block] stops at a stateless check, the state
    untouched and the answer not [True], or the stateless conditions hold
    and the answer is that of the replay over a copy of the live
    dictionary, the copy being the one new object. *)
Lemma validate_block_cases (block prev : Block) (s : State) :
  (exists r, validate_block block prev s = (r, s) /\ r <> Ok true /\
             ~ block_header_ok block prev) \/
  (block_header_ok block prev /\
   validate_block block prev s
   = (to_bool <$> fst (replay_run (utxos s) (blk_txs block)),
      with_temps (temps s ++ [snd (replay_run (utxos s) (blk_txs block))]) s)).
Proof.
  unfold validate_block.
  case_bool_decide as Hprev; cbn [negb].
  2:{ left; eexists; split; [reflexivity|split; [discriminate|]].
      intros [H _ _ _ _]. congruence. }
  destruct (truthy (blk_hash block)) eqn:Hth; cbn [negb orb].
  2:{ left; eexists; split; [reflexivity|split; [discriminate|]].
      intros [_ (h & Hh & Hne & _) _ _ _]. rewrite Hh in Hth. simpl in Hth.
      destruct h; [contradiction|discriminate]. }
  destruct (startswith _ _) eqn:Hpow; cbn [negb].
  2:{ left; eexists; split; [reflexivity|split; [discriminate|]].
      intros [_ (h & Hh & _ & Hp) _ _ _]. rewrite Hh in Hpow. simpl in Hpow.
      congruence. }
  case_bool_decide as Hhash; cbn [negb].
  2:{ left; eexists; split; [reflexivity|split; [discriminate|]].
      intros [_ _ H _ _]. congruence. }
  rewrite bindM_run. unfold lift.
  destruct (compute_merkle block) as [m| | |] eqn:Hm; cbn beta iota;
    try (left; eexists; split; [reflexivity|split; [discriminate|]];
         intros [_ _ _ H _]; congruence).
  case_bool_decide as Hmr; cbn [negb].
  2:{ left; eexists; split; [reflexivity|split; [discriminate|]].
      intros [_ _ _ H _]. congruence. }
  destruct (blk_txs block) as [|tx0 rest] eqn:Htxs.
  { left; eexists; split; [reflexivity|split; [discriminate|]].
    intros [_ _ _ _ (? & ? & Heq & _)]. rewrite Htxs in Heq. discriminate. }
  destruct (tx_coinbase tx0) eqn:Hcb; cbn [negb].
  2:{ left; eexists; split; [reflexivity|split; [discriminate|]].
      intros [_ _ _ _ (? & ? & Heq & ? & _)]. rewrite Htxs in Heq.
      injection Heq as <- <-. congruence. }
  case_bool_decide as Hrew; cbn [negb].
  2:{ left; eexists; split; [reflexivity|split; [discriminate|]].
      intros [_ _ _ _ (? & ? & Heq & _ & ?)]. rewrite Htxs in Heq.
      injection Heq as <- <-. congruence. }
  right. split.
  - destruct (truthy_Some _ Hth) as (h & Hh & Hne).
    split.
    + congruence.
    + exists h. split; [exact Hh|]. split; [exact Hne|].
      rewrite Hh in Hpow. exact Hpow.
    + congruence.
    + congruence.
    + exists tx0, rest. auto.
  - rewrite bindM_run, dict_copy_run.
    rewrite bindM_run, replay_loop_run by (cbn; rewrite length_app; simpl; lia).
    rewrite !deref_fresh, store_fresh. cbn [deref].
    destruct (replay_run (utxos s) (tx0 :: rest)) as [[[b|[]]| | |] u']; reflexivity.
Qed.

(** *** Replay as a relation and as a run *)

Lemma tx_step_inl (u u' : UtxoDict) (tx : Transaction) (b : bool) :
  tx_step u tx = (Ok (inl b), u') -> b = false.
Proof.
  unfold tx_step. destruct (tx_coinbase tx); [discriminate|].
  destruct (verify tx u) as [[|]| | |]; try discriminate.
  - destruct (spend_run u (tx_inputs tx)) as [[b'|[]] u1] eqn:Hs; [|discriminate].
    intros [= <- <-]. eapply spend_run_inl, Hs.
  - congruence.
Qed.

Lemma replay_run_inl (u u' : UtxoDict) (txs : list Transaction) (b : bool) :
  replay_run u txs = (Ok (inl b), u') -> b = false.
Proof.
  revert u. induction txs as [|tx txs IH]; intros u; simpl; [discriminate|].
  destruct (tx_step u tx) as [[[b'|[]]| | |] u1] eqn:Hs; try discriminate.
  - intros [= <- <-]. eapply tx_step_inl, Hs.
  - apply IH.
Qed.

Lemma tx_step_inr (u u' : UtxoDict) (tx : Transaction) :
  tx_step u tx = (Ok (inr tt), u') <->
  (tx_coinbase tx = true /\ u' = put_outputs u tx) \/
  (tx_coinbase tx = false /\ verify tx u = Ok true /\
   exists u1, spend u (tx_inputs tx) = Some u1 /\ u' = put_outputs u1 tx).
Proof.
  unfold tx_step, spend. destruct (tx_coinbase tx).
  - split.
    + intros [= <-]. left. auto.
    + intros [[_ ->]|[? _]]; [reflexivity|discriminate].
  - split.
    + destruct (verify tx u) as [[|]| | |]; try discriminate.
      destruct (spend_run u (tx_inputs tx)) as [[b|[]] u1]; [discriminate|].
      intros [= <-]. right. eauto.
    + intros [[? _]|(_ & -> & u1 & Hs & ->)]; [discriminate|].
      destruct (spend_run u (tx_inputs tx)) as [[b|[]] u2]; [discriminate|].
      congruence.
Qed.

Lemma replay_run_replay (u u' : UtxoDict) (txs : list Transaction) :
  replay_run u txs = (Ok (inr tt), u') <-> replay u txs u'.
Proof.
  split.
  - revert u. induction txs as [|tx txs IH]; intros u; simpl.
    + intros [= <-]. constructor.
    + destruct (tx_step u tx) as [[[b|[]]| | |] u1] eqn:Hs; try discriminate.
      intros H. apply IH in H. apply tx_step_inr in Hs.
      destruct Hs as [[Hcb ->]|(Hcb & Hv & u2 & Hsp & ->)].
      * apply replay_coinbase; assumption.
      * eapply replay_spend; eassumption.
  - induction 1 as [u|u tx txs u' Hcb _ IH|u tx txs u1 u' Hcb Hv Hsp _ IH]; simpl.
    + reflexivity.
    + rewrite (proj2 (tx_step_inr u _ tx) (or_introl (conj Hcb eq_refl))). exact IH.
    + rewrite (proj2 (tx_step_inr u _ tx)
                 (or_intror (conj Hcb (conj Hv (ex_intro _ u1 (conj Hsp eq_refl)))))).
      exact IH.
Qed.

(** [validate_block] answers [True] exactly when the stateless conditions
    hold and the replay goes through. *)
Lemma validate_block_true (block prev : Block) (s s' : State) :
  validate_block block prev s = (Ok true, s') <->
  block_header_ok block prev /\
  exists u', replay (utxos s) (blk_txs block) u' /\
             s' = with_temps (temps s ++ [u']) s.
Proof.
  destruct (validate_block_cases block prev s) as [(r & Hr & Hne & Hno)|[Hhdr Hr]];
    rewrite Hr.
  - split.
    + intros [= -> _]. contradiction.
    + intros [Hhdr _]. contradiction.
  - destruct (replay_run (utxos s) (blk_txs block)) as [[[b|[]]| | |] u'] eqn:Hrun;
      cbn [fst snd fmap result_fmap to_bool].
    + apply replay_run_inl in Hrun as Hb. subst b. split; [discriminate|].
      intros (_ & u2 & Hrep & _). apply replay_run_replay in Hrep. congruence.
    + split.
      * intros [= <-]. split; [exact Hhdr|]. exists u'. split; [|reflexivity].
        apply replay_run_replay. exact Hrun.
      * intros (_ & u2 & Hrep & ->). apply replay_run_replay in Hrep.
        rewrite Hrun in Hrep. injection Hrep as <-. reflexivity.
    + split; [discriminate|].
      intros (_ & u2 & Hrep & _). apply replay_run_replay in Hrep. congruence.
    + split; [discriminate|].
      intros (_ & u2 & Hrep & _). apply replay_run_replay in Hrep. congruence.
    + split; [discriminate|].
      intros (_ & u2 & Hrep & _). apply replay_run_replay in Hrep. congruence.
Qed.

(** C2.  When [validate_block] answers true, the block names the hash of
    the previous block as its predecessor; its own hash is there, starts
    with [DIFFICULTY] zero characters, and is the hash recomputed from the
    header; the stored Merkle root is the one recomputed from the txids; the
    first transaction is a coinbase whose outputs add up to [BLOCK_REWARD]
    exactly; and the transactions replay in order from the live UTXO
    dictionary, each verified against, and applied to, the dictionary the
    previous ones left. *)
Theorem validate_block_sound (block prev : Block) (s s' : State) :
  validate_block block prev s = (Ok true, s') ->
  blk_hash prev = Some (blk_prev_hash block) /\
  (exists h, blk_hash block = Some h /\
             startswith h (str_repeat "0" DIFFICULTY) = true /\
             h = compute_hash block) /\
  compute_merkle block = Ok (blk_merkle_root block) /\
  (exists tx0 rest,
     blk_txs block = tx0 :: rest /\ tx_coinbase tx0 = true /\
     sum_Z (map out_amount (tx_outputs tx0)) = BLOCK_REWARD) /\
  (exists u', replay (utxos s) (blk_txs block) u').
Proof.
  intros H. apply validate_block_true in H as [[Hprev Hpow Hhash Hm Hcb] (u' & Hrep & _)].
  split; [exact Hprev|]. split; [|split; [exact Hm|split; [exact Hcb|eauto]]].
  destruct Hpow as (h & Hh & _ & Hp). exists h. split; [exact Hh|].
  split; [exact Hp|]. congruence.
Qed.

(** C5.  Whatever its answer, [validate_block] leaves the chain, the live
    UTXO dictionary, the mempool and the three files as they were: the
    replay writes to a dictionary object of its own, created by the call.
    The dictionaries created earlier are untouched as well. *)
Theorem validate_block_frame (block prev : Block) (s : State) :
  chain (snd (validate_block block prev s)) = chain s /\
  utxos (snd (validate_block block prev s)) = utxos s /\
  mempool (snd (validate_block block prev s)) = mempool s /\
  frame s (snd (validate_block block prev s)).
Proof.
  assert (Hf : frame s (snd (validate_block block prev s))).
  { destruct (validate_block_cases block prev s) as [(r & Hr & _)|[_ Hr]];
      rewrite Hr; cbn [snd].
    - split; try reflexivity. exists []. rewrite app_nil_r. reflexivity.
    - split; try reflexivity. eexists. reflexivity. }
  destruct Hf as [? ? ? ? ? ? ?]. repeat split; assumption.
Qed.
End StateFacts.

(* ================================================================== *)
(** * Accepting blocks and transactions *)
(* ================================================================== *)

Section LedgerFacts.
Context {float : Type} `{Lib : Library float} `{Cfg : Config}.

(* The record types, taken at the section's [float]. *)
#[local] Abbreviation Transaction := (Transaction float).
#[local] Abbreviation Block := (Block float).
#[local] Abbreviation State := (State float).
#[local] Abbreviation M := (M float).

Lemma settled_to_dict (t : Transaction) (b : bool) : settled (Transaction_to_dict t b).
Proof.
  unfold Transaction_to_dict. apply settled_bind; [|intros; exact I].
  apply settled_mapM. intros i. unfold TxInput_to_dict.
  destruct (tin_class i); exact I.
Qed.

Lemma settled_tx_to_raw (t : Transaction) : settled (tx_to_raw t).
Proof.
  unfold tx_to_raw. apply settled_bind; [apply settled_to_dict|].
  intros [] _; exact I.
Qed.

Lemma settled_block_to_raw (b : Block) : settled (block_to_raw b).
Proof.
  unfold block_to_raw. apply settled_bind; [|intros; exact I].
  apply settled_mapM, settled_tx_to_raw.
Qed.

(** The state of the files after the first two writes of [_persist]. *)
Definition persisted_upto_utxos (blocks : list (pyval float)) (s : State) : State :=
  with_mempool_file Empty
    (with_utxo_file (Json (utxos_to_raw (utxos s)))
       (with_chain_file (Json (PDict [("chain", PList blocks)])) s)).

Lemma persist_run (s : State) :
  _persist s =
  match mapM block_to_raw (chain s) with
  | Ok blocks =>
      match mapM tx_to_raw (mempool s) with
      | Ok txs => (Ok tt, with_mempool_file (Json (PList txs))
                            (persisted_upto_utxos blocks s))
      | Raise e => (Raise e, persisted_upto_utxos blocks s)
      | OutOfFuel => (OutOfFuel, persisted_upto_utxos blocks s)
      | Untyped => (Untyped, persisted_upto_utxos blocks s)
      end
  | Raise e => (Raise e, s)
  | OutOfFuel => (OutOfFuel, s)
  | Untyped => (Untyped, s)
  end.
Proof.
  unfold _persist. rewrite bindM_run. unfold gets at 1. cbn beta iota.
  rewrite bindM_run. unfold lift at 1.
  destruct (mapM block_to_raw (chain s)) as [blocks|e| |]; reflexivity.
Qed.

(** [_persist] writes files and nothing else; it returns, or raises on a
    transaction whose inputs cannot be serialised. *)
Lemma persist_memory (s : State) :
  same_memory s (snd (_persist s)) /\
  (fst (_persist s) = Ok tt \/ exists e, fst (_persist s) = Raise e).
Proof.
  rewrite persist_run. unfold same_memory.
  pose proof (settled_mapM block_to_raw (chain s) settled_block_to_raw) as Hc.
  pose proof (settled_mapM tx_to_raw (mempool s) settled_tx_to_raw) as Hm.
  destruct (mapM block_to_raw (chain s)) as [blocks|e| |]; try contradiction;
    [|cbn; eauto 7].
  destruct (mapM tx_to_raw (mempool s)) as [txs|e| |]; try contradiction;
    cbn; eauto 7.
Qed.

(** *** Folding a block into the ledger *)

Lemma with_utxos_id (s : State) : with_utxos (utxos s) s = s.
Proof. destruct s; reflexivity. Qed.

Lemma with_mempool_id (s : State) : with_mempool (mempool s) s = s.
Proof. destruct s; reflexivity. Qed.

Lemma prune_nil (mp : list Transaction) : prune [] mp = mp.
Proof.
  unfold prune. induction mp as [|t mp IH]; [reflexivity|].
  rewrite filter_cons_True by (simpl; apply not_elem_of_nil). congruence.
Qed.

Lemma prune_cons (tx : Transaction) (txs mp : list Transaction) :
  prune (tx :: txs) mp = prune txs (filter (fun t => tx_txid t ≠ tx_txid tx) mp).
Proof.
  unfold prune. rewrite list_filter_filter. apply list_filter_iff.
  intros t. simpl. rewrite not_elem_of_cons. tauto.
Qed.

Lemma commit_tx_run (tx : Transaction) (s : State) (u' : UtxoDict) :
  tx_step (utxos s) tx = (Ok (inr tt), u') ->
  commit_tx tx s
  = (Ok tt, with_mempool (filter (fun t => tx_txid t ≠ tx_txid tx) (mempool s))
                         (with_utxos u' s)).
Proof.
  intros Hstep. unfold commit_tx. rewrite bindM_run, apply_tx_run, Hstep.
  reflexivity.
Qed.

(** When the transactions replay from the live dictionary, the commit loop
    applies every one of them and prunes the mempool. *)
Lemma commit_txs_replay (txs : list Transaction) (s : State) (u' : UtxoDict) :
  replay (utxos s) txs u' ->
  commit_txs txs s = (Ok tt, with_mempool (prune txs (mempool s)) (with_utxos u' s)).
Proof.
  intros Hrep. apply replay_run_replay in Hrep.
  revert s Hrep. induction txs as [|tx txs IH]; intros s Hrep.
  - simpl in Hrep. injection Hrep as <-.
    rewrite prune_nil, with_utxos_id, with_mempool_id. reflexivity.
  - simpl in Hrep.
    destruct (tx_step (utxos s) tx) as [[[b|[]]| | |] u1] eqn:Hstep; try discriminate.
    unfold commit_txs. rewrite for_each_cons.
    rewrite (bindM_ok _ _ _ _ _ (commit_tx_run tx s u1 Hstep)).
    fold (commit_txs txs). rewrite IH by exact Hrep.
    rewrite prune_cons. destruct s; reflexivity.
Qed.

Lemma latest_block_run (s : State) :
  latest_block s
  = (match list.last (chain s) with Some b => Ok b | None => Raise IndexError end, s).
Proof. reflexivity. Qed.

(** C4.  A block whose index is not the length of the chain is turned
    down with nothing changed, whatever else is true of it.  A block whose
    index is the length of the chain and that [validate_block] accepts
    against the last block of the chain is taken in: every transaction is
    applied to the live UTXO dictionary (which ends as the replay of the
    block leaves it), the mempool loses the transactions whose txid is that
    of a transaction of the block, and the block goes to the end of the
    chain; the answer is true unless writing the files raises. *)
Theorem try_add_block_spec (block : Block) (s : State) :
  (blk_index block <> Z.of_nat (length (chain s)) ->
   try_add_block block s = (Ok false, s)) /\
  (forall prev s1,
     blk_index block = Z.of_nat (length (chain s)) ->
     list.last (chain s) = Some prev ->
     validate_block block prev s = (Ok true, s1) ->
     exists u',
       replay (utxos s) (blk_txs block) u' /\
       utxos (snd (try_add_block block s)) = u' /\
       mempool (snd (try_add_block block s)) = prune (blk_txs block) (mempool s) /\
       chain (snd (try_add_block block s)) = chain s ++ [block] /\
       (fst (try_add_block block s) = Ok true \/
        exists e, fst (try_add_block block s) = Raise e)).
Proof.
  split.
  - intros Hidx. unfold try_add_block. rewrite bindM_run. unfold gets at 1.
    cbn beta iota. rewrite bool_decide_eq_false_2 by exact Hidx. reflexivity.
  - intros prev s1 Hidx Hlast Hval.
    apply validate_block_true in Hval as Hval'.
    destruct Hval' as (_ & u' & Hrep & ->).
    exists u'. split; [exact Hrep|].
    assert (Hrun : try_add_block block s =
              ((_persist ≫= fun _ => mret true)
                 (with_chain (chain s ++ [block])
                    (with_mempool (prune (blk_txs block) (mempool s))
                       (with_utxos u' (with_temps (temps s ++ [u']) s)))))).
    { unfold try_add_block. rewrite bindM_run. unfold gets at 1. cbn beta iota.
      rewrite bool_decide_eq_true_2 by exact Hidx. cbn [negb].
      rewrite bindM_run, latest_block_run, Hlast. cbn beta iota.
      rewrite bindM_run, Hval. cbn [negb]. cbn beta iota.
      rewrite bindM_run, (commit_txs_replay _ _ u') by exact Hrep.
      cbn beta iota. rewrite bindM_run. unfold modify at 1. cbn beta iota.
      reflexivity. }
    rewrite Hrun, bindM_run.
    match goal with |- context [_persist ?st] =>
      destruct (persist_memory st) as [(Hc & Hu & Hm & _) Hres];
      destruct (_persist st) as [r s'] end.
    cbn [fst snd] in *.
    destruct Hres as [->|[e ->]]; cbn [fst snd];
      (split; [exact Hu|split; [exact Hm|split; [exact Hc|eauto]]]).
Qed.
End LedgerFacts.

(* ================================================================== *)
(** * Admission to the mempool *)
(* ================================================================== *)

Section AdmissionFacts.
Context {float : Type} `{Lib : Library float} `{Cfg : Config}.

(* The record types, taken at the section's [float]. *)
#[local] Abbreviation Transaction := (Transaction float).
#[local] Abbreviation Block := (Block float).
#[local] Abbreviation State := (State float).
#[local] Abbreviation M := (M float).

Lemma check_unspent_loop (spent : gset UTXOKey) (ins : list TxInput) :
  for_loop (check_unspent spent) ins tt
  = Ok (if existsb (fun i => bool_decide (ref_of i ∈ spent)) ins
        then inl false else inr tt).
Proof.
  induction ins as [|i ins IH]; [reflexivity|].
  cbn [for_loop existsb].
  change (check_unspent spent i ())
    with (if bool_decide (ref_of i ∈ spent)
          then Ok (A := bool + unit) (inl false) else Ok (inr tt)).
  destruct (bool_decide (ref_of i ∈ spent)); cbn [mbind result_bind orb];
    [reflexivity|exact IH].
Qed.

Lemma elem_of_spent (k : UTXOKey) (mp : list Transaction) :
  k ∈ spent_in_mempool mp <->
  exists t j, t ∈ mp /\ j ∈ tx_inputs t /\ k = ref_of j.
Proof.
  unfold spent_in_mempool. rewrite elem_of_list_to_set, list_elem_of_In, in_flat_map.
  split.
  - intros (t & Ht & Hk). apply in_map_iff in Hk as (j & <- & Hj).
    exists t, j. rewrite !list_elem_of_In. auto.
  - intros (t & j & Ht & Hj & ->). exists t. rewrite <- list_elem_of_In.
    split; [exact Ht|]. apply in_map, list_elem_of_In, Hj.
Qed.

(** The steps of [add_transaction] once the txid is assigned. *)
Lemma add_transaction_run (tx tx' : Transaction) (s : State) :
  assign_txid tx = Ok tx' ->
  add_transaction tx s =
  if tx_coinbase tx' then (Ok false, s)
  else
    match verify tx' (utxos s) with
    | Ok true =>
        if existsb (fun t => bool_decide (tx_txid t = tx_txid tx')) (mempool s)
        then (Ok false, s)
        else if existsb (fun i => bool_decide (ref_of i ∈ spent_in_mempool (mempool s)))
                        (tx_inputs tx')
        then (Ok false, s)
        else (_persist ≫= fun _ => mret true) (with_mempool (mempool s ++ [tx']) s)
    | Ok false => (Ok false, s)
    | Raise e => (Raise e, s)
    | OutOfFuel => (OutOfFuel, s)
    | Untyped => (Untyped, s)
    end.
Proof.
  intros Hassign. unfold add_transaction.
  rewrite bindM_run. unfold lift at 1. rewrite Hassign. cbn beta iota.
  destruct (tx_coinbase tx'); [reflexivity|].
  rewrite bindM_run. unfold verify_at at 1. cbn [deref].
  destruct (verify tx' (utxos s)) as [[|]| | |]; cbn [negb]; cbn beta iota;
    try reflexivity.
  rewrite bindM_run. unfold gets at 1. cbn beta iota.
  destruct (existsb _ (mempool s)); [reflexivity|].
  rewrite bindM_run. unfold lift at 1. rewrite check_unspent_loop.
  destruct (existsb _ (tx_inputs tx')); cbn beta iota; [reflexivity|].
  rewrite bindM_run. unfold modify at 1. cbn beta iota. reflexivity.
Qed.

Lemma existsb_duplicate (tx : Transaction) (mp : list Transaction) :
  existsb (fun t => bool_decide (tx_txid t = tx_txid tx)) mp = true <->
  exists t, t ∈ mp /\ tx_txid t = tx_txid tx.
Proof.
  rewrite existsb_exists. split.
  - intros (t & Hin & Hb). apply bool_decide_eq_true in Hb.
    exists t. rewrite list_elem_of_In. auto.
  - intros (t & Hin & Hb). exists t. rewrite <- list_elem_of_In.
    split; [exact Hin|]. apply bool_decide_eq_true. exact Hb.
Qed.

Lemma existsb_conflict (tx : Transaction) (mp : list Transaction) :
  existsb (fun i => bool_decide (ref_of i ∈ spent_in_mempool mp)) (tx_inputs tx) = true <->
  exists i t j, i ∈ tx_inputs tx /\ t ∈ mp /\ j ∈ tx_inputs t /\ ref_of i = ref_of j.
Proof.
  rewrite existsb_exists. split.
  - intros (i & Hin & Hb). apply bool_decide_eq_true, elem_of_spent in Hb.
    destruct Hb as (t & j & Ht & Hj & Hk).
    exists i, t, j. rewrite list_elem_of_In. auto.
  - intros (i & t & j & Hi & Ht & Hj & Hk). exists i. rewrite <- list_elem_of_In.
    split; [exact Hi|]. apply bool_decide_eq_true, elem_of_spent. eauto.
Qed.

(** Whether a transaction is admitted is a matter of four tests. *)
Lemma add_transaction_cases (tx tx' : Transaction) (s : State) :
  assign_txid tx = Ok tx' ->
  (admission_refused tx' s /\ add_transaction tx s = (Ok false, s)) \/
  (~ admission_refused tx' s /\
   add_transaction tx s
   = (_persist ≫= fun _ => mret true) (with_mempool (mempool s ++ [tx']) s)).
Proof.
  intros Hassign. rewrite (add_transaction_run _ _ _ Hassign).
  destruct (tx_coinbase tx') eqn:Hcb.
  { left. split; [apply refused_coinbase; exact Hcb|reflexivity]. }
  destruct (verify_returns tx' (utxos s)) as [[|] Hv]; rewrite Hv.
  2:{ left. split; [apply refused_verify; exact Hv|reflexivity]. }
  destruct (existsb _ (mempool s)) eqn:Hdup.
  { left. apply existsb_duplicate in Hdup as (t & Ht & Heq).
    split; [eapply refused_duplicate; eassumption|reflexivity]. }
  destruct (existsb _ (tx_inputs tx')) eqn:Hconf.
  { left. apply existsb_conflict in Hconf as (i & t & j & Hi & Ht & Hj & Hk).
    split; [eapply refused_conflict; eassumption|reflexivity]. }
  right. split; [|reflexivity].
  intros [Hc|Hf|t Ht Heq|i t j Hi Ht Hj Hk].
  - congruence.
  - congruence.
  - assert (existsb (fun t => bool_decide (tx_txid t = tx_txid tx')) (mempool s) = true)
      as Hx by (apply existsb_duplicate; eauto).
    congruence.
  - assert (existsb (fun i => bool_decide (ref_of i ∈ spent_in_mempool (mempool s)))
                    (tx_inputs tx') = true)
      as Hx by (apply existsb_conflict; eauto 8).
    congruence.
Qed.

End AdmissionFacts.

(* ================================================================== *)
(** * Mining *)
(* ================================================================== *)

Section MineFacts.
Context {float : Type} `{Lib : Library float} `{Cfg : Config}.

(* The record types, taken at the section's [float]. *)
#[local] Abbreviation Transaction := (Transaction float).
#[local] Abbreviation Block := (Block float).
#[local] Abbreviation State := (State float).
#[local] Abbreviation M := (M float).

Lemma mapM_Ok {A B} (f : A -> result B) (l : list A) :
  Forall (fun a => exists b, f a = Ok b) l -> exists bs, mapM f l = Ok bs.
Proof.
  induction 1 as [|a l [b Hb] _ [bs IH]]; [exists []; reflexivity|].
  exists (b :: bs). cbn [mapM]. rewrite Hb. cbn [mbind result_bind].
  rewrite IH. reflexivity.
Qed.

Lemma mapM_Ok_inv {A B} (f : A -> result B) (l : list A) (bs : list B) :
  mapM f l = Ok bs -> Forall (fun a => exists b, f a = Ok b) l.
Proof.
  revert bs. induction l as [|a l IH]; intros bs; [constructor|].
  cbn [mapM]. intros H. apply bind_Ok in H as (b & Hb & H).
  apply bind_Ok in H as (bs' & Hbs & _). constructor; eauto.
Qed.

Lemma to_dict_dataclass (t : Transaction) (b : bool) :
  (exists d, Transaction_to_dict t b = Ok (PDict d)) <-> tx_dataclass t.
Proof.
  unfold Transaction_to_dict, tx_dataclass. split.
  - intros (d & H). apply bind_Ok in H as (ins & Hins & _).
    apply mapM_Ok_inv in Hins. eapply Forall_impl; [exact Hins|].
    intros i (x & Hx). unfold TxInput_to_dict in Hx.
    destruct (tin_class i); [reflexivity|discriminate].
  - intros Hall.
    destruct (mapM_Ok (fun i => TxInput_to_dict (float := float) i b) (tx_inputs t))
      as (ins & Hins).
    { eapply Forall_impl; [exact Hall|]. intros i Hi. unfold TxInput_to_dict.
      rewrite Hi. eauto. }
    rewrite Hins. eexists. reflexivity.
Qed.

Lemma preimage_dataclass (t : Transaction) (pre : bytes) :
  preimage_of t = Ok pre -> tx_dataclass t.
Proof.
  unfold preimage_of. intros H. apply bind_Ok in H as (d & Hd & _).
  apply (to_dict_dataclass t false).
  unfold Transaction_to_dict in *. apply bind_Ok in Hd as (ins & Hins & [= <-]).
  rewrite Hins. eexists. reflexivity.
Qed.

(** A ledger built by this process can be written out. *)
Lemma persist_ok (s : State) : persistable s -> fst (_persist s) = Ok tt.
Proof.
  intros [Hc Hm]. rewrite persist_run.
  assert (Htx : forall t : Transaction, tx_dataclass t -> exists r, tx_to_raw t = Ok r).
  { intros t Ht. apply (to_dict_dataclass t true) in Ht as (d & Hd).
    unfold tx_to_raw. rewrite Hd. eexists. reflexivity. }
  destruct (mapM_Ok block_to_raw (chain s)) as (blocks & ->).
  { eapply Forall_impl; [exact Hc|]. intros b Hb. unfold block_to_raw.
    destruct (mapM_Ok tx_to_raw (blk_txs b)) as (txs & ->).
    - eapply Forall_impl; [exact Hb|]. exact Htx.
    - eexists. reflexivity. }
  destruct (mapM_Ok tx_to_raw (mempool s)) as (txs & ->).
  { eapply Forall_impl; [exact Hm|]. exact Htx. }
  reflexivity.
Qed.

(** The coinbase transaction [make_coinbase] builds. *)
Lemma make_coinbase_ok (now : float) (to_address : string) (amount : Z) :
  exists t,
    make_coinbase now to_address amount
    = Ok {| tx_inputs := [];
            tx_outputs := [{| out_amount := amount; out_address := to_address |}];
            tx_timestamp := now; tx_txid := Some t; tx_coinbase := true |}.
Proof. eexists. reflexivity. Qed.

(** The deletions of the selection loop, through a reference. *)
Lemma del_inputs_run (r : dref) (ins : list TxInput) (s : State) :
  valid r s ->
  for_each (del_input r) ins s
  = (fst (del_run (deref r s) ins), store r (snd (del_run (deref r s) ins)) s).
Proof.
  revert s. induction ins as [|i ins IH]; intros s Hv.
  - simpl. rewrite store_deref by exact Hv. reflexivity.
  - rewrite for_each_cons, bindM_run. unfold del_input at 1, delitem_at, dict_del.
    cbn [del_run].
    destruct (dict_contains (deref r s) (ref_of i)) eqn:Hc; cbn beta iota.
    + rewrite IH by (apply valid_store; exact Hv).
      rewrite deref_store by exact Hv. rewrite store_store. reflexivity.
    + cbn [fst snd]. rewrite store_deref by exact Hv. reflexivity.
Qed.

(** A reference that is not in the dictionary stops the deletions. *)
Lemma del_run_absent (u : UtxoDict) (ins : list TxInput) :
  (exists j, j ∈ ins /\ ref_of j ∉ dict_keys u) ->
  fst (del_run u ins) = Raise KeyError.
Proof.
  revert u. induction ins as [|i ins IH]; intros u (j & Hj & Habs).
  - apply elem_of_nil in Hj. contradiction.
  - cbn [del_run]. destruct (dict_contains u (ref_of i)) eqn:Hc; [|reflexivity].
    apply elem_of_cons in Hj as [->|Hj].
    + apply dict_contains_false in Habs. congruence.
    + apply IH. exists j. split; [exact Hj|].
      intros Hin. apply Habs. eapply dict_keys_remove_subseteq, Hin.
Qed.

(** A reference that occurs twice stops them as well: the second
    occurrence finds the key gone. *)
Lemma del_run_duplicate (u : UtxoDict) (ins : list TxInput) :
  NoDup (dict_keys u) ->
  ~ NoDup (map ref_of ins) ->
  fst (del_run u ins) = Raise KeyError.
Proof.
  revert u. induction ins as [|i ins IH]; intros u Hnd Hdup.
  - exfalso. apply Hdup. constructor.
  - cbn [del_run]. destruct (dict_contains u (ref_of i)) eqn:Hc; [|reflexivity].
    destruct (decide (ref_of i ∈ map ref_of ins)) as [Hin|Hnin].
    + apply del_run_absent.
      apply list_elem_of_fmap in Hin as (j & Hj & Hin).
      exists j. split; [exact Hin|]. rewrite <- Hj. apply dict_remove_gone, Hnd.
    + apply IH; [apply dict_remove_NoDup, Hnd|].
      intros Hnd'. apply Hdup. simpl. apply NoDup_cons. auto.
Qed.

Lemma checks_pass_assign (tx : Transaction) (u : UtxoDict) :
  checks_pass tx u -> assign_txid tx = Ok tx.
Proof.
  intros [_ _ (t & Ht & Htx)]. unfold assign_txid.
  destruct (negb (truthy (tx_txid tx))); [|reflexivity].
  rewrite Ht. cbn [mbind result_bind]. f_equal.
  destruct tx. cbn in *. subst. reflexivity.
Qed.

(** The selection loop of [mine] stops on a pending transaction that
    verifies and names a reference twice. *)
Lemma select_tx_duplicate (r : dref) (tx : Transaction) (sel : list Transaction)
    (s : State) :
  valid r s ->
  verify tx (deref r s) = Ok true ->
  NoDup (dict_keys (deref r s)) ->
  ~ NoDup (map ref_of (tx_inputs tx)) ->
  fst (select_tx r tx sel s) = Raise KeyError.
Proof.
  intros Hv Hver Hnd Hdup. unfold select_tx.
  rewrite bindM_run. unfold verify_at at 1. rewrite Hver. cbn beta iota.
  rewrite bindM_run, del_inputs_run by exact Hv.
  pose proof (del_run_duplicate _ _ Hnd Hdup) as Hdel.
  destruct (del_run (deref r s) (tx_inputs tx)) as [res u']. cbn [fst snd] in *.
  subst res. reflexivity.
Qed.

(** C10.  Take a transaction that is not a coinbase, whose inputs name
    some output twice, and that passes the checks of [verify] against the
    live dictionary (the amount of an output counting once for each input
    that names it: twice the amount for a transaction of two inputs naming
    the same output).  [verify] answers true; submitted to a ledger with an
    empty mempool, the transaction is admitted; and the next [mine], given
    any fuel, neither returns a block nor reports a failure: it raises
    [KeyError], at the second deletion of the reference from its copy of
    the dictionary. *)
Theorem duplicate_input_mine_raises (tx : Transaction) (s : State)
    (now_cb now_blk : float) (clock : Z -> float) (fuel : nat) (miner : string) :
  tx_coinbase tx = false ->
  ~ NoDup (map ref_of (tx_inputs tx)) ->
  checks_pass tx (utxos s) ->
  NoDup (dict_keys (utxos s)) ->
  mempool s = [] ->
  persistable s ->
  verify tx (utxos s) = Ok true /\
  (forall i o, tx_inputs tx = [i; i] -> dict_get (utxos s) (ref_of i) = Some o ->
               total_in (utxos s) tx = (2 * out_amount o)%Z) /\
  fst (add_transaction tx s) = Ok true /\
  mempool (snd (add_transaction tx s)) = [tx] /\
  fst (mine now_cb now_blk clock fuel miner (snd (add_transaction tx s)))
  = Raise KeyError.
Proof.
  intros Hcb Hdup Hpass Hnd Hmp [Hpc Hpm].
  assert (Hver : verify tx (utxos s) = Ok true) by (apply checks_verify_true; assumption).
  split; [exact Hver|]. split.
  { intros i o Hins Hget. unfold total_in, input_amount. rewrite Hins. cbn [map].
    rewrite Hget, !sum_Z_cons. unfold sum_Z. simpl. lia. }
  pose proof (checks_pass_assign _ _ Hpass) as Hassign.
  destruct (add_transaction_cases tx tx s Hassign) as [[Href _]|[_ Hrun]].
  { exfalso. destruct Href as [Hc|Hf|t Ht _|i t j _ Ht _ _].
    - congruence.
    - congruence.
    - rewrite Hmp in Ht. apply elem_of_nil in Ht. exact Ht.
    - rewrite Hmp in Ht. apply elem_of_nil in Ht. exact Ht. }
  rewrite Hrun, bindM_run, Hmp. cbn [app].
  assert (Hp : persistable (with_mempool [tx] s)).
  { split; [exact Hpc|]. cbn. constructor; [|constructor].
    destruct Hpass as [(pre & Hpre & _) _ _]. eapply preimage_dataclass, Hpre. }
  pose proof (persist_ok _ Hp) as Hok.
  destruct (persist_memory (with_mempool [tx] s)) as [(Hc & Hu & Hm & _) _].
  destruct (_persist (with_mempool [tx] s)) as [res s1]. cbn [fst snd] in *.
  subst res. cbn [fst snd mret M_ret].
  split; [reflexivity|]. split; [exact Hm|].
  unfold mine. rewrite bindM_run. unfold lift at 1.
  destruct (make_coinbase_ok now_cb miner BLOCK_REWARD) as (t & ->). cbn beta iota.
  rewrite bindM_run, dict_copy_run. cbn beta iota.
  rewrite bindM_run. unfold gets at 1. cbn beta iota.
  cbn [mempool with_temps]. rewrite Hm. cbn [mempool with_mempool].
  rewrite bindM_run, foldM_cons.
  match goal with |- context [select_tx ?r ?tx ?sel ?st] =>
    pose proof (select_tx_duplicate r tx sel st) as Hsel;
    destruct (select_tx r tx sel st) as [res s2] end.
  cbn [fst] in Hsel. rewrite Hsel; [reflexivity| | | |exact Hdup].
  - cbn. rewrite length_app. simpl. lia.
  - rewrite deref_fresh. cbn [deref]. rewrite Hu. exact Hver.
  - rewrite deref_fresh. cbn [deref]. rewrite Hu. exact Hnd.
Qed.

(** *** The coinbase transactions the ledger creates *)

Lemma bindM_inv {A B} (m : M A) (f : A -> M B) (s s' : State) (b : B) :
  (m ≫= f) s = (Ok b, s') ->
  exists a s1, m s = (Ok a, s1) /\ f a s1 = (Ok b, s').
Proof.
  rewrite bindM_run. destruct (m s) as [[a|e| |] s1]; try discriminate. eauto.
Qed.

Lemma lift_inv {A} (r : result A) (s s' : State) (a : A) :
  lift r s = (Ok a, s') -> r = Ok a /\ s' = s.
Proof. unfold lift. intros H. split; congruence. Qed.

Lemma select_tx_result (r : dref) (tx : Transaction) (sel sel' : list Transaction)
    (s s' : State) :
  select_tx r tx sel s = (Ok sel', s') -> sel' = sel ++ [tx] \/ sel' = sel.
Proof.
  unfold select_tx. intros H. apply bindM_inv in H as ([|] & s1 & _ & H).
  - apply bindM_inv in H as (_ & s2 & _ & H).
    apply bindM_inv in H as (_ & s3 & _ & H). injection H as <- _. left. reflexivity.
  - injection H as <- _. right. reflexivity.
Qed.

Lemma select_loop_prefix (r : dref) (mp sel sel' : list Transaction) (s s' : State) :
  foldM (select_tx r) mp sel s = (Ok sel', s') -> exists extra, sel' = sel ++ extra.
Proof.
  revert sel s. induction mp as [|tx mp IH]; intros sel s.
  - intros [= <- _]. exists []. rewrite app_nil_r. reflexivity.
  - rewrite foldM_cons.
    destruct (select_tx r tx sel s) as [[x|e| |] s1] eqn:Hsel; try discriminate.
    intros H. apply IH in H as (extra & ->).
    apply select_tx_result in Hsel as [->| ->].
    + exists (tx :: extra). rewrite <- app_assoc. reflexivity.
    + exists extra. reflexivity.
Qed.

Lemma mine_loop_txs (fuel : nat) (clock : Z -> float) (prefix : string) (b b' : Block) :
  mine_loop fuel clock prefix b = Ok b' -> blk_txs b' = blk_txs b.
Proof.
  revert b. induction fuel as [|fuel IH]; intros b; [discriminate|].
  cbn [mine_loop]. destruct (startswith _ _).
  - intros [= <-]. reflexivity.
  - intros H. apply IH in H. rewrite H.
    destruct (bool_decide _); reflexivity.
Qed.

Lemma mine_block_txs (fuel : nat) (clock : Z -> float) (b b' : Block) (d : Z) :
  mine_block fuel clock b d = Ok b' -> blk_txs b' = blk_txs b.
Proof.
  unfold mine_block. intros H. apply bind_Ok in H as (m & _ & H).
  apply mine_loop_txs in H. exact H.
Qed.

(** The block [mine] returns starts with the coinbase built for it. *)
Lemma mine_coinbase_first (now_cb now_blk : float) (clock : Z -> float) (fuel : nat)
    (miner : string) (s s' : State) (b : Block) :
  mine now_cb now_blk clock fuel miner s = (Ok (Some b), s') ->
  exists cb rest,
    make_coinbase now_cb miner BLOCK_REWARD = Ok cb /\ blk_txs b = cb :: rest.
Proof.
  unfold mine. intros H.
  apply bindM_inv in H as (cb & s1 & Hcb & H).
  apply lift_inv in Hcb as [Hcb _].
  apply bindM_inv in H as (r & s2 & _ & H).
  apply bindM_inv in H as (mp & s3 & _ & H).
  apply bindM_inv in H as (sel & s4 & Hsel & H).
  apply select_loop_prefix in Hsel as (extra & ->).
  apply bindM_inv in H as (c & s5 & _ & H).
  apply bindM_inv in H as (latest & s6 & _ & H).
  destruct (blk_hash latest) as [ph|]; [|discriminate].
  apply bindM_inv in H as (mined & s7 & Hmined & H).
  apply lift_inv in Hmined as [Hmined _].
  apply mine_block_txs in Hmined. cbn [blk_txs] in Hmined.
  apply bindM_inv in H as (latest' & s8 & _ & H).
  apply bindM_inv in H as ([|] & s9 & _ & H); [|discriminate].
  apply bindM_inv in H as (_ & s10 & _ & H).
  apply bindM_inv in H as (_ & s11 & _ & H).
  apply bindM_inv in H as (_ & s12 & _ & H).
  injection H as <- _. exists cb, extra. split; [exact Hcb|exact Hmined].
Qed.

(** The ledger [_init_genesis] leaves behind. *)
Lemma init_genesis_chain (now_tx now_blk : float) (clock : Z -> float) (fuel : nat)
    (s s' : State) :
  _init_genesis now_tx now_blk clock fuel s = (Ok tt, s') ->
  exists g gtx,
    genesis_tx now_tx = Ok gtx /\ chain s' = [g] /\ blk_txs g = [gtx] /\
    utxos s' = [] /\ mempool s' = [].
Proof.
  unfold _init_genesis. intros H.
  apply bindM_inv in H as (gtx & s1 & Hg & H).
  apply lift_inv in Hg as [Hg ->].
  apply bindM_inv in H as (g & s2 & Hm & H).
  apply lift_inv in Hm as [Hm ->].
  apply mine_block_txs in Hm. cbn [blk_txs] in Hm.
  apply bindM_inv in H as (? & s3 & Hm1 & H). injection Hm1 as _ <-.
  apply bindM_inv in H as (? & s4 & Hm2 & H). injection Hm2 as _ <-.
  apply bindM_inv in H as (? & s5 & Hm3 & H). injection Hm3 as _ <-.
  destruct (persist_memory (with_mempool [] (with_utxos [] (with_chain [g] s))))
    as [(Hc & Hu & Hmp & _) _].
  rewrite H in Hc, Hu, Hmp. cbn [snd] in *.
  exists g, gtx. auto.
Qed.

(** C6, as the code has it.  The coinbase transaction [make_coinbase]
    builds has no inputs and exactly one output, of the requested amount;
    [mine] asks for [BLOCK_REWARD], and the block it returns starts with
    that transaction.  The coinbase transaction of the genesis block has no
    inputs and no outputs. *)
Theorem coinbase_shapes :
  (forall now to_address amount,
     exists t,
       make_coinbase now to_address amount
       = Ok {| tx_inputs := [];
               tx_outputs := [{| out_amount := amount; out_address := to_address |}];
               tx_timestamp := now; tx_txid := Some t; tx_coinbase := true |}) /\
  (forall now_cb now_blk clock fuel miner (s s' : State) (b : Block),
     mine now_cb now_blk clock fuel miner s = (Ok (Some b), s') ->
     exists cb rest,
       blk_txs b = cb :: rest /\ tx_coinbase cb = true /\ tx_inputs cb = [] /\
       tx_outputs cb = [{| out_amount := BLOCK_REWARD; out_address := miner |}]) /\
  (forall now_tx now_blk clock fuel (s s' : State),
     _init_genesis now_tx now_blk clock fuel s = (Ok tt, s') ->
     exists g gtx,
       chain s' = [g] /\ blk_txs g = [gtx] /\ tx_coinbase gtx = true /\
       tx_inputs gtx = [] /\ tx_outputs gtx = []).
Proof.
  split; [apply make_coinbase_ok|]. split.
  - intros now_cb now_blk clock fuel miner s s' b H.
    apply mine_coinbase_first in H as (cb & rest & Hcb & Htxs).
    destruct (make_coinbase_ok now_cb miner BLOCK_REWARD) as (t & Ht).
    rewrite Ht in Hcb. injection Hcb as <-. eexists _, rest.
    split; [exact Htxs|]. cbn. auto.
  - intros now_tx now_blk clock fuel s s' H.
    apply init_genesis_chain in H as (g & gtx & Hg & Hc & Htxs & _).
    exists g, gtx. unfold genesis_tx in Hg. cbn in Hg. injection Hg as <-. auto.
Qed.
End MineFacts.

(* ================================================================== *)
(** * Building a transfer *)
(* ================================================================== *)

Section BuildFacts.
Context {float : Type} `{Lib : Library float} `{Cfg : Config}.

(* The record types, taken at the section's [float]. *)
#[local] Abbreviation Transaction := (Transaction float).
#[local] Abbreviation Block := (Block float).
#[local] Abbreviation State := (State float).
#[local] Abbreviation M := (M float).

(** The selection loop, whatever the loop variables hold when it starts. *)
Lemma select_inputs_from (available : list (UTXOKey * TxOutput)) (amount : Z)
    (ins0 : list UTXOKey) (tot0 : Z) :
  exists k : nat,
    select_inputs available amount ins0 tot0
    = (ins0 ++ map fst (take k available),
       (tot0 + sum_Z (amounts (take k available)))%Z) /\
    (k = length available \/
     ((0 < k)%nat /\ (tot0 + sum_Z (amounts (take k available)) >= amount)%Z)) /\
    (forall j : nat, (0 < j < k)%nat ->
                     (tot0 + sum_Z (amounts (take j available)) < amount)%Z).
Proof.
  unfold amounts.
  revert ins0 tot0. induction available as [|[key out] rest IH]; intros ins0 tot0.
  - exists 0%nat. cbn. rewrite app_nil_r. split; [f_equal; unfold sum_Z; simpl; lia|].
    split; [left; reflexivity|]. intros j Hj. lia.
  - cbn [select_inputs]. case_bool_decide as Hcov.
    + exists 1%nat. rewrite firstn_cons, take_0. cbn [map fst snd].
      rewrite sum_Z_cons. replace (sum_Z []) with 0%Z by reflexivity.
      split; [f_equal; try reflexivity; lia|].
      split; [right; split; lia|]. intros j Hj. lia.
    + destruct (IH (ins0 ++ [key]) (tot0 + out_amount out)%Z) as (k & Hsel & Hstop & Hmin).
      exists (S k). rewrite firstn_cons. cbn [map fst snd length]. rewrite sum_Z_cons.
      split; [rewrite Hsel, <- app_assoc; cbn [app]; f_equal; lia|].
      split.
      * destruct Hstop as [->|[Hk Hc]]; [left; reflexivity|right].
        split; lia.
      * intros [|j] Hj; [lia|]. rewrite firstn_cons. cbn [map fst snd].
        rewrite sum_Z_cons. destruct j as [|j].
        -- rewrite take_0. replace (sum_Z (map _ [])) with 0%Z by reflexivity. lia.
        -- specialize (Hmin (S j) ltac:(lia)). lia.
Qed.

Lemma select_inputs_first_fit (available : list (UTXOKey * TxOutput)) (amount : Z) :
  first_fit available amount (fst (select_inputs available amount [] 0%Z))
                             (snd (select_inputs available amount [] 0%Z)).
Proof.
  destruct (select_inputs_from available amount [] 0%Z) as (k & -> & Hstop & Hmin).
  exists k. cbn [fst snd app]. split; [reflexivity|]. split; [lia|].
  split.
  - destruct Hstop as [->|[Hk Hc]]; [left; reflexivity|right; split; [exact Hk|lia]].
  - intros j Hj. specialize (Hmin j Hj). lia.
Qed.

Lemma sum_Z_nonneg (l : list Z) : Forall (fun z => 0 <= z)%Z l -> (0 <= sum_Z l)%Z.
Proof.
  induction 1 as [|z l Hz _ IH]; [unfold sum_Z; simpl; lia|].
  rewrite sum_Z_cons. lia.
Qed.

Lemma sum_Z_take_le (l : list Z) (k : nat) :
  Forall (fun z => 0 <= z)%Z l -> (sum_Z (take k l) <= sum_Z l)%Z.
Proof.
  intros Hl. rewrite <- (take_drop k l) at 2. rewrite sum_Z_app.
  pose proof (sum_Z_nonneg (drop k l) (Forall_drop _ _ _ Hl)). lia.
Qed.

(** *** What signing can raise, and what it keeps *)

Lemma not_insufficient_call {A} (o : outcome A) : not_insufficient (call o).
Proof. destruct o; discriminate. Qed.

Lemma not_insufficient_bind {A B} (m : result A) (f : A -> result B) :
  not_insufficient m -> (forall a, not_insufficient (f a)) -> not_insufficient (m ≫= f).
Proof.
  intros Hm Hf. destruct m; cbn [mbind result_bind];
    [apply Hf| |discriminate|discriminate].
  intros [= ->]. apply Hm. reflexivity.
Qed.

Lemma not_insufficient_mapM {A B} (f : A -> result B) (l : list A) :
  (forall a, not_insufficient (f a)) -> not_insufficient (mapM f l).
Proof.
  intros Hf. induction l as [|a l IH]; [discriminate|].
  cbn [mapM]. apply not_insufficient_bind; [apply Hf|]. intros b.
  apply not_insufficient_bind; [exact IH|]. discriminate.
Qed.

Lemma not_insufficient_fold {A S} (body : A -> S -> result S) (l : list A) (acc : S) :
  (forall a s, not_insufficient (body a s)) -> not_insufficient (fold_result body l acc).
Proof.
  intros Hb. revert acc. induction l as [|a l IH]; intros acc; [discriminate|].
  cbn [fold_result]. apply not_insufficient_bind; [apply Hb|]. exact IH.
Qed.

Lemma not_insufficient_preimage (tx : Transaction) : not_insufficient (preimage_of tx).
Proof.
  unfold preimage_of, Transaction_to_dict.
  apply not_insufficient_bind; [|discriminate].
  apply not_insufficient_bind; [|discriminate].
  apply not_insufficient_mapM. intros i. unfold TxInput_to_dict.
  destruct (tin_class i); discriminate.
Qed.

Lemma not_insufficient_sign (tx : Transaction) (priv : string) (u : UtxoDict) :
  not_insufficient (sign_inputs tx priv u).
Proof.
  unfold sign_inputs, compute_txid. destruct (tx_coinbase tx).
  - apply not_insufficient_bind; [|discriminate].
    apply not_insufficient_bind; [apply not_insufficient_preimage|discriminate].
  - apply not_insufficient_bind; [apply not_insufficient_call|]. intros kb.
    apply not_insufficient_bind; [apply not_insufficient_call|]. intros sk.
    apply not_insufficient_bind.
    { unfold pubkey_to_address.
      apply not_insufficient_bind; [apply not_insufficient_call|discriminate]. }
    intros from_addr. apply not_insufficient_bind.
    { apply not_insufficient_fold. intros tin [].
      destruct (dict_get u (ref_of tin)); [|discriminate].
      destruct (bool_decide _); discriminate. }
    intros _. apply not_insufficient_bind; [apply not_insufficient_preimage|].
    intros pre. apply not_insufficient_bind; [|discriminate].
    apply not_insufficient_bind; [apply not_insufficient_preimage|discriminate].
Qed.

Lemma not_insufficient_keys (keys : list UTXOKey) :
  not_insufficient (mapM TxInput_of_key keys).
Proof.
  apply not_insufficient_mapM. intros k. unfold TxInput_of_key.
  destruct (fst k); discriminate.
Qed.

(** Signing keeps the outputs and the references of the inputs. *)
Lemma sign_inputs_shape (tx tx' : Transaction) (priv : string) (u : UtxoDict) :
  sign_inputs tx priv u = Ok tx' ->
  tx_outputs tx' = tx_outputs tx /\
  map ref_of (tx_inputs tx') = map ref_of (tx_inputs tx) /\
  tx_coinbase tx' = tx_coinbase tx.
Proof.
  unfold sign_inputs. destruct (tx_coinbase tx) eqn:Hcb.
  - intros H. apply bind_Ok in H as (t & _ & [= <-]). cbn. auto.
  - intros H. apply bind_Ok in H as (kb & _ & H).
    apply bind_Ok in H as (sk & _ & H).
    apply bind_Ok in H as (from_addr & _ & H).
    apply bind_Ok in H as (_ & _ & H).
    apply bind_Ok in H as (pre & _ & H).
    apply bind_Ok in H as (t & _ & [= <-]). cbn.
    split; [reflexivity|]. split; [|exact Hcb].
    rewrite map_map. reflexivity.
Qed.

Lemma keys_of_inputs (keys : list UTXOKey) (ins : list TxInput) :
  mapM TxInput_of_key keys = Ok ins -> map ref_of ins = keys.
Proof.
  revert ins. induction keys as [|[t v] keys IH]; intros ins.
  - intros [= <-]. reflexivity.
  - cbn [mapM]. intros H. apply bind_Ok in H as (i & Hi & H).
    apply bind_Ok in H as (ins' & Hins & [= <-]).
    unfold TxInput_of_key in Hi. cbn [fst snd] in Hi.
    destruct t as [t|]; [|discriminate]. injection Hi as <-.
    cbn. f_equal. apply IH. exact Hins.
Qed.

Lemma change_address_or (change_addr : option string) (owner : string) :
  (if truthy change_addr then default "" change_addr else owner)
  = change_address change_addr owner.
Proof.
  destruct change_addr as [a|]; [|reflexivity]. cbn.
  destruct (String.eqb a ""); reflexivity.
Qed.

End BuildFacts.

(* ================================================================== *)
(** * Writing the ledger out and reading it back *)
(* ================================================================== *)

Section ReloadFacts.
Context {float : Type} `{Lib : Library float} `{Cfg : Config}.

(* The record types, taken at the section's [float]. *)
#[local] Abbreviation Transaction := (Transaction float).
#[local] Abbreviation Block := (Block float).
#[local] Abbreviation State := (State float).
#[local] Abbreviation M := (M float).

(** A ledger whose one unspent output sits under a txid with a colon in
    it comes back with the output under another key: the text before the
    first colon as txid, the number after it as index. *)
Lemma reload_colon_key (o : TxOutput) :
  let s : State :=
    {| chain := []; utxos := [((Some "ab:1", 0%Z), o)]; mempool := []; temps := [];
       chain_file := Missing; utxo_file := Missing; mempool_file := Missing |} in
  fst (_persist s) = Ok tt /\
  fst (reload (snd (_persist s))) = Ok tt /\
  utxos (snd (reload (snd (_persist s)))) = [((Some "ab", 1%Z), o)].
Proof. destruct o as [a ad]. cbn. auto. Qed.

(** *** The keys of the UTXO document *)

Lemma str_app_nil_r (s : string) : s +:+ "" = s.
Proof.
  induction s as [|c s IH]; [reflexivity|].
  change (String c (s +:+ "") = String c s). f_equal. exact IH.
Qed.

Lemma str_app_assoc (a b c : string) : (a +:+ b) +:+ c = a +:+ (b +:+ c).
Proof.
  induction a as [|x a IH]; [reflexivity|].
  change (String x ((a +:+ b) +:+ c) = String x (a +:+ (b +:+ c))). f_equal. exact IH.
Qed.

Lemma split_colon_plain (cur s : string) :
  has_colon s = false -> split_colon_go cur s = [cur +:+ s].
Proof.
  revert cur. induction s as [|c s IH]; intros cur; cbn [has_colon split_colon_go].
  - intros _. rewrite str_app_nil_r. reflexivity.
  - destruct (Ascii.eqb c ":"); [discriminate|]. cbn [orb]. intros Hs.
    rewrite IH by exact Hs. rewrite str_app_assoc. reflexivity.
Qed.

Lemma split_colon_key (cur t r : string) :
  has_colon t = false -> has_colon r = false ->
  split_colon_go cur (t +:+ ":" +:+ r) = [cur +:+ t; r].
Proof.
  intros Ht Hr. revert cur. induction t as [|c t IH]; intros cur.
  - change ("" +:+ ":" +:+ r) with (String ":" r).
    change (split_colon_go cur (String ":" r)) with (cur :: split_colon_go "" r).
    rewrite (split_colon_plain "" r Hr), str_app_nil_r. reflexivity.
  - cbn [has_colon] in Ht.
    change (String c t +:+ ":" +:+ r) with (String c (t +:+ ":" +:+ r)).
    cbn [split_colon_go].
    destruct (Ascii.eqb c ":"); [discriminate|]. cbn [orb] in Ht.
    rewrite IH by exact Ht. rewrite str_app_assoc. reflexivity.
Qed.

Lemma has_colon_uint (d : Decimal.uint) : has_colon (NilEmpty.string_of_uint d) = false.
Proof. induction d; cbn; auto. Qed.

Lemma has_colon_int (v : Z) : has_colon (str_of_int v) = false.
Proof.
  unfold str_of_int, NilZero.string_of_int, NilZero.string_of_uint.
  destruct (Z.to_int v) as [d|d]; destruct d; cbn; try reflexivity;
    apply has_colon_uint.
Qed.

Lemma int_of_str_of_int (v : Z) : int_of_str (str_of_int v) = Ok v.
Proof.
  unfold int_of_str, str_of_int. rewrite NilZero.isi.
  - rewrite DecimalZ.of_to. reflexivity.
  - destruct v; cbn; [discriminate| |discriminate].
    intros [= H]. exact (Unsigned.to_uint_nonnil _ H).
  - destruct v; cbn; [discriminate|discriminate|].
    intros [= H]. exact (Unsigned.to_uint_nonnil _ H).
Qed.

(** A plain key is read back as it was written. *)
Lemma utxo_key_roundtrip (k : UTXOKey) :
  plain_key k -> utxo_key_of_str (utxo_key_str k) = Ok k.
Proof.
  destruct k as [t v]. intros (t' & Ht & Hc). cbn in Ht. subst t.
  unfold utxo_key_of_str, utxo_key_str, split_colon. cbn [fst snd].
  rewrite (split_colon_key "" t' (str_of_int v) Hc (has_colon_int v)).
  cbn [list_getitem lookup list_lookup mbind result_bind String.append].
  rewrite int_of_str_of_int. reflexivity.
Qed.

Lemma output_roundtrip (o : TxOutput) : TxOutput_of_raw (float := float) (TxOutput_to_dict o) = Ok o.
Proof. destruct o. reflexivity. Qed.

(** *** The UTXO document *)

(** The entry of the UTXO document for an entry of the dictionary. *)
Definition utxo_raw (kv : UTXOKey * TxOutput) : string * pyval float :=
  (utxo_key_str (fst kv), TxOutput_to_dict (snd kv)).

Lemma utxo_key_str_inj (k1 k2 : UTXOKey) :
  plain_key k1 -> plain_key k2 -> utxo_key_str k1 = utxo_key_str k2 -> k1 = k2.
Proof.
  intros H1 H2 Heq. apply utxo_key_roundtrip in H1, H2.
  rewrite Heq in H1. congruence.
Qed.

Lemma utxos_to_raw_fold (u : UtxoDict) (acc : list (string * pyval float)) :
  NoDup (dict_keys acc ++ map (fun kv => utxo_key_str (fst kv)) u) ->
  fold_left (fun acc kv => dict_set acc (utxo_key_str (fst kv)) (TxOutput_to_dict (snd kv)))
            u acc
  = acc ++ map utxo_raw u.
Proof.
  revert acc. induction u as [|kv u IH]; intros acc Hnd.
  - cbn. rewrite app_nil_r. reflexivity.
  - cbn [fold_left map]. cbn [map] in Hnd.
    rewrite dict_set_fresh.
    + rewrite IH.
      * rewrite <- app_assoc. reflexivity.
      * unfold dict_keys in *. rewrite map_app, <- app_assoc. exact Hnd.
    + apply NoDup_app in Hnd as (_ & Hdisj & _). intros Hin.
      apply (Hdisj _ Hin). left.
Qed.

Lemma utxos_of_raw_fold (u acc : UtxoDict) :
  Forall (fun kv => plain_key (fst kv)) u ->
  NoDup (dict_keys acc ++ dict_keys u) ->
  fold_result
    (fun (kv : string * pyval float) (acc : UtxoDict) =>
       k ← utxo_key_of_str (fst kv);
       o ← TxOutput_of_raw (snd kv);
       Ok (dict_set acc k o))
    (map utxo_raw u) acc
  = Ok (acc ++ u).
Proof.
  intros Hplain. revert acc. induction Hplain as [|[k o] u Hk _ IH]; intros acc Hnd.
  - cbn. rewrite app_nil_r. reflexivity.
  - cbn [map fold_result utxo_raw fst snd].
    rewrite (utxo_key_roundtrip k Hk). cbn [mbind result_bind].
    rewrite output_roundtrip. cbn [mbind result_bind].
    rewrite dict_set_fresh.
    + rewrite IH.
      * rewrite <- app_assoc. reflexivity.
      * unfold dict_keys in *. rewrite map_app, <- app_assoc. exact Hnd.
    + apply NoDup_app in Hnd as (_ & Hdisj & _). intros Hin.
      apply (Hdisj _ Hin). left.
Qed.

(** A dictionary of plain keys is read back as it was written. *)
Lemma utxos_roundtrip (u : UtxoDict) :
  Forall (fun kv => plain_key (fst kv)) u ->
  NoDup (dict_keys u) ->
  utxos_of_raw (float := float) (utxos_to_raw u) = Ok u.
Proof.
  intros Hplain Hnd. unfold utxos_to_raw, utxos_of_raw.
  rewrite utxos_to_raw_fold.
  - cbn [app]. apply (utxos_of_raw_fold u [] Hplain). exact Hnd.
  - cbn [dict_keys map app].
    change (map (fun kv : UTXOKey * TxOutput => utxo_key_str (fst kv)) u)
      with (map (fun kv : UTXOKey * TxOutput => utxo_key_str (fst kv)) u).
    rewrite <- (map_map fst utxo_key_str).
    apply NoDup_fmap_2_strong; [|exact Hnd].
    intros k1 k2 H1 H2. rewrite Forall_forall in Hplain.
    apply list_elem_of_fmap in H1 as (kv1 & -> & H1).
    apply list_elem_of_fmap in H2 as (kv2 & -> & H2).
    apply utxo_key_str_inj; auto.
Qed.

(** *** The chain and mempool documents *)

Definition input_raw (i : TxInput) : pyval float :=
  PDict [("txid", PStr (tin_txid i)); ("vout", PInt (tin_vout i));
         ("signature", opt_str (tin_signature i)); ("pubkey", opt_str (tin_pubkey i))].

Definition tx_raw (t : Transaction) : pyval float :=
  PDict [("inputs", PList (map input_raw (tx_inputs t)));
         ("outputs", PList (map TxOutput_to_dict (tx_outputs t)));
         ("timestamp", PFloat (tx_timestamp t));
         ("coinbase", PBool (tx_coinbase t));
         ("txid", opt_str (tx_txid t))].

Definition block_raw (b : Block) : pyval float :=
  PDict [("index", PInt (blk_index b));
         ("prev_hash", PStr (blk_prev_hash b));
         ("timestamp", PFloat (blk_timestamp b));
         ("nonce", PInt (blk_nonce b));
         ("txs", PList (map tx_raw (blk_txs b)));
         ("merkle_root", opt_str (blk_merkle_root b));
         ("hash", opt_str (blk_hash b))].

Lemma mapM_map_Ok {A B C} (f : B -> result C) (g : A -> B) (h : A -> C) (l : list A) :
  Forall (fun a => f (g a) = Ok (h a)) l -> mapM f (map g l) = Ok (map h l).
Proof.
  induction 1 as [|a l Ha _ IH]; [reflexivity|].
  cbn [map mapM]. rewrite Ha. cbn [mbind result_bind]. rewrite IH. reflexivity.
Qed.

Lemma mapM_Ok_map {A B} (f : A -> result B) (h : A -> B) (l : list A) :
  Forall (fun a => f a = Ok (h a)) l -> mapM f l = Ok (map h l).
Proof.
  intros H. rewrite <- (map_id l) at 1. apply (mapM_map_Ok f id h). exact H.
Qed.

Lemma tx_to_raw_dataclass (t : Transaction) : tx_dataclass t -> tx_to_raw t = Ok (tx_raw t).
Proof.
  intros Ht. unfold tx_to_raw, Transaction_to_dict.
  rewrite (mapM_Ok_map (fun i => TxInput_to_dict (float := float) i true) input_raw).
  - reflexivity.
  - eapply Forall_impl; [exact Ht|]. intros i Hi. unfold TxInput_to_dict.
    rewrite Hi. reflexivity.
Qed.

Lemma synth_input_raw (i : TxInput) : synth_input (input_raw i) = Ok (as_loaded_input i).
Proof.
  destruct i as [c t v [sg|] [pk|]]; reflexivity.
Qed.

Lemma tx_of_raw_raw (t : Transaction) : tx_of_raw (tx_raw t) = Ok (as_loaded_tx t).
Proof.
  unfold tx_of_raw, tx_raw.
  change (py_getitem _ "inputs") with (Ok (PList (map input_raw (tx_inputs t)))).
  cbn [mbind result_bind py_iter].
  rewrite (mapM_map_Ok synth_input input_raw as_loaded_input)
    by (apply Forall_forall; intros; apply synth_input_raw).
  cbn [mbind result_bind].
  change (py_getitem _ "outputs")
    with (Ok (PList (map (TxOutput_to_dict (float := float)) (tx_outputs t)))).
  cbn [mbind result_bind py_iter].
  rewrite (mapM_map_Ok TxOutput_of_raw TxOutput_to_dict id)
    by (apply Forall_forall; intros; apply output_roundtrip).
  rewrite map_id. cbn [mbind result_bind].
  destruct t as [ins outs ts [ti|] cb]; reflexivity.
Qed.

Lemma block_to_raw_dataclass (b : Block) :
  Forall tx_dataclass (blk_txs b) -> block_to_raw b = Ok (block_raw b).
Proof.
  intros Hb. unfold block_to_raw.
  rewrite (mapM_Ok_map tx_to_raw tx_raw); [reflexivity|].
  eapply Forall_impl; [exact Hb|]. exact tx_to_raw_dataclass.
Qed.

Lemma block_of_raw_raw (b : Block) : block_of_raw (block_raw b) = Ok (as_loaded_block b).
Proof.
  unfold block_of_raw, block_raw.
  change (py_getitem _ "txs") with (Ok (PList (map tx_raw (blk_txs b)))).
  cbn [mbind result_bind py_iter].
  rewrite (mapM_map_Ok tx_of_raw tx_raw as_loaded_tx)
    by (apply Forall_forall; intros; apply tx_of_raw_raw).
  cbn [mbind result_bind].
  destruct b as [i p ts n txs [m|] [h|]]; reflexivity.
Qed.

(** *** The two loops of [_load] *)

Lemma load_blocks_run (bs : list Block) (s : State) :
  for_each load_block (map block_raw bs) s
  = (Ok tt, with_chain (chain s ++ map as_loaded_block bs) s).
Proof.
  revert s. induction bs as [|b bs IH]; intros s.
  - cbn [map for_each]. rewrite app_nil_r. destruct s; reflexivity.
  - cbn [map]. rewrite for_each_cons, bindM_run. unfold load_block at 1.
    rewrite bindM_run. unfold lift at 1. rewrite block_of_raw_raw.
    unfold modify at 1. rewrite IH. unfold with_chain. cbn.
    rewrite <- app_assoc. reflexivity.
Qed.

Lemma load_pendings_run (txs : list Transaction) (s : State) :
  for_each load_pending (map tx_raw txs) s
  = (Ok tt, with_mempool (mempool s ++ map as_loaded_tx txs) s).
Proof.
  revert s. induction txs as [|t txs IH]; intros s.
  - cbn [map for_each]. rewrite app_nil_r. destruct s; reflexivity.
  - cbn [map]. rewrite for_each_cons, bindM_run. unfold load_pending at 1.
    rewrite bindM_run. unfold lift at 1. rewrite tx_of_raw_raw.
    unfold modify at 1. rewrite IH. unfold with_mempool. cbn.
    rewrite <- app_assoc. reflexivity.
Qed.

(** *** Writing the ledger out and reading it back *)

(** [_load] on the three documents of a ledger with plain UTXO keys. *)
Lemma load_run (bs : list Block) (u : UtxoDict) (mp : list Transaction) :
  NoDup (dict_keys u) ->
  Forall (fun kv => plain_key (fst kv)) u ->
  let cf := Json (PDict [("chain", PList (map block_raw bs))]) in
  let uf := Json (utxos_to_raw u) in
  let mf := Json (PList (map tx_raw mp)) in
  _load (new_ledger cf uf mf)
  = (Ok tt, {| chain := map as_loaded_block bs; utxos := u;
               mempool := map as_loaded_tx mp; temps := [];
               chain_file := cf; utxo_file := uf; mempool_file := mf |}).
Proof.
  intros Hnd Hplain cf uf mf. unfold _load.
  erewrite bindM_ok by reflexivity.
  erewrite bindM_ok by reflexivity.
  erewrite bindM_ok by reflexivity.
  erewrite bindM_ok by apply load_blocks_run.
  erewrite bindM_ok by reflexivity.
  erewrite bindM_ok
    by (unfold lift; rewrite (utxos_roundtrip u Hplain Hnd); reflexivity).
  erewrite bindM_ok by reflexivity.
  erewrite bindM_ok by reflexivity.
  cbn [mempool_file with_utxos with_chain new_ledger mf].
  erewrite bindM_ok by reflexivity.
  erewrite bindM_ok by reflexivity.
  erewrite bindM_ok by reflexivity.
  rewrite load_pendings_run. reflexivity.
Qed.

(** A ledger built by this process whose UTXO keys are plain is written
    out, and a ledger constructed on the files holds the same chain, UTXO
    dictionary and mempool, up to the class of the input objects. *)
Lemma persist_reload (s : State) :
  persistable s ->
  NoDup (dict_keys (utxos s)) ->
  Forall (fun kv => plain_key (fst kv)) (utxos s) ->
  fst (_persist s) = Ok tt /\
  fst (reload (snd (_persist s))) = Ok tt /\
  chain (snd (reload (snd (_persist s)))) = map as_loaded_block (chain s) /\
  utxos (snd (reload (snd (_persist s)))) = utxos s /\
  mempool (snd (reload (snd (_persist s)))) = map as_loaded_tx (mempool s).
Proof.
  intros [Hc Hm] Hnd Hplain. rewrite persist_run.
  rewrite (mapM_Ok_map block_to_raw block_raw)
    by (eapply Forall_impl; [exact Hc|]; exact block_to_raw_dataclass).
  rewrite (mapM_Ok_map tx_to_raw tx_raw)
    by (eapply Forall_impl; [exact Hm|]; exact tx_to_raw_dataclass).
  split; [reflexivity|].
  unfold reload, persisted_upto_utxos. cbn [snd chain_file utxo_file mempool_file
    with_mempool_file with_utxo_file with_chain_file].
  rewrite (load_run (chain s) (utxos s) (mempool s) Hnd Hplain).
  repeat split; reflexivity.
Qed.
End ReloadFacts.

(* ================================================================== *)
(** * The keys of the UTXO document, both ways *)
(* ================================================================== *)

Section KeyFacts.
Context {float : Type} `{Lib : Library float} `{Cfg : Config}.

Lemma has_colon_app (a b : string) :
  has_colon (a +:+ b) = has_colon a || has_colon b.
Proof.
  induction a as [|c a IH]; [reflexivity|].
  change (has_colon (String c (a +:+ b)) = has_colon (String c a) || has_colon b).
  cbn [has_colon]. rewrite IH, orb_assoc. reflexivity.
Qed.

(** No piece of [s.split(":")] has a colon in it. *)
Lemma split_colon_pieces (cur s : string) :
  has_colon cur = false ->
  Forall (fun p => has_colon p = false) (split_colon_go cur s).
Proof.
  revert cur. induction s as [|c s IH]; intros cur Hcur; cbn [split_colon_go].
  - constructor; [exact Hcur|constructor].
  - destruct (Ascii.eqb c ":") eqn:Hc.
    + constructor; [exact Hcur|]. apply IH. reflexivity.
    + apply IH. rewrite has_colon_app, Hcur. cbn [has_colon orb]. rewrite Hc. reflexivity.
Qed.

Lemma utxo_key_of_str_plain (s : string) (k : UTXOKey) :
  utxo_key_of_str s = Ok k -> plain_key k.
Proof.
  unfold utxo_key_of_str. intros H.
  apply bind_Ok in H as (t & Ht & H).
  apply bind_Ok in H as (v & _ & H).
  apply bind_Ok in H as (z & _ & [= <-]).
  exists t. split; [reflexivity|].
  unfold list_getitem in Ht.
  destruct (split_colon s !! 0%nat) as [p|] eqn:Hp; [|discriminate].
  injection Ht as <-.
  pose proof (split_colon_pieces "" s eq_refl) as Hall.
  rewrite Forall_forall in Hall. apply Hall.
  eapply list_elem_of_lookup_2, Hp.
Qed.

(** The key of the UTXO document is [f"{txid}:{vout}"], and [_load] takes
    it apart with [split(":")].  A key of the dictionary is read back as
    it was written exactly when its txid is a string with no colon in it;
    and whatever the document holds, the keys [_load] makes are of that
    kind. *)
Theorem utxo_key_roundtrip_iff (k : UTXOKey) :
  (utxo_key_of_str (utxo_key_str k) = Ok k <-> plain_key k) /\
  (forall s k', utxo_key_of_str s = Ok k' -> plain_key k').
Proof.
  split; [split|].
  - apply utxo_key_of_str_plain.
  - apply utxo_key_roundtrip.
  - apply utxo_key_of_str_plain.
Qed.

End KeyFacts.

(* ================================================================== *)
(** * Signing, and what becomes of a signed transaction *)
(* ================================================================== *)

Section SignFacts.
Context {float : Type} `{Lib : Library float} `{Cfg : Config}.

(* The record types, taken at the section's [float]. *)
#[local] Abbreviation Transaction := (Transaction float).
#[local] Abbreviation Block := (Block float).
#[local] Abbreviation State := (State float).
#[local] Abbreviation M := (M float).

(** *** The txid and the signatures *)

Lemma to_dict_same_reference (l1 l2 : list TxInput) :
  Forall2 same_reference l1 l2 ->
  mapM (fun i => TxInput_to_dict (float := float) i false) l1
  = mapM (fun i => TxInput_to_dict (float := float) i false) l2.
Proof.
  induction 1 as [|i j l1 l2 (Hc & Ht & Hv) _ IH]; [reflexivity|].
  cbn [mapM]. rewrite IH. unfold TxInput_to_dict. rewrite Hc, Ht, Hv. reflexivity.
Qed.

Lemma preimage_same_unsigned (a b : Transaction) :
  same_unsigned a b -> preimage_of a = preimage_of b.
Proof.
  intros (Hins & Ho & Hts & Hcb). unfold preimage_of, Transaction_to_dict.
  rewrite (to_dict_same_reference _ _ Hins), Ho, Hts, Hcb. reflexivity.
Qed.

Lemma same_reference_refl (l : list TxInput) : Forall2 same_reference l l.
Proof. induction l; constructor; [repeat split|assumption]. Qed.

Lemma same_reference_signed (l : list TxInput) (sig pub : string) :
  Forall2 same_reference (map (fun tin => set_sig tin sig pub) l) l.
Proof. induction l; constructor; [repeat split|assumption]. Qed.

Lemma same_unsigned_signed (sk : SigningKey) (pre : bytes) (tx : Transaction) :
  same_unsigned (signed_with sk pre tx) tx.
Proof.
  split; [apply same_reference_signed|]. repeat split.
Qed.

Lemma same_unsigned_set_txid (tx : Transaction) (t : option string) :
  same_unsigned (set_txid tx t) tx.
Proof.
  split; [apply same_reference_refl|]. repeat split.
Qed.

Lemma compute_txid_signed (sk : SigningKey) (pre : bytes) (tx : Transaction) :
  compute_txid (signed_with sk pre tx) = compute_txid tx.
Proof.
  unfold compute_txid. rewrite (preimage_same_unsigned _ _ (same_unsigned_signed sk pre tx)).
  reflexivity.
Qed.

Lemma compute_txid_set_txid (tx : Transaction) (t : option string) :
  compute_txid (set_txid tx t) = compute_txid tx.
Proof.
  unfold compute_txid. rewrite (preimage_same_unsigned _ _ (same_unsigned_set_txid tx t)).
  reflexivity.
Qed.

(** The txid of a transaction is a function of the references of its
    inputs, of its outputs, its timestamp and its coinbase flag.  Two
    transactions that differ in the signatures and public keys of their
    inputs, or in the txid they carry, have the same preimage and the same
    computed txid; signing a transaction does not change what
    [compute_txid] gives. *)
Theorem txid_ignores_signatures (a b : Transaction) :
  same_unsigned a b ->
  preimage_of a = preimage_of b /\ compute_txid a = compute_txid b.
Proof.
  intros H. apply preimage_same_unsigned in H. unfold compute_txid.
  rewrite H. split; reflexivity.
Qed.

(** *** The ownership loop of [sign_inputs] *)

Lemma owner_check_owned (u : UtxoDict) (addr : string) (tin : TxInput) :
  owner_check u addr tin tt = Ok tt <-> owned_input u addr tin.
Proof.
  unfold owner_check, owned_input. split.
  - destruct (dict_get u (ref_of tin)) as [o|]; [|discriminate].
    case_bool_decide as Ha; [|discriminate]. eauto.
  - intros (o & -> & Ha). rewrite bool_decide_eq_true_2 by exact Ha. reflexivity.
Qed.

Lemma owner_loop_ok (u : UtxoDict) (addr : string) (ins : list TxInput) :
  fold_result (owner_check u addr) ins tt = Ok tt <-> Forall (owned_input u addr) ins.
Proof.
  induction ins as [|i ins IH]; cbn [fold_result].
  - split; [constructor|reflexivity].
  - split.
    + intros H. apply bind_Ok in H as ([] & Hi & H).
      constructor; [apply owner_check_owned, Hi|apply IH, H].
    + intros H. apply Forall_cons in H as [Hi H].
      apply owner_check_owned in Hi. rewrite Hi. apply IH, H.
Qed.

Lemma owner_loop_stops (u : UtxoDict) (addr : string) (l1 l2 : list TxInput)
    (i : TxInput) :
  Forall (owned_input u addr) l1 ->
  fold_result (owner_check u addr) (l1 ++ i :: l2) tt
  = (_ ← owner_check u addr i tt; fold_result (owner_check u addr) l2 tt).
Proof.
  induction 1 as [|j l1 Hj _ IH].
  - cbn [app fold_result]. destruct (owner_check u addr i tt) as [[]| | |]; reflexivity.
  - cbn [app fold_result]. apply owner_check_owned in Hj. rewrite Hj. exact IH.
Qed.

(** The steps of [sign_inputs] once the key is decoded. *)
Lemma sign_inputs_run (tx : Transaction) (priv : string) (u : UtxoDict)
    (sk : SigningKey) (addr : string) :
  tx_coinbase tx = false ->
  key_of priv sk ->
  pubkey_to_address (pub_hex_of sk) = Ok addr ->
  sign_inputs tx priv u
  = (_ ← fold_result (owner_check u addr) (tx_inputs tx) tt;
     preimage ← preimage_of tx;
     t ← compute_txid (signed_with sk preimage tx);
     Ok (set_txid (signed_with sk preimage tx) (Some t))).
Proof.
  intros Hcb (kb & Hkb & Hsk) Haddr. unfold sign_inputs.
  rewrite Hcb, Hkb. cbn [mbind result_bind]. rewrite Hsk. cbn [mbind result_bind].
  fold (pub_hex_of sk). rewrite Haddr. reflexivity.
Qed.

(** What [sign_inputs] does with a transaction that is not a coinbase,
    given a private key that decodes: it goes through the inputs in order
    and raises at the first that names no output of the map ("Referenced
    UTXO not found") or an output of another address ("Attempting to spend
    UTXO not owned by provided key"); when every input names an output of
    the signer's address, every input receives the same signature, over
    the stripped preimage, and the same public key, the outputs stay, and
    the txid is the one [compute_txid] gave before signing. *)
Theorem sign_inputs_outcomes (tx : Transaction) (priv : string) (u : UtxoDict)
    (sk : SigningKey) (addr : string) :
  tx_coinbase tx = false ->
  key_of priv sk ->
  pubkey_to_address (pub_hex_of sk) = Ok addr ->
  (forall l1 i l2,
     tx_inputs tx = l1 ++ i :: l2 -> Forall (owned_input u addr) l1 ->
     (dict_get u (ref_of i) = None ->
      sign_inputs tx priv u = Raise (ValueError "Referenced UTXO not found")) /\
     (forall o, dict_get u (ref_of i) = Some o -> out_address o <> addr ->
      sign_inputs tx priv u
      = Raise (ValueError "Attempting to spend UTXO not owned by provided key"))) /\
  (Forall (owned_input u addr) (tx_inputs tx) -> tx_dataclass tx ->
   exists pre t,
     preimage_of tx = Ok pre /\ compute_txid tx = Ok t /\
     sign_inputs tx priv u = Ok (set_txid (signed_with sk pre tx) (Some t))).
Proof.
  intros Hcb Hkey Haddr. rewrite (sign_inputs_run tx priv u sk addr Hcb Hkey Haddr).
  split.
  - intros l1 i l2 Hins Hown. rewrite Hins, (owner_loop_stops _ _ _ _ _ Hown).
    split.
    + intros Hn.
      assert (owner_check u addr i tt = Raise (ValueError "Referenced UTXO not found"))
        as -> by (unfold owner_check; rewrite Hn; reflexivity).
      reflexivity.
    + intros o Hget Hne.
      assert (owner_check u addr i tt
              = Raise (ValueError "Attempting to spend UTXO not owned by provided key"))
        as -> by (unfold owner_check; rewrite Hget, bool_decide_eq_false_2 by exact Hne;
                  reflexivity).
      reflexivity.
  - intros Hown Hdc. apply owner_loop_ok in Hown. rewrite Hown. cbn [mbind result_bind].
    apply (to_dict_dataclass tx false) in Hdc as (d & Hd).
    assert (Hpre : preimage_of tx = Ok (encode (to_json (PDict d))))
      by (unfold preimage_of; rewrite Hd; reflexivity).
    exists (encode (to_json (PDict d))), (sha256d_hex (encode (to_json (PDict d)))).
    split; [exact Hpre|].
    assert (Ht : compute_txid tx = Ok (sha256d_hex (encode (to_json (PDict d)))))
      by (unfold compute_txid; rewrite Hpre; reflexivity).
    split; [exact Ht|]. rewrite Hpre. cbn [mbind result_bind].
    rewrite compute_txid_signed, Ht. reflexivity.
Qed.


(** *** From [sign_inputs] to [verify] *)

Lemma truthy_bytes_hex (b : bytes) : b <> [] -> truthy (Some (bytes_hex b)) = true.
Proof. destruct b as [|x b]; [contradiction|]. intros _. reflexivity. Qed.

Lemma pubkey_to_address_hex (b : bytes) :
  hex_roundtrip ->
  pubkey_to_address (bytes_hex b) = Ok ("CYPH" +:+ bytes_hex (ripemd160 (sha256 b))).
Proof.
  intros Hhex. unfold pubkey_to_address, bytes_fromhex. rewrite Hhex. reflexivity.
Qed.

Lemma signed_input_ok (u : UtxoDict) (pre : bytes) (sk : SigningKey) (addr : string)
    (tin : TxInput) :
  hex_roundtrip -> signing_key_ok sk ->
  pubkey_to_address (pub_hex_of sk) = Ok addr ->
  owned_input u addr tin ->
  input_ok u pre (set_sig tin (bytes_hex (sign_deterministic sk pre)) (pub_hex_of sk)).
Proof.
  intros Hhex [Hpub Hsig Hacc] Haddr (o & Hget & Ho).
  destruct (Hacc pre) as (vk & Hvk & Hver).
  split.
  - change (ref_of (set_sig tin _ _)) with (ref_of tin). congruence.
  - split; apply truthy_bytes_hex; [apply Hsig|exact Hpub].
  - exists (vk_to_string (get_verifying_key sk)), vk, (sign_deterministic sk pre).
    cbn [tin_pubkey tin_signature set_sig default option.from_option].
    unfold bytes_fromhex, VerifyingKey_from_string, vk_verify, pub_hex_of, id.
    rewrite !Hhex, Hvk, Hver. auto.
  - exists o. change (ref_of (set_sig tin _ _)) with (ref_of tin).
    split; [exact Hget|]. cbn [tin_pubkey set_sig default option.from_option]. unfold id.
    rewrite Haddr, Ho. reflexivity.
Qed.

Lemma total_in_same_refs (u : UtxoDict) (a b : Transaction) :
  map ref_of (tx_inputs a) = map ref_of (tx_inputs b) -> total_in u a = total_in u b.
Proof.
  unfold total_in. intros H. f_equal.
  change (map (input_amount u) (tx_inputs a))
    with (map (fun tin => match dict_get u (ref_of tin) with
                          | Some o => out_amount o | None => 0%Z end) (tx_inputs a)).
  change (map (input_amount u) (tx_inputs b))
    with (map (fun tin => match dict_get u (ref_of tin) with
                          | Some o => out_amount o | None => 0%Z end) (tx_inputs b)).
  rewrite <- !(map_map ref_of (fun k => match dict_get u k with
                                        | Some o => out_amount o | None => 0%Z end)).
  rewrite H. reflexivity.
Qed.

(** What [sign_inputs] returns, seen by [verify]. *)
Lemma sign_verify (tx tx' : Transaction) (priv : string) (u : UtxoDict)
    (sk : SigningKey) :
  hex_roundtrip -> key_of priv sk -> signing_key_ok sk ->
  tx_coinbase tx = false ->
  sign_inputs tx priv u = Ok tx' ->
  tx_coinbase tx' = false /\
  total_out tx' = total_out tx /\ total_in u tx' = total_in u tx /\
  ((total_out tx <= total_in u tx)%Z -> verify tx' u = Ok true) /\
  ((total_out tx > total_in u tx)%Z -> verify tx' u = Ok false).
Proof.
  intros Hhex Hkey Hsk Hcb Hsign.
  pose proof (pubkey_to_address_hex (vk_to_string (get_verifying_key sk)) Hhex) as Haddr.
  fold (pub_hex_of sk) in Haddr.
  rewrite (sign_inputs_run tx priv u sk _ Hcb Hkey Haddr) in Hsign.
  apply bind_Ok in Hsign as ([] & Hown & Hsign). apply owner_loop_ok in Hown.
  apply bind_Ok in Hsign as (pre & Hpre & Hsign).
  apply bind_Ok in Hsign as (t & Ht & [= <-]).
  assert (Hcb' : tx_coinbase (set_txid (signed_with sk pre tx) (Some t)) = false)
    by exact Hcb.
  assert (Hin : total_in u (set_txid (signed_with sk pre tx) (Some t)) = total_in u tx).
  { apply total_in_same_refs. cbn. rewrite map_map. reflexivity. }
  assert (Hpass : (total_out tx <= total_in u tx)%Z ->
                  checks_pass (set_txid (signed_with sk pre tx) (Some t)) u).
  { intros Hle. split.
    - exists pre. split.
      + rewrite (preimage_same_unsigned _ _ (same_unsigned_set_txid _ _)).
        rewrite (preimage_same_unsigned _ _ (same_unsigned_signed _ _ _)). exact Hpre.
      + cbn [tx_inputs set_txid signed_with set_inputs]. apply Forall_map.
        eapply Forall_impl; [exact Hown|]. intros tin Htin.
        eapply signed_input_ok; eassumption.
    - rewrite Hin. exact Hle.
    - exists t. split; [|reflexivity]. rewrite compute_txid_set_txid. exact Ht. }
  split; [exact Hcb'|]. split; [reflexivity|]. split; [exact Hin|]. split.
  - intros Hle. apply checks_verify_true; [exact Hcb'|]. apply Hpass, Hle.
  - intros Hgt.
    destruct (verify_returns (set_txid (signed_with sk pre tx) (Some t)) u) as [[|] Hb];
      [|exact Hb].
    apply verify_true_checks in Hb as [_ Hamt _]; [|exact Hcb'].
    rewrite Hin in Hamt. change (total_out (set_txid _ _)) with (total_out tx) in Hamt. lia.
Qed.

(** Let [bytes.fromhex] undo [bytes.hex], and let the key be one whose
    public key and signatures are not empty and whose verifying key,
    rebuilt from its string, accepts its signatures.  A transaction that
    [sign_inputs] has signed against a map is accepted by [verify] against
    the same map when its outputs add up to no more than the outputs its
    inputs name, and refused when they add up to more: for a signed
    transaction the amounts decide. *)
Theorem signed_transaction_verifies (tx tx' : Transaction) (priv : string)
    (u : UtxoDict) (sk : SigningKey) :
  hex_roundtrip -> key_of priv sk -> signing_key_ok sk ->
  tx_coinbase tx = false ->
  sign_inputs tx priv u = Ok tx' ->
  ((total_out tx <= total_in u tx)%Z -> verify tx' u = Ok true) /\
  ((total_out tx > total_in u tx)%Z -> verify tx' u = Ok false).
Proof.
  intros Hhex Hkey Hsk Hcb Hsign.
  destruct (sign_verify tx tx' priv u sk Hhex Hkey Hsk Hcb Hsign) as (_ & _ & _ & H).
  exact H.
Qed.

End SignFacts.

(* ================================================================== *)
(** * A transfer, from building to admission *)
(* ================================================================== *)

Section TransferFacts.
Context {float : Type} `{Lib : Library float} `{Cfg : Config}.

(* The record types, taken at the section's [float]. *)
#[local] Abbreviation Transaction := (Transaction float).
#[local] Abbreviation Block := (Block float).
#[local] Abbreviation State := (State float).
#[local] Abbreviation M := (M float).

(** The transaction [build_simple_tx] hands to [sign_inputs]. *)
Lemma build_simple_tx_inv (now : float) (utxos : UtxoDict)
    (from_priv_hex from_pub_hex to_addr : string) (amount : Z)
    (change_addr : option string) (tx : Transaction) :
  build_simple_tx now utxos from_priv_hex from_pub_hex to_addr amount change_addr = Ok tx ->
  exists owner k ins outs,
    pubkey_to_address from_pub_hex = Ok owner /\
    (sum_Z (amounts (take k (owned_by owner utxos))) >= amount)%Z /\
    map ref_of ins = map fst (take k (owned_by owner utxos)) /\
    sum_Z (map out_amount outs) = sum_Z (amounts (take k (owned_by owner utxos))) /\
    sign_inputs {| tx_inputs := ins; tx_outputs := outs; tx_timestamp := now;
                   tx_txid := None; tx_coinbase := false |} from_priv_hex utxos = Ok tx.
Proof.
  unfold build_simple_tx. intros H. apply bind_Ok in H as (owner & Howner & H).
  fold (owned_by owner utxos) in H.
  destruct (select_inputs_from (owned_by owner utxos) amount [] 0%Z)
    as (k & Hsel & _ & _).
  rewrite Hsel in H. cbn [app] in H. rewrite Z.add_0_l in H.
  case_bool_decide as Hlt; [discriminate|].
  apply bind_Ok in H as (ins & Hins & H).
  exists owner, k, ins. eexists. split; [exact Howner|]. split; [lia|].
  split; [apply keys_of_inputs, Hins|]. split; [|exact H].
  set (total := sum_Z (amounts (take k (owned_by owner utxos)))) in *.
  case_bool_decide as Hchg.
  - cbn [app map out_amount]. rewrite !sum_Z_cons. unfold sum_Z. simpl. lia.
  - cbn [map out_amount]. rewrite sum_Z_cons. unfold sum_Z. simpl. lia.
Qed.

(** The amounts [verify] adds up for inputs that name entries of the
    dictionary are the amounts of these entries. *)
Lemma input_amounts_of_entries (u : UtxoDict) (l : list (UTXOKey * TxOutput))
    (ins : list TxInput) :
  NoDup (dict_keys u) -> Forall (fun kv => kv ∈ u) l ->
  map ref_of ins = map fst l ->
  map (input_amount u) ins = amounts l.
Proof.
  intros Hnd Hall. revert ins. induction Hall as [|[k o] l Hin _ IH]; intros ins Hrefs.
  - destruct ins; [reflexivity|discriminate].
  - destruct ins as [|i ins]; [discriminate|]. cbn [map fst] in Hrefs.
    injection Hrefs as Hi Hrefs. cbn [map amounts snd]. f_equal.
    + unfold input_amount. rewrite Hi, (dict_get_elem u k o Hnd Hin). reflexivity.
    + apply IH, Hrefs.
Qed.

Lemma owned_take_entries (owner : string) (u : UtxoDict) (k : nat) :
  Forall (fun kv => kv ∈ u) (take k (owned_by owner u)).
Proof.
  apply Forall_forall. intros kv Hkv. apply subseteq_take in Hkv.
  unfold owned_by in Hkv. apply list_elem_of_filter in Hkv as [_ Hkv]. exact Hkv.
Qed.

(** Let [bytes.fromhex] undo [bytes.hex] and let the private key be a key
    whose signatures its verifying key accepts.  Whatever
    [build_simple_tx] returns for a dictionary is a transaction that is
    not a coinbase, whose outputs add up to exactly what its inputs name
    (nothing is left as a fee), and that [verify] accepts against the same
    dictionary.  A ledger that holds this dictionary admits it, unless a
    pending transaction has its txid or names one of its inputs. *)
Theorem build_simple_tx_verifies (now : float) (u : UtxoDict)
    (from_priv_hex from_pub_hex to_addr : string) (amount : Z)
    (change_addr : option string) (tx : Transaction) (sk : SigningKey) :
  hex_roundtrip -> key_of from_priv_hex sk -> signing_key_ok sk ->
  NoDup (dict_keys u) ->
  build_simple_tx now u from_priv_hex from_pub_hex to_addr amount change_addr = Ok tx ->
  tx_coinbase tx = false /\
  total_out tx = total_in u tx /\
  verify tx u = Ok true /\
  (forall s : State,
     utxos s = u -> persistable s ->
     (forall t, t ∈ mempool s -> tx_txid t <> tx_txid tx) ->
     (forall t j i, t ∈ mempool s -> j ∈ tx_inputs t -> i ∈ tx_inputs tx ->
                    ref_of i <> ref_of j) ->
     fst (add_transaction tx s) = Ok true /\
     mempool (snd (add_transaction tx s)) = mempool s ++ [tx]).
Proof.
  intros Hhex Hkey Hsk Hnd Hbuild.
  apply build_simple_tx_inv in Hbuild
    as (owner & k & ins & outs & Howner & Hge & Hrefs & Houts & Hsign).
  set (tx0 := {| tx_inputs := ins; tx_outputs := outs; tx_timestamp := now;
                 tx_txid := None; tx_coinbase := false |}) in *.
  assert (Hin0 : total_in u tx0 = total_out tx0).
  { unfold total_in, total_out. cbn [tx_inputs tx_outputs tx0].
    rewrite Houts. f_equal.
    apply input_amounts_of_entries; [exact Hnd|apply owned_take_entries|exact Hrefs]. }
  destruct (sign_verify tx0 tx from_priv_hex u sk Hhex Hkey Hsk eq_refl Hsign)
    as (Hcb & Hout & Hin & Hle & _).
  assert (Hver : verify tx u = Ok true) by (apply Hle; lia).
  split; [exact Hcb|]. split; [lia|]. split; [exact Hver|].
  intros s Hu Hp Hdup Hconf. subst u.
  pose proof (verify_true_checks tx (utxos s) Hcb Hver) as Hpass.
  pose proof (checks_pass_assign _ _ Hpass) as Hassign.
  destruct (add_transaction_cases tx tx s Hassign) as [[Href _]|[_ Hrun]].
  { exfalso. destruct Href as [Hc|Hf|t Ht Heq|i t j Hi Ht Hj Heq].
    - congruence.
    - congruence.
    - exact (Hdup t Ht Heq).
    - exact (Hconf t j i Ht Hj Hi Heq). }
  rewrite Hrun, bindM_run.
  assert (Hp' : persistable (with_mempool (mempool s ++ [tx]) s)).
  { destruct Hp as [Hpc Hpm]. split; [exact Hpc|]. cbn [mempool with_mempool].
    apply Forall_app. split; [exact Hpm|]. constructor; [|constructor].
    destruct Hpass as [(pre & Hpre & _) _ _]. eapply preimage_dataclass, Hpre. }
  pose proof (persist_ok _ Hp') as Hok.
  destruct (persist_memory (with_mempool (mempool s ++ [tx]) s)) as [(_ & _ & Hm & _) _].
  destruct (_persist (with_mempool (mempool s ++ [tx]) s)) as [res s1].
  cbn [fst snd] in *. subst res. cbn [fst snd mret M_ret].
  split; [reflexivity|exact Hm].
Qed.

End TransferFacts.

(* ================================================================== *)
(** * Building a transfer: selection, funds check, result *)
(* ================================================================== *)

Section BuildTotal.
Context {float : Type} `{Lib : Library float} `{Cfg : Config}.

(* The record types, taken at the section's [float]. *)
#[local] Abbreviation Transaction := (Transaction float).
#[local] Abbreviation Block := (Block float).
#[local] Abbreviation State := (State float).
#[local] Abbreviation M := (M float).

(** Keys that carry a txid make inputs, instances of the dataclass. *)
Lemma inputs_of_keys (keys : list UTXOKey) :
  Forall (fun k => fst k <> None) keys ->
  exists ins, mapM TxInput_of_key keys = Ok ins /\
              map ref_of ins = keys /\
              Forall (fun i => tin_class i = Dataclass) ins.
Proof.
  induction 1 as [|[t v] keys Hk _ (ins & Hins & Hrefs & Hdc)].
  - exists []. repeat split. constructor.
  - cbn [fst] in Hk. destruct t as [t|]; [|contradiction].
    exists ({| tin_class := Dataclass; tin_txid := t; tin_vout := v;
               tin_signature := None; tin_pubkey := None |} :: ins).
    cbn [mapM].
    assert (Hk1 : TxInput_of_key (Some t, v)
                  = Ok {| tin_class := Dataclass; tin_txid := t; tin_vout := v;
                          tin_signature := None; tin_pubkey := None |}) by reflexivity.
    rewrite Hk1. cbn [mbind result_bind].
    rewrite Hins. cbn [mbind result_bind]. split; [reflexivity|].
    split; [cbn; rewrite Hrefs; reflexivity|]. constructor; [reflexivity|exact Hdc].
Qed.

(** Inputs that name entries of the owner are inputs [sign_inputs] lets
    through. *)
Lemma owned_entries_inputs (owner : string) (u : UtxoDict) (k : nat)
    (ins : list TxInput) :
  NoDup (dict_keys u) ->
  map ref_of ins = map fst (take k (owned_by owner u)) ->
  Forall (owned_input u owner) ins.
Proof.
  intros Hnd. generalize (take k (owned_by owner u)) (subseteq_take k (owned_by owner u)).
  intros l Hsub. revert l Hsub. induction ins as [|i ins IH]; intros l Hsub Hrefs.
  - constructor.
  - destruct l as [|[key o] l]; [discriminate|]. cbn [map fst] in Hrefs.
    injection Hrefs as Hi Hrefs.
    assert (Hin : (key, o) ∈ owned_by owner u) by (apply Hsub; left).
    unfold owned_by in Hin. apply list_elem_of_filter in Hin as [Ho Hin]. cbn [snd] in Ho.
    constructor.
    + exists o. rewrite Hi. split; [apply dict_get_elem; assumption|exact Ho].
    + apply (IH l); [|exact Hrefs]. intros x Hx. apply Hsub. right. exact Hx.
Qed.

(** [sign_inputs] returns on a transaction that is not a coinbase, whose
    inputs are instances of the dataclass and name outputs of the
    signer's address. *)
Lemma sign_inputs_owned (tx : Transaction) (priv : string) (u : UtxoDict)
    (sk : SigningKey) (addr : string) :
  tx_coinbase tx = false -> key_of priv sk ->
  pubkey_to_address (pub_hex_of sk) = Ok addr ->
  Forall (owned_input u addr) (tx_inputs tx) -> tx_dataclass tx ->
  exists tx', sign_inputs tx priv u = Ok tx'.
Proof.
  intros Hcb Hkey Haddr Hown Hdc.
  rewrite (sign_inputs_run tx priv u sk addr Hcb Hkey Haddr).
  apply owner_loop_ok in Hown. rewrite Hown. cbn [mbind result_bind].
  apply (to_dict_dataclass tx false) in Hdc as (d & Hd).
  assert (Hpre : preimage_of tx = Ok (encode (to_json (PDict d))))
    by (unfold preimage_of; rewrite Hd; reflexivity).
  rewrite Hpre. cbn [mbind result_bind]. rewrite compute_txid_signed.
  unfold compute_txid. rewrite Hpre. cbn [mbind result_bind]. eexists. reflexivity.
Qed.

(** C8, as the code has it.  Let the public key give the owner's address.
    [build_simple_tx] takes the owner's outputs in iteration order and
    compares the accumulated amount with the amount asked for after each
    taking; it stops at the first output with which the amount is covered,
    which for an amount above zero is to stop as soon as the amount is
    covered.
    It raises the error of insufficient funds exactly when the accumulated
    amount is still short of the amount asked for after the last of the
    owner's outputs was taken; where no amount of the dictionary is
    negative, that is exactly when all the owner's outputs together fall
    short of it.  When it returns a transaction, the inputs name the
    outputs taken, in order, and the outputs are one output of the amount
    to the recipient, followed, exactly when the total taken exceeds the
    amount, by one output of the difference to the change address, which
    is the owner's address when none is given.  And it does return a
    transaction when the funds suffice, for a private key that decodes and
    whose public key gives the owner's address, on a dictionary whose keys
    carry a txid. *)
Theorem build_simple_tx_first_fit (now : float) (utxos : UtxoDict)
    (from_priv_hex from_pub_hex to_addr : string) (amount : Z)
    (change_addr : option string) (owner : string) :
  pubkey_to_address from_pub_hex = Ok owner ->
  exists keys total,
    first_fit (owned_by owner utxos) amount keys total /\
    ((0 < amount)%Z ->
     stops_as_soon_as_covered (owned_by owner utxos) amount keys total) /\
    (build_simple_tx now utxos from_priv_hex from_pub_hex to_addr amount change_addr
     = Raise (ValueError "Insufficient funds")
     <-> (total < amount)%Z) /\
    ((total < amount)%Z ->
     keys = map fst (owned_by owner utxos) /\
     total = sum_Z (amounts (owned_by owner utxos))) /\
    (Forall (fun kv : UTXOKey * TxOutput => (0 <= out_amount (snd kv))%Z) utxos ->
     (build_simple_tx now utxos from_priv_hex from_pub_hex to_addr amount change_addr
      = Raise (ValueError "Insufficient funds")
      <-> (sum_Z (amounts (owned_by owner utxos)) < amount)%Z)) /\
    (forall tx,
       build_simple_tx now utxos from_priv_hex from_pub_hex to_addr amount change_addr
       = Ok tx ->
       tx_coinbase tx = false /\
       map ref_of (tx_inputs tx) = keys /\
       tx_outputs tx
       = {| out_amount := amount; out_address := to_addr |}
         :: (if bool_decide (total > amount)%Z
             then [{| out_amount := total - amount;
                      out_address := change_address change_addr owner |}]
             else [])) /\
    (forall sk,
       key_of from_priv_hex sk -> pubkey_to_address (pub_hex_of sk) = Ok owner ->
       NoDup (dict_keys utxos) -> Forall (fun k : UTXOKey => fst k <> None) keys ->
       (total >= amount)%Z ->
       exists tx,
         build_simple_tx now utxos from_priv_hex from_pub_hex to_addr amount change_addr
         = Ok tx).
Proof.
  intros Howner.
  pose proof (select_inputs_first_fit (owned_by owner utxos) amount) as Hff.
  unfold build_simple_tx. rewrite Howner. cbn [mbind result_bind].
  fold (owned_by owner utxos).
  destruct (select_inputs (owned_by owner utxos) amount [] 0%Z) as [keys total].
  cbn [fst snd] in Hff. exists keys, total. split; [exact Hff|].
  destruct Hff as (k & Hkeys & Htotal & Hstop & Hmin).
  split.
  { intros Hpos. exists k. split; [exact Hkeys|]. split; [exact Htotal|]. split.
    - destruct Hstop as [Hk|[_ Hge]]; [left; exact Hk|right; exact Hge].
    - intros [|j] Hj; [rewrite take_0; exact Hpos|]. apply Hmin. lia. }
  assert (Hall : (total < amount)%Z ->
                 keys = map fst (owned_by owner utxos) /\
                 total = sum_Z (amounts (owned_by owner utxos))).
  { intros Hlt. destruct Hstop as [->|[_ Hge]]; [|lia].
    rewrite Hkeys, Htotal, firstn_all. split; reflexivity. }
  assert (Hraise : (if bool_decide (total < amount)%Z
                    then Raise (ValueError "Insufficient funds")
                    else
                      ins ← mapM TxInput_of_key keys;
                      sign_inputs
                        {| tx_inputs := ins;
                           tx_outputs :=
                             if bool_decide (total - amount > 0)%Z
                             then [{| out_amount := amount; out_address := to_addr |}] ++
                                  [{| out_amount := total - amount;
                                      out_address := if truthy change_addr
                                                     then default "" change_addr
                                                     else owner |}]
                             else [{| out_amount := amount; out_address := to_addr |}];
                           tx_timestamp := now; tx_txid := None; tx_coinbase := false |}
                        from_priv_hex utxos)
                   = Raise (ValueError "Insufficient funds") <-> (total < amount)%Z).
  { case_bool_decide as Hlt; [split; [intros _; exact Hlt|reflexivity]|].
    split; [|lia]. intros Habs. exfalso. revert Habs.
    apply not_insufficient_bind; [apply not_insufficient_keys|].
    intros ins. apply not_insufficient_sign. }
  split; [exact Hraise|]. split; [exact Hall|]. split; [|split].
  - intros Hnonneg. rewrite Hraise.
    assert (Hle : (total <= sum_Z (amounts (owned_by owner utxos)))%Z).
    { rewrite Htotal. unfold amounts. rewrite <- firstn_map. apply sum_Z_take_le.
      apply Forall_map, Forall_forall. intros kv Hkv.
      unfold owned_by in Hkv. apply list_elem_of_filter in Hkv as [_ Hkv].
      rewrite Forall_forall in Hnonneg. apply Hnonneg, Hkv. }
    split; [intros Hlt; destruct (Hall Hlt) as [_ <-]; exact Hlt|lia].
  - intros tx H. case_bool_decide as Hlt; [discriminate|].
    apply bind_Ok in H as (ins & Hins & H).
    apply sign_inputs_shape in H as (Hout & Hin & Hcb). cbn in Hout, Hin, Hcb.
    split; [exact Hcb|]. split; [rewrite Hin; apply keys_of_inputs, Hins|].
    rewrite Hout, change_address_or.
    destruct (bool_decide (total - amount > 0)%Z) eqn:Hchg.
    + apply bool_decide_eq_true in Hchg.
      rewrite bool_decide_eq_true_2 by lia. reflexivity.
    + apply bool_decide_eq_false in Hchg.
      rewrite bool_decide_eq_false_2 by lia. reflexivity.
  - intros sk Hkey Haddr Hnd Hsome Hge.
    rewrite bool_decide_eq_false_2 by lia.
    destruct (inputs_of_keys keys Hsome) as (ins & Hins & Hrefs & Hdc).
    rewrite Hins. cbn [mbind result_bind].
    apply (sign_inputs_owned _ _ _ sk owner); [reflexivity|exact Hkey|exact Haddr| |exact Hdc].
    cbn [tx_inputs]. apply (owned_entries_inputs owner utxos k); [exact Hnd|].
    rewrite Hrefs. exact Hkeys.
Qed.

End BuildTotal.

(* ================================================================== *)
(** * Applying a transaction; what block validation answers *)
(* ================================================================== *)

Section ApplyFacts.
Context {float : Type} `{Lib : Library float} `{Cfg : Config}.

(* The record types, taken at the section's [float]. *)
#[local] Abbreviation Transaction := (Transaction float).
#[local] Abbreviation Block := (Block float).
#[local] Abbreviation State := (State float).
#[local] Abbreviation M := (M float).

Lemma spend_run_distinct (u : UtxoDict) (ins : list TxInput) :
  NoDup (map ref_of ins) ->
  Forall (fun i => ref_of i ∈ dict_keys u) ins ->
  spend_run u ins = (inr tt, remove_refs u ins).
Proof.
  revert u. induction ins as [|i ins IH]; intros u Hnd Hall; [reflexivity|].
  cbn [map] in Hnd. apply NoDup_cons in Hnd as [Hnin Hnd].
  apply Forall_cons in Hall as [Hi Hall].
  cbn [spend_run remove_refs fold_left].
  apply dict_contains_true in Hi. rewrite Hi.
  apply IH; [exact Hnd|].
  rewrite Forall_forall in *. intros j Hj.
  apply dict_keys_remove_ne; [|apply Hall, Hj].
  intros Heq. apply Hnin. rewrite <- Heq. apply list_elem_of_fmap. eauto.
Qed.

Lemma spend_run_keys (u : UtxoDict) (ins : list TxInput) (k : UTXOKey) :
  k ∈ dict_keys (snd (spend_run u ins)) -> k ∈ dict_keys u.
Proof.
  revert u. induction ins as [|i ins IH]; intros u; cbn [spend_run]; [trivial|].
  destruct (dict_contains u (ref_of i)); [|trivial].
  intros H. apply IH in H. eapply dict_keys_remove_subseteq, H.
Qed.

(** A reference that is no longer there, or that comes twice, stops the
    removals. *)
Lemma spend_run_absent (u : UtxoDict) (ins : list TxInput) :
  (exists j, j ∈ ins /\ ref_of j ∉ dict_keys u) ->
  fst (spend_run u ins) = inl false.
Proof.
  revert u. induction ins as [|i ins IH]; intros u (j & Hj & Habs).
  - apply elem_of_nil in Hj. contradiction.
  - cbn [spend_run]. destruct (dict_contains u (ref_of i)) eqn:Hc; [|reflexivity].
    apply elem_of_cons in Hj as [->|Hj].
    + apply dict_contains_false in Habs. congruence.
    + apply IH. exists j. split; [exact Hj|].
      intros Hin. apply Habs. eapply dict_keys_remove_subseteq, Hin.
Qed.

Lemma spend_run_duplicate (u : UtxoDict) (ins : list TxInput) :
  NoDup (dict_keys u) ->
  ~ NoDup (map ref_of ins) ->
  fst (spend_run u ins) = inl false.
Proof.
  revert u. induction ins as [|i ins IH]; intros u Hnd Hdup.
  - exfalso. apply Hdup. constructor.
  - cbn [spend_run]. destruct (dict_contains u (ref_of i)) eqn:Hc; [|reflexivity].
    destruct (decide (ref_of i ∈ map ref_of ins)) as [Hin|Hnin].
    + apply spend_run_absent.
      apply list_elem_of_fmap in Hin as (j & Hj & Hin).
      exists j. split; [exact Hin|]. rewrite <- Hj. apply dict_remove_gone, Hnd.
    + apply IH; [apply dict_remove_NoDup, Hnd|].
      intros Hnd'. apply Hdup. simpl. apply NoDup_cons. auto.
Qed.

Lemma verify_inputs_present (tx : Transaction) (u : UtxoDict) :
  tx_coinbase tx = false -> verify tx u = Ok true ->
  Forall (fun i => ref_of i ∈ dict_keys u) (tx_inputs tx).
Proof.
  intros Hcb Hv. apply verify_true_checks in Hv as [(pre & _ & Hall) _ _]; [|exact Hcb].
  eapply Forall_impl; [exact Hall|]. intros i [Hp _ _ _].
  destruct (decide (ref_of i ∈ dict_keys u)) as [Hin|Hnin]; [exact Hin|].
  apply dict_get_None in Hnin. contradiction.
Qed.

(** [apply_tx] writes to the UTXO dictionary and to nothing else.  A
    coinbase transaction has its outputs added, whatever they are.  Any
    other transaction is first put to [verify]: refused, it leaves the
    dictionary as it was; accepted, with inputs that name distinct
    outputs, it has these removed and its own outputs added, and the
    answer is true.  Accepted, with an input that names an output a second
    time, it is abandoned half way: the answer is false, and the outputs
    named up to the repetition are gone from the dictionary, the first
    among them. *)
Theorem apply_tx_outcomes (tx : Transaction) (s : State) :
  snd (apply_tx tx s) = with_utxos (utxos (snd (apply_tx tx s))) s /\
  (tx_coinbase tx = true ->
   apply_tx tx s = (Ok true, with_utxos (put_outputs (utxos s) tx) s)) /\
  (tx_coinbase tx = false -> verify tx (utxos s) = Ok false ->
   apply_tx tx s = (Ok false, s)) /\
  (tx_coinbase tx = false -> verify tx (utxos s) = Ok true ->
   NoDup (map ref_of (tx_inputs tx)) ->
   apply_tx tx s
   = (Ok true, with_utxos (put_outputs (remove_refs (utxos s) (tx_inputs tx)) tx) s)) /\
  (tx_coinbase tx = false -> verify tx (utxos s) = Ok true ->
   NoDup (dict_keys (utxos s)) -> ~ NoDup (map ref_of (tx_inputs tx)) ->
   fst (apply_tx tx s) = Ok false /\
   exists i rest, tx_inputs tx = i :: rest /\
                  ref_of i ∈ dict_keys (utxos s) /\
                  ref_of i ∉ dict_keys (utxos (snd (apply_tx tx s)))).
Proof.
  rewrite apply_tx_run. cbn [snd fst]. split; [reflexivity|]. unfold tx_step.
  split; [|split; [|split]].
  - intros ->. reflexivity.
  - intros -> ->. cbn [fst snd fmap result_fmap to_bool]. rewrite with_utxos_id.
    reflexivity.
  - intros Hcb Hv Hnd. rewrite Hcb, Hv.
    rewrite (spend_run_distinct _ _ Hnd (verify_inputs_present _ _ Hcb Hv)).
    reflexivity.
  - intros Hcb Hv Hndu Hdup. rewrite Hcb, Hv.
    pose proof (spend_run_duplicate _ _ Hndu Hdup) as Hfst.
    pose proof (verify_inputs_present _ _ Hcb Hv) as Hpres.
    destruct (tx_inputs tx) as [|i rest] eqn:Hins.
    { exfalso. apply Hdup. constructor. }
    apply Forall_cons in Hpres as [Hi _].
    destruct (spend_run (utxos s) (i :: rest)) as [[b|[]] u1] eqn:Hrun;
      cbn [fst snd] in *; [|discriminate].
    injection Hfst as ->. cbn [fmap result_fmap to_bool utxos with_utxos].
    split; [reflexivity|]. exists i, rest. split; [reflexivity|]. split; [exact Hi|].
    cbn [spend_run] in Hrun. apply dict_contains_true in Hi as Hc. rewrite Hc in Hrun.
    intros Hin.
    assert (Hin' : ref_of i ∈ dict_keys (snd (spend_run (dict_remove (utxos s) (ref_of i)) rest)))
      by (rewrite Hrun; exact Hin).
    apply spend_run_keys in Hin'. exact (dict_remove_gone _ _ Hndu Hin').
Qed.


(** *** What [validate_block] answers *)

Lemma replay_run_settles (u : UtxoDict) (txs : list Transaction) :
  exists r, fst (replay_run u txs) = Ok r.
Proof.
  revert u. induction txs as [|tx txs IH]; intros u; cbn [replay_run]; [eauto|].
  unfold tx_step. destruct (tx_coinbase tx); [apply IH|].
  destruct (verify_returns tx u) as [[|] ->]; [|eauto].
  destruct (spend_run u (tx_inputs tx)) as [[b|[]] u1]; [eauto|apply IH].
Qed.

Lemma settled_compute_merkle (block : Block) : settled (compute_merkle block).
Proof.
  unfold compute_merkle, merkle_root_hex.
  destruct (map tx_txid (blk_txs block)) as [|t l] eqn:Hl; [exact I|].
  apply settled_merkle_loop. reflexivity.
Qed.

(** [validate_block] accepts every block that meets the conditions: the
    link to the previous block, the proof of work, the recomputed hash and
    Merkle root, the coinbase and its reward, and a replay that goes
    through.  The live dictionary is not written to; the copy the replay
    worked on is the one new object. *)
Theorem validate_block_complete (block prev : Block) (s : State) (u' : UtxoDict) :
  block_header_ok block prev ->
  replay (utxos s) (blk_txs block) u' ->
  validate_block block prev s = (Ok true, with_temps (temps s ++ [u']) s).
Proof.
  intros Hhdr Hrep.
  apply (validate_block_true block prev s (with_temps (temps s ++ [u']) s)).
  split; [exact Hhdr|]. exists u'. split; [exact Hrep|reflexivity].
Qed.

(** [validate_block] answers with a boolean, with one exception: when the
    link to the previous block, the proof of work and the hash are in
    order and the computation of the Merkle root raises (a block of two or
    more transactions, one of whose txids is not hexadecimal), the
    exception goes to the caller. *)
Theorem validate_block_raises_only_merkle (block prev : Block) (s : State) :
  (exists b, fst (validate_block block prev s) = Ok b) \/
  (exists e, compute_merkle block = Raise e /\
             validate_block block prev s = (Raise e, s) /\
             blk_hash prev = Some (blk_prev_hash block) /\
             blk_hash block = Some (compute_hash block) /\
             startswith (compute_hash block) (str_repeat "0" DIFFICULTY) = true).
Proof.
  destruct (validate_block_cases block prev s) as [(r & Hr & _ & _)|[_ Hr]].
  2:{ left. rewrite Hr. cbn [fst].
      destruct (replay_run_settles (utxos s) (blk_txs block)) as (r & ->).
      eexists. reflexivity. }
  clear r Hr. unfold validate_block.
  case_bool_decide as Hprev; cbn [negb]; [|left; eexists; reflexivity].
  destruct (truthy (blk_hash block)) eqn:Hth; cbn [negb orb];
    [|left; eexists; reflexivity].
  destruct (startswith _ _) eqn:Hpow; cbn [negb]; [|left; eexists; reflexivity].
  case_bool_decide as Hhash; cbn [negb]; [|left; eexists; reflexivity].
  rewrite bindM_run. unfold lift.
  pose proof (settled_compute_merkle block) as Hset.
  destruct (compute_merkle block) as [m|e| |] eqn:Hm; cbn beta iota;
    try contradiction.
  - case_bool_decide as Hmr; cbn [negb]; [|left; eexists; reflexivity].
    destruct (blk_txs block) as [|tx0 rest] eqn:Htxs; [left; eexists; reflexivity|].
    destruct (tx_coinbase tx0); cbn [negb]; [|left; eexists; reflexivity].
    case_bool_decide as Hrew; cbn [negb]; [|left; eexists; reflexivity].
    left. rewrite bindM_run, dict_copy_run.
    rewrite bindM_run, replay_loop_run by (cbn; rewrite length_app; simpl; lia).
    rewrite !deref_fresh. cbn [deref].
    destruct (replay_run_settles (utxos s) (tx0 :: rest)) as (r & Hrun).
    destruct (replay_run (utxos s) (tx0 :: rest)) as [res u1]. cbn [fst snd] in *.
    subst res. destruct r as [b|[]]; eexists; reflexivity.
  - right. exists e. split; [reflexivity|]. split; [reflexivity|].
    split; [congruence|]. split; [congruence|].
    rewrite <- Hhash in Hpow. exact Hpow.
Qed.

End ApplyFacts.

(* ================================================================== *)
(** * Blocks: the proof-of-work search and [finalize] *)
(* ================================================================== *)

Section BlockFacts.
Context {float : Type} `{Lib : Library float} `{Cfg : Config}.

(* The record types, taken at the section's [float]. *)
#[local] Abbreviation Transaction := (Transaction float).
#[local] Abbreviation Block := (Block float).
#[local] Abbreviation State := (State float).
#[local] Abbreviation M := (M float).

(** What the search loop leaves of the block it was given. *)
Lemma mine_loop_post (fuel : nat) (clock : Z -> float) (prefix : string) (b b' : Block) :
  mine_loop fuel clock prefix b = Ok b' ->
  blk_hash b' = Some (compute_hash b') /\
  startswith (compute_hash b') prefix = true /\
  blk_txs b' = blk_txs b /\ blk_merkle_root b' = blk_merkle_root b /\
  blk_index b' = blk_index b /\ blk_prev_hash b' = blk_prev_hash b /\
  (blk_nonce b <= blk_nonce b' < blk_nonce b + Z.of_nat fuel)%Z.
Proof.
  revert b. induction fuel as [|fuel IH]; intros b; [discriminate|].
  cbn [mine_loop]. destruct (startswith (compute_hash b) prefix) eqn:Hp.
  - intros [= <-]. cbn [blk_hash blk_txs blk_merkle_root blk_index blk_prev_hash
                         blk_nonce set_hash].
    change (compute_hash (set_hash b (Some (compute_hash b)))) with (compute_hash b).
    repeat split; try assumption; lia.
  - intros H. apply IH in H as (Hh & Hs & Ht & Hm & Hi & Hph & Hn).
    destruct (bool_decide _) in *; cbn in Ht, Hm, Hi, Hph, Hn;
      (repeat split; try assumption; lia).
Qed.

(** The search from a nonce [k] on, when the first nonce whose hash has
    the prefix is [n] and no timestamp refresh falls in between. *)
Lemma mine_loop_finds (clock : Z -> float) (prefix : string) (start : Block)
    (n : nat) (Hn : (Z.of_nat n < 100000)%Z)
    (Hmiss : forall k : nat, (k < n)%nat ->
               startswith (compute_hash (set_nonce start (Z.of_nat k))) prefix = false)
    (Hhit : startswith (compute_hash (set_nonce start (Z.of_nat n))) prefix = true) :
  forall (d k fuel : nat),
    (k + d = n)%nat -> (d < fuel)%nat ->
    mine_loop fuel clock prefix (set_nonce start (Z.of_nat k))
    = Ok (set_hash (set_nonce start (Z.of_nat n))
                   (Some (compute_hash (set_nonce start (Z.of_nat n))))).
Proof.
  induction d as [|d IH]; intros k fuel Hk Hfuel.
  - replace k with n by lia. destruct fuel as [|fuel]; [lia|].
    cbn [mine_loop]. rewrite Hhit. reflexivity.
  - destruct fuel as [|fuel]; [lia|]. cbn [mine_loop].
    rewrite Hmiss by lia.
    cbn [blk_nonce set_nonce].
    rewrite bool_decide_eq_false_2.
    2:{ rewrite Z.mod_small by lia. lia. }
    change (set_nonce (set_nonce start (Z.of_nat k)) (Z.of_nat k + 1))
      with (set_nonce start (Z.of_nat k + 1)).
    replace (Z.of_nat k + 1)%Z with (Z.of_nat (S k)) by lia.
    apply IH; lia.
Qed.

(** [mine_block] sets the Merkle root, starts from nonce 0 and tries the
    nonces in turn.  When [n], below 100000, is the first nonce at which
    the hash of the header starts with [difficulty] zeros, the block that
    comes back carries nonce [n] and that hash, however much longer the
    loop was allowed to run; for a difficulty of zero or less this is
    nonce 0.  And whatever block comes back has the Merkle root of its
    transactions and the hash of its header stored in it, the hash starts
    with the zeros asked for, and index, previous hash and transactions
    are those of the block given. *)
Theorem mine_block_search (clock : Z -> float) (b : Block) (d : Z) :
  (forall m (n fuel : nat),
     compute_merkle b = Ok m ->
     let start := set_nonce (set_merkle_root b m) 0 in
     (Z.of_nat n < 100000)%Z ->
     (forall k : nat, (k < n)%nat ->
        startswith (compute_hash (set_nonce start (Z.of_nat k))) (str_repeat "0" d)
        = false) ->
     startswith (compute_hash (set_nonce start (Z.of_nat n))) (str_repeat "0" d) = true ->
     (n < fuel)%nat ->
     mine_block fuel clock b d
     = Ok (set_hash (set_nonce start (Z.of_nat n))
                    (Some (compute_hash (set_nonce start (Z.of_nat n)))))) /\
  (forall m (fuel : nat),
     compute_merkle b = Ok m -> (d <= 0)%Z -> (0 < fuel)%nat ->
     mine_block fuel clock b d
     = Ok (set_hash (set_nonce (set_merkle_root b m) 0)
                    (Some (compute_hash (set_nonce (set_merkle_root b m) 0))))) /\
  (forall (fuel : nat) b',
     mine_block fuel clock b d = Ok b' ->
     compute_merkle b = Ok (blk_merkle_root b') /\
     compute_merkle b' = Ok (blk_merkle_root b') /\
     blk_hash b' = Some (compute_hash b') /\
     startswith (compute_hash b') (str_repeat "0" d) = true /\
     blk_txs b' = blk_txs b /\ blk_index b' = blk_index b /\
     blk_prev_hash b' = blk_prev_hash b /\
     (0 <= blk_nonce b' < Z.of_nat fuel)%Z).
Proof.
  split; [|split].
  - intros m n fuel Hm start Hn Hmiss Hhit Hfuel. unfold mine_block.
    rewrite Hm. cbn [mbind result_bind].
    exact (mine_loop_finds clock _ start n Hn Hmiss Hhit n 0%nat fuel
             ltac:(lia) Hfuel).
  - intros m fuel Hm Hd Hfuel. unfold mine_block. rewrite Hm. cbn [mbind result_bind].
    destruct fuel as [|fuel]; [lia|]. cbn [mine_loop].
    replace (str_repeat "0" d) with ""
      by (unfold str_repeat; destruct d; [reflexivity|lia|reflexivity]).
    unfold startswith.
    destruct (compute_hash (set_nonce (set_merkle_root b m) 0)); reflexivity.
  - intros fuel b' H. unfold mine_block in H. apply bind_Ok in H as (m & Hm & H).
    apply mine_loop_post in H as (Hh & Hs & Ht & Hmr & Hi & Hph & Hn).
    cbn in Ht, Hmr, Hi, Hph, Hn.
    split; [congruence|]. split.
    { unfold compute_merkle in *. rewrite Ht. congruence. }
    repeat split; try assumption; lia.
Qed.

(** [finalize] stores the Merkle root of the transactions and then the
    hash of the header, and touches nothing else; finalizing again changes
    nothing.  It raises exactly when the Merkle root does. *)
Theorem finalize_stores_root_and_hash (b : Block) :
  (forall b', finalize b = Ok b' ->
     compute_merkle b' = Ok (blk_merkle_root b') /\
     blk_hash b' = Some (compute_hash b') /\
     finalize b' = Ok b' /\
     blk_index b' = blk_index b /\ blk_prev_hash b' = blk_prev_hash b /\
     blk_timestamp b' = blk_timestamp b /\ blk_nonce b' = blk_nonce b /\
     blk_txs b' = blk_txs b) /\
  (forall e, finalize b = Raise e <-> compute_merkle b = Raise e).
Proof.
  unfold finalize. split.
  - intros b' H. apply bind_Ok in H as (m & Hm & [= <-]).
    assert (Hm' : compute_merkle
                    (set_hash (set_merkle_root b m)
                       (Some (compute_hash (set_merkle_root b m)))) = Ok m) by exact Hm.
    split; [exact Hm'|]. split; [reflexivity|]. split; [|repeat split].
    rewrite Hm'. reflexivity.
  - intros e. destruct (compute_merkle b); cbn [mbind result_bind];
      split; congruence.
Qed.

End BlockFacts.

(* ================================================================== *)
(** * The Merkle root at its edges *)
(* ================================================================== *)

Section MerkleMore.
Context {float : Type} `{Lib : Library float}.

(* The record types, taken at the section's [float]. *)
#[local] Abbreviation Transaction := (Transaction float).
#[local] Abbreviation Block := (Block float).

Lemma pair_hash_decodes (x y h : option string) :
  pair_hash x y = Ok h ->
  decodes x /\ decodes y /\ is_double_hash h.
Proof.
  unfold pair_hash, decodes, is_double_hash. intros H.
  apply bind_Ok in H as (lb & Hx & H). apply bind_Ok in H as (rb & Hy & [= <-]).
  destruct x as [sx|]; [|discriminate]. destruct y as [sy|]; [|discriminate].
  cbn [fromhex_opt] in Hx, Hy.
  split; [exists sx, lb; auto|]. split; [exists sy, rb; auto|]. eexists; reflexivity.
Qed.

Lemma pair_up_decodes (level next : list (option string)) :
  pair_up level = Ok next ->
  Forall decodes level /\ Forall is_double_hash next.
Proof.
  revert next. induction level as [level IH] using (induction_ltof1 _ (@length _)).
  unfold ltof in IH. intros next.
  destruct level as [|x [|y rest]]; cbn [pair_up].
  - intros [= <-]. split; constructor.
  - intros H. apply bind_Ok in H as (h & Hh & [= <-]).
    apply pair_hash_decodes in Hh as (Hx & _ & Hhash).
    split; constructor; auto.
  - intros H. apply bind_Ok in H as (h & Hh & H).
    apply bind_Ok in H as (r & Hr & [= <-]).
    apply pair_hash_decodes in Hh as (Hx & Hy & Hhash).
    apply IH in Hr as [Hrest Hr]; [|simpl; lia].
    split; repeat constructor; auto.
Qed.

Lemma merkle_reduces_hash (level : list (option string)) (root : option string) :
  merkle_reduces level root ->
  Forall is_double_hash level \/ (1 < length level)%nat ->
  is_double_hash root.
Proof.
  induction 1 as [x|level next root Hgt Hnext _ IH]; intros Hor.
  - destruct Hor as [Hall|Hlen]; [|simpl in Hlen; lia].
    apply Forall_cons in Hall as [Hx _]. exact Hx.
  - apply IH. left. apply pair_up_decodes in Hnext as [_ Hn]. exact Hn.
Qed.

(** The root of one txid is that txid, as it stands: nothing is decoded
    and nothing is hashed, so that the root of a block of one transaction
    is the txid of that transaction, whatever it is.  From two txids on, a
    root comes out only if every txid is a string [bytes.fromhex] decodes,
    and the root is then a double hash. *)
Theorem merkle_root_single_and_decoding :
  (forall t, merkle_root_hex [t] = Ok t) /\
  (forall (block : Block) tx,
     blk_txs block = [tx] -> compute_merkle block = Ok (tx_txid tx)) /\
  (forall txids root,
     (1 < length txids)%nat -> merkle_root_hex txids = Ok root ->
     Forall decodes txids /\ is_double_hash root).
Proof.
  split; [reflexivity|]. split.
  - intros block tx Htxs. unfold compute_merkle. rewrite Htxs. reflexivity.
  - intros txids root Hlen H.
    destruct txids as [|t txids]; [simpl in Hlen; lia|].
    unfold merkle_root_hex in H. apply merkle_loop_reduces in H; [|reflexivity].
    split.
    + inversion H as [|? next ? _ Hnext _]; subst; [simpl in Hlen; lia|].
      apply pair_up_decodes in Hnext as [Hall _]. exact Hall.
    + eapply merkle_reduces_hash; [exact H|]. right. exact Hlen.
Qed.

(** *** A last element without partner is paired with itself *)

Lemma pair_up_duplicate_last (l : list (option string)) (c : option string) :
  Nat.Even (length l) -> pair_up (l ++ [c]) = pair_up (l ++ [c; c]).
Proof.
  induction l as [l IH] using (induction_ltof1 _ (@length _)).
  unfold ltof in IH. intros Hev.
  destruct l as [|x [|y rest]].
  - cbn. destruct (pair_hash c c); reflexivity.
  - exfalso. destruct Hev as [k Hk]. simpl in Hk. lia.
  - cbn [app pair_up]. rewrite IH; [reflexivity|simpl; lia|].
    destruct Hev as [k Hk]. exists (k - 1)%nat. simpl in Hk. lia.
Qed.

Lemma merkle_loop_S (f : nat) (level : list (option string)) :
  merkle_loop (S f) level
  = if bool_decide (1 < length level)%nat
    then nxt ← merkle_next level; merkle_loop f nxt
    else list_getitem level 0.
Proof. reflexivity. Qed.

Lemma merkle_loop_fuel (f1 f2 : nat) (level : list (option string)) :
  (length level <= f1)%nat -> (length level <= f2)%nat ->
  merkle_loop f1 level = merkle_loop f2 level.
Proof.
  revert f2 level. induction f1 as [|f1 IH]; intros f2 level H1 H2.
  - destruct level; [|simpl in H1; lia]. destruct f2; reflexivity.
  - destruct f2 as [|f2].
    + destruct level; [|simpl in H2; lia]. reflexivity.
    + cbn [merkle_loop]. case_bool_decide as Hgt; [|reflexivity].
      rewrite merkle_next_pair_up.
      destruct (pair_up level) as [nxt| | |] eqn:Hn; try reflexivity.
      cbn [mbind result_bind].
      apply pair_up_length in Hn. pose proof (div2_lt _ Hgt).
      apply IH; lia.
Qed.

(** The Merkle root does not tell a list of odd length, three txids or
    more, from the list with its last txid repeated once more: the loop
    duplicates the last element of an odd level itself.  Two lists of
    txids, then, and one root. *)
Theorem merkle_root_odd_duplicate (l : list (option string)) (c : option string) :
  Nat.Even (length l) -> (2 <= length l)%nat ->
  merkle_root_hex (l ++ [c]) = merkle_root_hex (l ++ [c; c]).
Proof.
  intros Hev Hlen. unfold merkle_root_hex.
  destruct (l ++ [c]) as [|a la] eqn:Ha.
  { apply (f_equal length) in Ha. rewrite length_app in Ha. simpl in Ha. lia. }
  destruct (l ++ [c; c]) as [|b lb] eqn:Hb.
  { apply (f_equal length) in Hb. rewrite length_app in Hb. simpl in Hb. lia. }
  rewrite <- Ha, <- Hb.
  assert (Hla : length (l ++ [c]) = S (length l)) by (rewrite length_app; simpl; lia).
  assert (Hlb : length (l ++ [c; c]) = S (S (length l)))
    by (rewrite length_app; simpl; lia).
  rewrite Hla, Hlb, !merkle_loop_S, Hla, Hlb.
  rewrite !bool_decide_eq_true_2 by lia.
  rewrite !merkle_next_pair_up, (pair_up_duplicate_last l c Hev).
  destruct (pair_up (l ++ [c; c])) as [nxt| | |] eqn:Hn; try reflexivity.
  cbn [mbind result_bind].
  apply pair_up_length in Hn. rewrite Hlb in Hn.
  assert (Nat.div2 (S (S (length l)) + 1) <= length l)%nat.
  { destruct Hev as [k Hk]. rewrite Hk in Hlen |- *.
    replace (S (S (2 * k)) + 1)%nat with (S (2 * (S k)))%nat by lia.
    rewrite Nat.div2_succ_double. lia. }
  apply merkle_loop_fuel; lia.
Qed.

End MerkleMore.

(* ================================================================== *)
(** * Transactions and ledgers that came back from the files *)
(* ================================================================== *)

Section ReloadedFacts.
Context {float : Type} `{Lib : Library float} `{Cfg : Config}.

(* The record types, taken at the section's [float]. *)
#[local] Abbreviation Transaction := (Transaction float).
#[local] Abbreviation Block := (Block float).
#[local] Abbreviation State := (State float).
#[local] Abbreviation M := (M float).

Lemma mapM_attribute_error {A B} (f : A -> result B) (l : list A) :
  (forall a, attribute_error_or_ok (f a)) ->
  attribute_error_or_ok (mapM f l) /\
  (Exists (fun a => f a = Raise AttributeError) l -> mapM f l = Raise AttributeError).
Proof.
  intros Hf. induction l as [|a l [IH1 IH2]].
  - split; [left; eexists; reflexivity|]. intros H. inversion H.
  - cbn [mapM]. destruct (Hf a) as [[b Hb]|Hb]; rewrite Hb; cbn [mbind result_bind].
    + destruct IH1 as [[bs Hbs]|Hbs]; rewrite Hbs; cbn [mbind result_bind].
      * split; [left; eexists; reflexivity|].
        intros H. apply Exists_cons in H as [H|H]; [congruence|].
        apply IH2 in H. congruence.
      * split; [right; reflexivity|reflexivity].
    + split; [right; reflexivity|reflexivity].
Qed.

Lemma input_to_dict_attribute (i : TxInput) (b : bool) :
  attribute_error_or_ok (TxInput_to_dict (float := float) i b) /\
  (tin_class i = Synthesized -> TxInput_to_dict (float := float) i b = Raise AttributeError).
Proof.
  unfold TxInput_to_dict. destruct (tin_class i).
  - split; [left; eexists; reflexivity|discriminate].
  - split; [right; reflexivity|reflexivity].
Qed.

Lemma not_dataclass_exists (tx : Transaction) :
  ~ tx_dataclass tx -> Exists (fun i => tin_class i = Synthesized) (tx_inputs tx).
Proof.
  unfold tx_dataclass. intros H. apply not_Forall_Exists in H; [|intros i; apply _].
  eapply Exists_impl; [exact H|]. intros i Hi. cbn in Hi.
  destruct (tin_class i); [contradiction|reflexivity].
Qed.

Lemma to_dict_attribute (tx : Transaction) (b : bool) :
  attribute_error_or_ok (Transaction_to_dict tx b) /\
  (~ tx_dataclass tx -> Transaction_to_dict tx b = Raise AttributeError).
Proof.
  unfold Transaction_to_dict.
  destruct (mapM_attribute_error (fun i => TxInput_to_dict (float := float) i b)
              (tx_inputs tx) (fun i => proj1 (input_to_dict_attribute i b)))
    as [H1 H2].
  split.
  - destruct H1 as [[ins ->]| ->]; [left; eexists; reflexivity|right; reflexivity].
  - intros Hnd. rewrite H2; [reflexivity|].
    eapply Exists_impl; [apply not_dataclass_exists, Hnd|].
    intros i Hi. apply input_to_dict_attribute, Hi.
Qed.

Lemma tx_to_raw_attribute (tx : Transaction) :
  attribute_error_or_ok (tx_to_raw tx) /\
  (~ tx_dataclass tx -> tx_to_raw tx = Raise AttributeError).
Proof.
  unfold tx_to_raw. split.
  - destruct (decide (tx_dataclass tx)) as [Hd|Hd].
    + apply (to_dict_dataclass tx true) in Hd as (d & ->). left. eexists. reflexivity.
    + rewrite (proj2 (to_dict_attribute tx true) Hd). right. reflexivity.
  - intros Hd. rewrite (proj2 (to_dict_attribute tx true) Hd). reflexivity.
Qed.

Lemma block_to_raw_attribute (b : Block) :
  attribute_error_or_ok (block_to_raw b) /\
  (Exists (fun t => ~ tx_dataclass t) (blk_txs b) -> block_to_raw b = Raise AttributeError).
Proof.
  unfold block_to_raw.
  destruct (mapM_attribute_error tx_to_raw (blk_txs b)
              (fun t => proj1 (tx_to_raw_attribute t))) as [H1 H2].
  split.
  - destruct H1 as [[txs ->]| ->]; [left; eexists; reflexivity|right; reflexivity].
  - intros Hex. rewrite H2; [reflexivity|].
    eapply Exists_impl; [exact Hex|]. intros t Ht. apply tx_to_raw_attribute, Ht.
Qed.

(** A transaction one of whose inputs is not an instance of the dataclass
    (after [_load], every input is a class made by [type]) has no
    preimage and no txid: [to_dict] raises [AttributeError].  [verify]
    catches it and answers false whatever the dictionary, unless the
    transaction is a coinbase; [sign_inputs] and the serialisation of
    [_persist] let it through to the caller. *)
Theorem synthesized_input_effects (tx : Transaction) :
  ~ tx_dataclass tx ->
  preimage_of tx = Raise AttributeError /\
  compute_txid tx = Raise AttributeError /\
  (forall u, verify tx u = Ok (tx_coinbase tx)) /\
  (forall priv u, tx_coinbase tx = true -> sign_inputs tx priv u = Raise AttributeError) /\
  tx_to_raw tx = Raise AttributeError.
Proof.
  intros Hd.
  assert (Hpre : preimage_of tx = Raise AttributeError).
  { unfold preimage_of. rewrite (proj2 (to_dict_attribute tx false) Hd). reflexivity. }
  assert (Hid : compute_txid tx = Raise AttributeError).
  { unfold compute_txid. rewrite Hpre. reflexivity. }
  split; [exact Hpre|]. split; [exact Hid|]. split; [|split].
  - intros u. unfold verify, verify_body. destruct (tx_coinbase tx); [reflexivity|].
    rewrite Hpre. reflexivity.
  - intros priv u Hcb. unfold sign_inputs. rewrite Hcb, Hid. reflexivity.
  - apply tx_to_raw_attribute, Hd.
Qed.

(** *** Writing a ledger that was read *)

Lemma as_loaded_not_dataclass (t : Transaction) :
  tx_inputs t <> [] -> ~ tx_dataclass (as_loaded_tx t).
Proof.
  unfold tx_dataclass. destruct (tx_inputs t) as [|i ins] eqn:Hins; [contradiction|].
  intros _ H. cbn [as_loaded_tx set_inputs tx_inputs] in H. rewrite Hins in H.
  cbn [map] in H. apply Forall_cons in H as [H _]. discriminate.
Qed.

Lemma as_loaded_no_inputs (t : Transaction) : tx_inputs t = [] -> as_loaded_tx t = t.
Proof. destruct t as [ins outs ts ti cb]. cbn. intros ->. reflexivity. Qed.

(** [_persist] on a ledger that holds an input object without [to_dict].
    When the object sits in the chain, [AttributeError] comes before any
    file is opened: nothing is written.  When it sits in the mempool only,
    the chain and the UTXO set are written, and the mempool file, already
    opened for writing, is left empty.  A ledger that was written and read
    back is in the first case as soon as its chain holds a transaction
    with an input. *)
Theorem persist_after_reload_raises (s : State) :
  (Exists (fun b => Exists (fun t => ~ tx_dataclass t) (blk_txs b)) (chain s) ->
   _persist s = (Raise AttributeError, s)) /\
  (Forall (fun b => Forall tx_dataclass (blk_txs b)) (chain s) ->
   Exists (fun t => ~ tx_dataclass t) (mempool s) ->
   fst (_persist s) = Raise AttributeError /\
   mempool_file (snd (_persist s)) = Empty /\
   utxo_file (snd (_persist s)) = Json (utxos_to_raw (utxos s))) /\
  (persistable s -> NoDup (dict_keys (utxos s)) ->
   Forall (fun kv => plain_key (fst kv)) (utxos s) ->
   Exists (fun b => Exists (fun t => tx_inputs t <> []) (blk_txs b)) (chain s) ->
   _persist (snd (reload (snd (_persist s))))
   = (Raise AttributeError, snd (reload (snd (_persist s))))).
Proof.
  assert (Hchain : forall s0 : State,
            Exists (fun b => Exists (fun t => ~ tx_dataclass t) (blk_txs b)) (chain s0) ->
            _persist s0 = (Raise AttributeError, s0)).
  { intros s0 Hex. rewrite persist_run.
    destruct (mapM_attribute_error block_to_raw (chain s0)
                (fun b => proj1 (block_to_raw_attribute b))) as [_ H2].
    rewrite H2; [reflexivity|].
    eapply Exists_impl; [exact Hex|]. intros b Hb. apply block_to_raw_attribute, Hb. }
  split; [apply Hchain|]. split.
  - intros Hc Hex. rewrite persist_run.
    rewrite (mapM_Ok_map block_to_raw block_raw)
      by (eapply Forall_impl; [exact Hc|]; exact block_to_raw_dataclass).
    destruct (mapM_attribute_error tx_to_raw (mempool s)
                (fun t => proj1 (tx_to_raw_attribute t))) as [_ H2].
    rewrite H2; [repeat split|].
    eapply Exists_impl; [exact Hex|]. intros t Ht. apply tx_to_raw_attribute, Ht.
  - intros Hp Hnd Hplain Hex. apply Hchain.
    destruct (persist_reload s Hp Hnd Hplain) as (_ & _ & -> & _ & _).
    apply Exists_fmap. eapply Exists_impl; [exact Hex|].
    intros b Hb. cbn [as_loaded_block blk_txs]. apply Exists_fmap.
    eapply Exists_impl; [exact Hb|]. intros t Ht. apply as_loaded_not_dataclass, Ht.
Qed.

(** Let a ledger built by this process have plain UTXO keys, and let
    [_persist] return on it (the write itself may raise: [json.dump]
    refuses an integer of too many digits).  Then a ledger constructed on
    the three files loads, and holds the same UTXO dictionary, and the
    same chain and mempool field for field: each input comes back with its
    txid, index, signature and public key, as an object of a class made by
    [type] where it was an instance of the dataclass.  Transactions
    without inputs, the genesis block among them, come back as they
    were. *)
Theorem reload_restores_plain_ledger (s : State) :
  persistable s ->
  NoDup (dict_keys (utxos s)) ->
  Forall (fun kv => plain_key (fst kv)) (utxos s) ->
  fst (_persist s) = Ok tt ->
  fst (reload (snd (_persist s))) = Ok tt /\
  chain (snd (reload (snd (_persist s)))) = map as_loaded_block (chain s) /\
  utxos (snd (reload (snd (_persist s)))) = utxos s /\
  mempool (snd (reload (snd (_persist s)))) = map as_loaded_tx (mempool s) /\
  (Forall (fun b => Forall (fun t => tx_inputs t = []) (blk_txs b)) (chain s) ->
   chain (snd (reload (snd (_persist s)))) = chain s).
Proof.
  intros Hp Hnd Hplain _.
  destruct (persist_reload s Hp Hnd Hplain) as (_ & H2 & H3 & H4 & H5).
  repeat (split; [assumption|]).
  intros Hall. rewrite H3. rewrite <- (map_id (chain s)) at 2.
  apply map_ext_Forall. eapply Forall_impl; [exact Hall|].
  intros b Hb. destruct b as [i p ts n txs m h]. unfold as_loaded_block.
  cbn [blk_index blk_prev_hash blk_timestamp blk_nonce blk_txs blk_merkle_root blk_hash] in *.
  f_equal. rewrite <- (map_id txs) at 2. apply map_ext_Forall.
  eapply Forall_impl; [exact Hb|]. intros t Ht. apply as_loaded_no_inputs, Ht.
Qed.

End ReloadedFacts.

(* ================================================================== *)
(** * Admission to the mempool, whatever the transaction *)
(* ================================================================== *)

Section AdmissionTotal.
Context {float : Type} `{Lib : Library float} `{Cfg : Config}.

(* The record types, taken at the section's [float]. *)
#[local] Abbreviation Transaction := (Transaction float).
#[local] Abbreviation Block := (Block float).
#[local] Abbreviation State := (State float).
#[local] Abbreviation M := (M float).

(** The first step of [add_transaction]: a transaction that carries a
    txid keeps it; one that carries none, or an empty one, receives the
    txid [compute_txid] gives, and that call raises [AttributeError] when
    an input object has no [to_dict]. *)
Lemma assign_txid_cases (tx : Transaction) :
  (truthy (tx_txid tx) = true -> assign_txid tx = Ok tx) /\
  (truthy (tx_txid tx) = false -> tx_dataclass tx ->
   exists t, compute_txid tx = Ok t /\ assign_txid tx = Ok (set_txid tx (Some t))) /\
  (truthy (tx_txid tx) = false -> ~ tx_dataclass tx ->
   assign_txid tx = Raise AttributeError).
Proof.
  unfold assign_txid. split; [|split].
  - intros ->. reflexivity.
  - intros -> Hd. cbn [negb]. unfold compute_txid, preimage_of.
    apply (to_dict_dataclass tx false) in Hd as (d & ->). cbn [mbind result_bind].
    eexists. split; reflexivity.
  - intros -> Hd. cbn [negb]. unfold compute_txid, preimage_of.
    rewrite (proj2 (to_dict_attribute tx false) Hd). reflexivity.
Qed.

(** An exception of the first step goes to the caller, and nothing has
    been written by then. *)
Lemma add_transaction_raise (tx : Transaction) (s : State) (e : exn) :
  assign_txid tx = Raise e -> add_transaction tx s = (Raise e, s).
Proof.
  intros H. unfold add_transaction. rewrite bindM_run. unfold lift at 1.
  rewrite H. reflexivity.
Qed.

(** C3, as the code has it.  [add_transaction tx] first gives [tx] a txid
    when it carries none; the one case in which this fails is a
    transaction without txid one of whose input objects has no [to_dict],
    and the call then raises [AttributeError] with nothing changed.  Let
    [tx'] be [tx] after that step.  The call answers false and leaves the
    ledger as it was when [tx'] is a coinbase transaction, when [verify]
    refuses [tx'] against the live UTXO dictionary, when a pending
    transaction has the txid of [tx'], or when an input of [tx'] names an
    output that an input of a pending transaction names.  In every other
    case [tx'] goes to the end of the mempool, the chain and the UTXO
    dictionary stay as they were, and the answer is true unless writing
    the files raises.  Consequently, on whatever ledger a transaction with
    the txid of [tx'] is pending, [tx] is turned down; the ledger an
    admission leaves behind is one of these. *)
Theorem add_transaction_spec (tx : Transaction) (s : State) :
  ((truthy (tx_txid tx) = true \/ tx_dataclass tx) ->
   exists tx', assign_txid tx = Ok tx') /\
  (truthy (tx_txid tx) = false -> ~ tx_dataclass tx ->
   add_transaction tx s = (Raise AttributeError, s)) /\
  (forall tx', assign_txid tx = Ok tx' ->
     (admission_refused tx' s -> add_transaction tx s = (Ok false, s)) /\
     (~ admission_refused tx' s ->
      mempool (snd (add_transaction tx s)) = mempool s ++ [tx'] /\
      chain (snd (add_transaction tx s)) = chain s /\
      utxos (snd (add_transaction tx s)) = utxos s /\
      (fst (add_transaction tx s) = Ok true \/
       exists e, fst (add_transaction tx s) = Raise e)) /\
     (forall s2 : State,
        (exists t, t ∈ mempool s2 /\ tx_txid t = tx_txid tx') ->
        add_transaction tx s2 = (Ok false, s2)) /\
     (mempool (snd (add_transaction tx s)) = mempool s ++ [tx'] ->
      add_transaction tx (snd (add_transaction tx s))
      = (Ok false, snd (add_transaction tx s)))).
Proof.
  destruct (assign_txid_cases tx) as (Hkeep & Hnew & Hraise).
  split; [|split].
  - destruct (truthy (tx_txid tx)) eqn:Ht.
    + intros _. exists tx. apply Hkeep. reflexivity.
    + intros [Habs|Hd]; [discriminate|].
      destruct (Hnew eq_refl Hd) as (t & _ & Ha). eauto.
  - intros Ht Hd. apply add_transaction_raise, Hraise; assumption.
  - intros tx' Hassign.
    assert (Hpending : forall s2 : State,
              (exists t, t ∈ mempool s2 /\ tx_txid t = tx_txid tx') ->
              add_transaction tx s2 = (Ok false, s2)).
    { intros s2 (t & Ht & Heq).
      destruct (add_transaction_cases tx tx' s2 Hassign) as [[_ Hrun]|[Hnot _]];
        [exact Hrun|].
      exfalso. apply Hnot. eapply refused_duplicate; eassumption. }
    destruct (add_transaction_cases tx tx' s Hassign) as [[Href Hrun]|[Hnot Hrun]].
    + split; [intros _; exact Hrun|]. split; [contradiction|].
      split; [exact Hpending|].
      rewrite Hrun. cbn [snd]. intros Habs. exfalso.
      apply (f_equal (@length _)) in Habs. rewrite length_app in Habs. simpl in Habs. lia.
    + split; [contradiction|]. split.
      * intros _. rewrite Hrun, bindM_run.
        match goal with |- context [_persist ?st] =>
          destruct (persist_memory st) as [(Hc & Hu & Hm & _) Hres];
          destruct (_persist st) as [r s'] end.
        cbn [fst snd] in *. destruct Hres as [->|[e ->]]; cbn [fst snd]; eauto 8.
      * split; [exact Hpending|].
        intros Hmp. apply Hpending. exists tx'. split; [|reflexivity].
        rewrite Hmp. apply elem_of_app. right. left.
Qed.

End AdmissionTotal.

(* ================================================================== *)
(** * Payloads, there and back *)
(* ================================================================== *)

Section NodeFacts.
Context {float : Type} `{Lib : Library float} `{Flt : Floats float} `{Cfg : Config}.

(* The record types, taken at the section's [float]. *)
#[local] Abbreviation Transaction := (Transaction float).
#[local] Abbreviation Block := (Block float).

Lemma input_payload_roundtrip (i : TxInput) :
  TxInput_of_payload (float := float) (input_to_payload i) = Ok (as_dataclass_input i).
Proof. destruct i as [c t v [sg|] [pk|]]; reflexivity. Qed.

Lemma output_payload_roundtrip (o : TxOutput) :
  TxOutput_of_raw (float := float) (output_to_payload o) = Ok o.
Proof. destruct o. reflexivity. Qed.

Lemma py_truth_opt_str (o : option string) :
  py_truth (float := float) (opt_str o) = truthy o.
Proof. destruct o; reflexivity. Qed.

Lemma as_dataclass_tx_id (tx : Transaction) : tx_dataclass tx -> as_dataclass_tx tx = tx.
Proof.
  destruct tx as [ins outs ts ti cb]. unfold tx_dataclass, as_dataclass_tx, set_inputs.
  cbn [tx_inputs tx_outputs tx_timestamp tx_txid tx_coinbase]. intros H. f_equal.
  rewrite <- (map_id ins) at 2. apply map_ext_Forall.
  eapply Forall_impl; [exact H|]. intros [c t v sg pk]. cbn. intros ->. reflexivity.
Qed.

Lemma payload_to_tx_run (tx : Transaction) :
  payload_to_tx (tx_to_payload tx) = assign_txid (as_dataclass_tx tx).
Proof.
  unfold payload_to_tx, tx_to_payload.
  change (py_getitem _ "inputs") with (Ok (PList (map (input_to_payload (float := float)) (tx_inputs tx)))).
  cbn [mbind result_bind py_iter].
  rewrite (mapM_map_Ok TxInput_of_payload input_to_payload as_dataclass_input)
    by (apply Forall_forall; intros; apply input_payload_roundtrip).
  cbn [mbind result_bind].
  change (py_getitem _ "outputs")
    with (Ok (PList (map (output_to_payload (float := float)) (tx_outputs tx)))).
  cbn [mbind result_bind py_iter].
  rewrite (mapM_map_Ok TxOutput_of_raw output_to_payload id)
    by (apply Forall_forall; intros; apply output_payload_roundtrip).
  rewrite map_id. cbn [mbind result_bind].
  change (py_getitem _ "timestamp") with (Ok (PFloat (tx_timestamp tx))).
  change (py_get _ "coinbase" _) with (Ok (PBool (F := float) (tx_coinbase tx))).
  change (py_get _ "txid" _) with (Ok (opt_str (float := float) (tx_txid tx))).
  cbn [mbind result_bind as_float as_bool]. rewrite py_truth_opt_str.
  unfold assign_txid. cbn [tx_txid as_dataclass_tx set_inputs].
  destruct tx as [ins outs ts [ti|] cb]; cbn [tx_txid tx_inputs tx_outputs tx_timestamp
                                              tx_coinbase];
    [destruct (truthy (Some ti))|]; reflexivity.
Qed.

Lemma tx_to_payload_loaded (tx : Transaction) :
  tx_to_payload (as_loaded_tx tx) = tx_to_payload tx.
Proof.
  unfold tx_to_payload. cbn [as_loaded_tx set_inputs tx_inputs tx_outputs tx_timestamp
                              tx_coinbase tx_txid].
  rewrite map_map. reflexivity.
Qed.

(** A transaction turned into a payload and back is the transaction with
    every input an instance of the dataclass, and with a txid: the one it
    carried, or, when it carried none or an empty one, the one
    [compute_txid] gives.  The payload does not show the class of an input
    object, so that a transaction that came back from the files leaves
    [payload_to_tx] in the same state as the one that was written; and a
    transaction built by this process that carries a txid makes the trip
    unchanged. *)
Theorem payload_tx_roundtrip (tx : Transaction) :
  payload_to_tx (tx_to_payload tx) = assign_txid (as_dataclass_tx tx) /\
  tx_to_payload (as_loaded_tx tx) = tx_to_payload tx /\
  (tx_dataclass tx -> truthy (tx_txid tx) = true ->
   payload_to_tx (tx_to_payload tx) = Ok tx).
Proof.
  split; [apply payload_to_tx_run|]. split; [apply tx_to_payload_loaded|].
  intros Hd Ht. rewrite payload_to_tx_run, (as_dataclass_tx_id tx Hd).
  unfold assign_txid. rewrite Ht. reflexivity.
Qed.

(** The same for a block: what [payload_to_block] makes of the payload of
    a block is the block with each transaction as [payload_to_tx] returns
    it, and it is the block itself when the inputs are instances of the
    dataclass and every transaction carries a txid. *)
Theorem payload_block_roundtrip (b : Block) :
  payload_to_block (block_to_payload b)
  = (txs ← mapM (fun t => assign_txid (as_dataclass_tx t)) (blk_txs b);
     Ok {| blk_index := blk_index b; blk_prev_hash := blk_prev_hash b;
           blk_timestamp := blk_timestamp b; blk_nonce := blk_nonce b;
           blk_txs := txs; blk_merkle_root := blk_merkle_root b;
           blk_hash := blk_hash b |}) /\
  block_to_payload (as_loaded_block b) = block_to_payload b /\
  (Forall (fun t => tx_dataclass t /\ truthy (tx_txid t) = true) (blk_txs b) ->
   payload_to_block (block_to_payload b) = Ok b).
Proof.
  assert (Hrun : payload_to_block (block_to_payload b)
                 = (txs ← mapM (fun t => assign_txid (as_dataclass_tx t)) (blk_txs b);
                    Ok {| blk_index := blk_index b; blk_prev_hash := blk_prev_hash b;
                          blk_timestamp := blk_timestamp b; blk_nonce := blk_nonce b;
                          blk_txs := txs; blk_merkle_root := blk_merkle_root b;
                          blk_hash := blk_hash b |})).
  { unfold payload_to_block, block_to_payload.
    change (py_getitem _ "txs")
      with (Ok (PList (map (tx_to_payload (float := float)) (blk_txs b)))).
    cbn [mbind result_bind py_iter].
    assert (Hm : mapM payload_to_tx (map tx_to_payload (blk_txs b))
                 = mapM (fun t => assign_txid (as_dataclass_tx t)) (blk_txs b)).
    { induction (blk_txs b) as [|t l IH]; [reflexivity|].
      cbn [map mapM]. rewrite payload_to_tx_run, IH. reflexivity. }
    rewrite Hm.
    destruct (mapM (fun t => assign_txid (as_dataclass_tx t)) (blk_txs b)) as [txs| | |];
      try reflexivity.
    cbn [mbind result_bind].
    destruct b as [i p ts n txs0 [m|] [h|]]; reflexivity. }
  split; [exact Hrun|]. split.
  - unfold block_to_payload. cbn [as_loaded_block blk_index blk_prev_hash blk_timestamp
                                   blk_nonce blk_txs blk_merkle_root blk_hash].
    rewrite map_map.
    rewrite (map_ext _ tx_to_payload (fun t => tx_to_payload_loaded t)). reflexivity.
  - intros Hall. rewrite Hrun.
    rewrite (mapM_Ok_map (fun t => assign_txid (as_dataclass_tx t)) id).
    + rewrite map_id. destruct b; reflexivity.
    + eapply Forall_impl; [exact Hall|]. intros t [Hd Ht].
      rewrite (as_dataclass_tx_id t Hd). unfold assign_txid. rewrite Ht. reflexivity.
Qed.


(** What [payload_to_tx] does with a payload that is not the payload of a
    transaction.  A payload that is no dictionary is a [TypeError]; a
    dictionary without ["inputs"], without ["outputs"] or without
    ["timestamp"] is a [KeyError], looked for in this order; an input
    without ["txid"] or ["vout"], or with a key [TxInput] does not know, is
    a [TypeError].  ["coinbase"] and ["txid"] may be left out: the first
    is then false, the second is computed. *)
Theorem payload_to_tx_rejects :
  (forall p, (forall d, p <> PDict (F := float) d) -> payload_to_tx p = Raise TypeError) /\
  (forall d, dict_get d "inputs" = None ->
     payload_to_tx (PDict (F := float) d) = Raise KeyError) /\
  (forall d ins,
     dict_get d "inputs" = Some (PList (map (input_to_payload (float := float)) ins)) ->
     dict_get d "outputs" = None ->
     payload_to_tx (PDict d) = Raise KeyError) /\
  (forall d ins outs,
     dict_get d "inputs" = Some (PList (map (input_to_payload (float := float)) ins)) ->
     dict_get d "outputs" = Some (PList (map output_to_payload outs)) ->
     dict_get d "timestamp" = None ->
     payload_to_tx (PDict d) = Raise KeyError) /\
  (forall d i rest,
     dict_get d "inputs" = Some (PList (PDict i :: rest)) ->
     dict_get i "txid" = None \/ dict_get i "vout" = None \/
     (exists k v, (k, v) ∈ i /\ k ∉ ["txid"; "vout"; "signature"; "pubkey"]) ->
     payload_to_tx (PDict (F := float) d) = Raise TypeError) /\
  (forall d ins outs ts,
     dict_get d "inputs" = Some (PList (map (input_to_payload (float := float)) ins)) ->
     dict_get d "outputs" = Some (PList (map output_to_payload outs)) ->
     dict_get d "timestamp" = Some (PFloat ts) ->
     dict_get d "coinbase" = None -> dict_get d "txid" = None ->
     exists t,
       payload_to_tx (PDict d)
       = Ok {| tx_inputs := map as_dataclass_input ins; tx_outputs := outs;
               tx_timestamp := ts; tx_txid := Some t; tx_coinbase := false |}).
Proof.
  assert (Hins : forall ins, mapM TxInput_of_payload (map (input_to_payload (float := float)) ins)
                             = Ok (map as_dataclass_input ins)).
  { intros ins. apply mapM_map_Ok, Forall_forall. intros; apply input_payload_roundtrip. }
  assert (Houts : forall outs, mapM TxOutput_of_raw (map (output_to_payload (float := float)) outs)
                               = Ok outs).
  { intros outs. rewrite (mapM_map_Ok TxOutput_of_raw output_to_payload id), map_id;
      [reflexivity|]. apply Forall_forall. intros; apply output_payload_roundtrip. }
  split; [|split; [|split; [|split; [|split]]]].
  - intros p Hp. destruct p; try reflexivity. exfalso. eapply Hp. reflexivity.
  - intros d Hd. unfold payload_to_tx, py_getitem, dict_getitem. rewrite Hd. reflexivity.
  - intros d ins Hi Ho. unfold payload_to_tx, py_getitem, dict_getitem.
    rewrite Hi. cbn [mbind result_bind py_iter]. rewrite Hins. cbn [mbind result_bind].
    rewrite Ho. reflexivity.
  - intros d ins outs Hi Ho Ht. unfold payload_to_tx, py_getitem, dict_getitem.
    rewrite Hi. cbn [mbind result_bind py_iter]. rewrite Hins. cbn [mbind result_bind].
    rewrite Ho. cbn [mbind result_bind py_iter]. rewrite Houts. cbn [mbind result_bind].
    rewrite Ht. reflexivity.
  - intros d i rest Hi Hbad. unfold payload_to_tx, py_getitem, dict_getitem.
    rewrite Hi. cbn [mbind result_bind py_iter mapM].
    assert (Hin : TxInput_of_payload (float := float) (PDict i) = Raise TypeError).
    { unfold TxInput_of_payload.
      destruct (forallb _ i) eqn:Hall; cbn [negb]; [|reflexivity].
      destruct Hbad as [Ht|[Hv|(k & v & Hkv & Hk)]].
      - rewrite Ht. reflexivity.
      - rewrite Hv. destruct (dict_get i "txid"); reflexivity.
      - exfalso. rewrite forallb_forall in Hall.
        apply list_elem_of_In, Hall, bool_decide_eq_true in Hkv. exact (Hk Hkv). }
    rewrite Hin. reflexivity.
  - intros d ins outs ts Hi Ho Ht Hc Hx. unfold payload_to_tx, py_getitem, py_get, dict_getitem.
    rewrite Hi. cbn [mbind result_bind py_iter]. rewrite Hins. cbn [mbind result_bind].
    rewrite Ho. cbn [mbind result_bind py_iter]. rewrite Houts. cbn [mbind result_bind].
    rewrite Ht, Hc, Hx. cbn [mbind result_bind default option.from_option as_float as_bool
                               py_truth].
    unfold id. cbn [as_float as_bool mbind result_bind].
    match goal with |- context [compute_txid ?tx0] =>
      destruct (proj2 (to_dict_dataclass tx0 false)) as (dd & Hdd) end.
    { unfold tx_dataclass. cbn [tx_inputs]. apply Forall_map, Forall_forall.
      intros; reflexivity. }
    unfold compute_txid, preimage_of. rewrite Hdd. cbn [mbind result_bind].
    eexists. reflexivity.
Qed.

End NodeFacts.

(* ================================================================== *)
(** * The ledger at its edges: no block, no pending transaction, no file *)
(* ================================================================== *)

Section LedgerMore.
Context {float : Type} `{Lib : Library float} `{Cfg : Config}.

(* The record types, taken at the section's [float]. *)
#[local] Abbreviation Transaction := (Transaction float).
#[local] Abbreviation Block := (Block float).
#[local] Abbreviation State := (State float).
#[local] Abbreviation M := (M float).

(** *** A chain without a block *)

(** The first steps of [mine] on a ledger without pending transactions:
    the coinbase is the one transaction selected. *)
Lemma mine_run_empty_mempool (now_cb now_blk : float) (clock : Z -> float) (fuel : nat)
    (miner : string) (s : State) (cb : Transaction) :
  mempool s = [] ->
  make_coinbase now_cb miner BLOCK_REWARD = Ok cb ->
  mine now_cb now_blk clock fuel miner s
  = (latest ← latest_block;
     match blk_hash latest with
     | None => lift Untyped
     | Some prev_hash =>
         let block := {| blk_index := Z.of_nat (length (chain s)); blk_prev_hash := prev_hash;
                         blk_timestamp := now_blk; blk_nonce := 0%Z; blk_txs := [cb];
                         blk_merkle_root := None; blk_hash := None |} in
         mined ← lift (mine_block fuel clock block DIFFICULTY);
         latest ← latest_block;
         ok ← validate_block mined latest;
         if ok : bool then
           _ ← commit_txs [cb];
           _ ← modify (fun s => with_chain (chain s ++ [mined]) s);
           _ ← _persist;
           mret (Some mined)
         else mret None
     end) (with_temps (temps s ++ [utxos s]) s).
Proof.
  intros Hmp Hcb. unfold mine. rewrite bindM_run. unfold lift at 1. rewrite Hcb.
  cbn beta iota. rewrite bindM_run, dict_copy_run. cbn beta iota.
  rewrite bindM_run. unfold gets at 1. cbn beta iota.
  cbn [mempool with_temps]. rewrite Hmp. cbn [foldM].
  rewrite bindM_run. cbn [mret M_ret]. cbn beta iota.
  rewrite bindM_run. unfold gets at 1. cbn beta iota. reflexivity.
Qed.

(** [latest_block] is [self.chain[-1]]: on a ledger whose chain is empty
    (a chain file that lists no block) it raises [IndexError], and so do
    the two operations that ask for the last block.  [try_add_block]
    raises for a block of index 0 and turns down any other with nothing
    changed; [mine], with no transaction pending, raises for want of a
    previous hash, and leaves chain, UTXO dictionary, mempool and files as
    they were. *)
Theorem empty_chain_raises (s : State) :
  chain s = [] ->
  latest_block s = (Raise IndexError, s) /\
  (forall block, blk_index block = 0%Z -> try_add_block block s = (Raise IndexError, s)) /\
  (forall block, blk_index block <> 0%Z -> try_add_block block s = (Ok false, s)) /\
  (forall now_cb now_blk clock fuel miner,
     mempool s = [] ->
     fst (mine now_cb now_blk clock fuel miner s) = Raise IndexError /\
     frame s (snd (mine now_cb now_blk clock fuel miner s))).
Proof.
  intros Hc.
  assert (Hlast : forall s0 : State, chain s0 = [] -> latest_block s0 = (Raise IndexError, s0)).
  { intros s0 H0. rewrite latest_block_run, H0. reflexivity. }
  split; [apply Hlast, Hc|]. split; [|split].
  - intros block Hidx. unfold try_add_block. rewrite bindM_run. unfold gets at 1.
    cbn beta iota. rewrite Hc. cbn [length]. rewrite bool_decide_eq_true_2 by exact Hidx.
    cbn [negb]. rewrite bindM_run, latest_block_run, Hc. reflexivity.
  - intros block Hidx. unfold try_add_block. rewrite bindM_run. unfold gets at 1.
    cbn beta iota. rewrite Hc. cbn [length]. rewrite bool_decide_eq_false_2 by exact Hidx.
    reflexivity.
  - intros now_cb now_blk clock fuel miner Hmp.
    destruct (make_coinbase_ok now_cb miner BLOCK_REWARD) as (t & Hcb).
    rewrite (mine_run_empty_mempool _ _ _ _ _ _ _ Hmp Hcb).
    rewrite bindM_run, latest_block_run. cbn [chain with_temps]. rewrite Hc. cbn [fst snd].
    split; [reflexivity|]. split; try reflexivity. eexists. reflexivity.
Qed.

(** *** Mining with nothing pending *)

Lemma startswith_zeros_nonempty (h : string) (d : Z) :
  (0 < d)%Z -> startswith h (str_repeat "0" d) = true -> h <> "".
Proof.
  intros Hd Hp ->. unfold startswith, str_repeat in Hp.
  destruct (Z.to_nat d) as [|n] eqn:Hn; [lia|]. cbn in Hp. discriminate.
Qed.

Lemma sum_Z_singleton (z : Z) : sum_Z [z] = z.
Proof. unfold sum_Z. simpl. lia. Qed.

(** With nothing pending and a positive difficulty, [mine] on a ledger
    built by this process returns the block [mine_block] finds for the
    coinbase alone: the block goes to the end of the chain, the mempool
    stays empty, the reward output enters the UTXO dictionary under the
    txid of the coinbase and index 0, and, that key being new, the balance
    of the miner's address grows by [BLOCK_REWARD]. *)
Theorem mine_empty_mempool (now_cb now_blk : float) (clock : Z -> float) (fuel : nat)
    (miner : string) (s : State) (tip mined : Block) (h : string) (cb : Transaction) :
  mempool s = [] ->
  list.last (chain s) = Some tip -> blk_hash tip = Some h ->
  persistable s -> (0 < DIFFICULTY)%Z ->
  make_coinbase now_cb miner BLOCK_REWARD = Ok cb ->
  mine_block fuel clock
    {| blk_index := Z.of_nat (length (chain s)); blk_prev_hash := h;
       blk_timestamp := now_blk; blk_nonce := 0%Z; blk_txs := [cb];
       blk_merkle_root := None; blk_hash := None |} DIFFICULTY = Ok mined ->
  let r := mine now_cb now_blk clock fuel miner s in
  fst r = Ok (Some mined) /\
  chain (snd r) = chain s ++ [mined] /\
  mempool (snd r) = [] /\
  utxos (snd r)
  = dict_set (utxos s) (tx_txid cb, 0%Z)
             {| out_amount := BLOCK_REWARD; out_address := miner |} /\
  ((tx_txid cb, 0%Z) ∉ dict_keys (utxos s) ->
   exists z, fst (balance miner s) = Ok z /\
             fst (balance miner (snd r)) = Ok (z + BLOCK_REWARD)%Z).
Proof.
  intros Hmp Hlast Hh Hp Hd Hcb Hmine r.
  destruct (make_coinbase_ok now_cb miner BLOCK_REWARD) as (t & Hcb').
  rewrite Hcb in Hcb'. injection Hcb' as ->.
  set (o := {| out_amount := BLOCK_REWARD; out_address := miner |}) in *.
  set (cb := {| tx_inputs := []; tx_outputs := [o];
                tx_timestamp := now_cb; tx_txid := Some t; tx_coinbase := true |}) in *.
  set (u' := dict_set (utxos s) (Some t, 0%Z) o).
  pose proof (mine_block_txs _ _ _ _ _ Hmine) as Htxs. cbn [blk_txs] in Htxs.
  assert (Hhdr : block_header_ok mined tip).
  { unfold mine_block in Hmine. apply bind_Ok in Hmine as (m & Hm & Hloop).
    apply mine_loop_post in Hloop as (Hhash & Hpre & Ht & Hmr & _ & Hph & _).
    cbn in Ht, Hmr, Hph. split.
    - rewrite Hph. exact Hh.
    - exists (compute_hash mined). split; [exact Hhash|]. split; [|exact Hpre].
      eapply startswith_zeros_nonempty; eassumption.
    - exact Hhash.
    - unfold compute_merkle in *. rewrite Ht, Hmr. exact Hm.
    - exists cb, []. split; [exact Htxs|]. split; [reflexivity|].
      cbn [tx_outputs cb map out_amount o]. apply sum_Z_singleton. }
  assert (Hrun : exists s3 : State,
            r = (_persist ≫= fun _ => mret (Some mined)) s3 /\
            chain s3 = chain s ++ [mined] /\ utxos s3 = u' /\ mempool s3 = [] /\
            persistable s3).
  { subst r. rewrite (mine_run_empty_mempool _ _ _ _ _ _ _ Hmp Hcb).
    set (s1 := with_temps (temps s ++ [utxos s]) s).
    assert (Hlast1 : latest_block s1 = (Ok tip, s1))
      by (rewrite latest_block_run; cbn [chain s1 with_temps]; rewrite Hlast; reflexivity).
    rewrite bindM_run, Hlast1, Hh. cbn beta iota zeta.
    rewrite bindM_run. unfold lift at 1. rewrite Hmine. cbn beta iota.
    rewrite bindM_run, Hlast1. cbn beta iota.
    assert (Hrep : replay (utxos s1) (blk_txs mined) u').
    { rewrite Htxs. apply replay_coinbase; [reflexivity|]. constructor. }
    rewrite bindM_run.
    rewrite (proj2 (validate_block_true mined tip s1 (with_temps (temps s1 ++ [u']) s1))
               (conj Hhdr (ex_intro _ u' (conj Hrep eq_refl)))).
    cbn beta iota.
    set (s2 := with_temps (temps s1 ++ [u']) s1).
    rewrite bindM_run.
    assert (Hrep2 : replay (utxos s2) [cb] u') by (rewrite <- Htxs; exact Hrep).
    rewrite (commit_txs_replay [cb] s2 u' Hrep2). cbn beta iota.
    rewrite bindM_run. unfold modify at 1. cbn beta iota.
    eexists. split; [reflexivity|].
    cbn [chain utxos mempool s2 s1 with_chain with_mempool with_utxos with_temps].
    rewrite Hmp. split; [reflexivity|]. split; [reflexivity|]. split; [reflexivity|].
    destruct Hp as [Hpc Hpm]. split.
    - cbn [chain with_chain]. apply Forall_app. split; [exact Hpc|].
      constructor; [|constructor]. rewrite Htxs. constructor; [constructor|constructor].
    - cbn [mempool with_chain with_mempool]. constructor. }
  destruct Hrun as (s3 & -> & Hc3' & Hu3' & Hm3' & Hp3).
  rewrite bindM_run.
  pose proof (persist_ok _ Hp3) as Hok.
  destruct (persist_memory s3) as [(Hc3 & Hu3 & Hm3 & _) _].
  destruct (_persist s3) as [res s4]. cbn [fst snd] in *. subst res.
  cbn [fst snd mret M_ret].
  split; [reflexivity|]. split; [congruence|]. split; [congruence|].
  split; [rewrite Hu3, Hu3'; reflexivity|].
  intros Hfresh. unfold balance, gets. cbn [fst]. eexists. split; [reflexivity|].
  f_equal. rewrite Hu3, Hu3'. unfold u'. rewrite (dict_set_fresh _ _ _ Hfresh).
  rewrite filter_app, map_app, sum_Z_app.
  rewrite filter_cons_True by reflexivity. cbn [filter list_filter map snd out_amount o].
  rewrite sum_Z_singleton. reflexivity.
Qed.


(** *** A new data directory, and one with files missing *)




(** [_load] looks for the mempool file before it opens it, and for no
    other.  Without a mempool file the chain and the UTXO dictionary are
    read and the mempool is empty; without a UTXO file the call raises
    [FileNotFoundError] once the chain is read; with a mempool file that
    is there and holds nothing (the state in which an interrupted
    [_persist] leaves it) it raises [JSONDecodeError]; and every chain
    document that is a dictionary without the key ["chain"] is a
    [KeyError], with nothing loaded. *)
Theorem load_missing_files (bs : list Block) (u : UtxoDict) :
  NoDup (dict_keys u) ->
  Forall (fun kv => plain_key (fst kv)) u ->
  let cf := Json (PDict [("chain", PList (map block_raw bs))]) in
  let uf := Json (utxos_to_raw u) in
  (forall mf : file float,
     _load (new_ledger cf Missing mf)
     = (Raise (External "FileNotFoundError"),
        with_chain (map as_loaded_block bs) (new_ledger cf Missing mf))) /\
  _load (new_ledger cf uf Missing)
  = (Ok tt, with_utxos u (with_chain (map as_loaded_block bs) (new_ledger cf uf Missing))) /\
  _load (new_ledger cf uf Empty)
  = (Raise (External "JSONDecodeError"),
     with_utxos u (with_chain (map as_loaded_block bs) (new_ledger cf uf Empty))) /\
  (forall (d : list (string * pyval float)) (uf' mf : file float),
     dict_get d "chain" = None ->
     _load (new_ledger (Json (PDict d)) uf' mf)
     = (Raise KeyError, new_ledger (Json (PDict d)) uf' mf)).
Proof.
  intros Hnd Hplain cf uf.
  split; [|split; [|split]].
  - intros mf. unfold _load.
    erewrite bindM_ok by reflexivity.
    erewrite bindM_ok by reflexivity.
    erewrite bindM_ok by reflexivity.
    erewrite bindM_ok by apply load_blocks_run.
    reflexivity.
  - unfold _load.
    erewrite bindM_ok by reflexivity.
    erewrite bindM_ok by reflexivity.
    erewrite bindM_ok by reflexivity.
    erewrite bindM_ok by apply load_blocks_run.
    erewrite bindM_ok by reflexivity.
    erewrite bindM_ok
      by (unfold lift; cbn [uf]; rewrite (utxos_roundtrip u Hplain Hnd); reflexivity).
    erewrite bindM_ok by reflexivity.
    erewrite bindM_ok by reflexivity.
    reflexivity.
  - unfold _load.
    erewrite bindM_ok by reflexivity.
    erewrite bindM_ok by reflexivity.
    erewrite bindM_ok by reflexivity.
    erewrite bindM_ok by apply load_blocks_run.
    erewrite bindM_ok by reflexivity.
    erewrite bindM_ok
      by (unfold lift; cbn [uf]; rewrite (utxos_roundtrip u Hplain Hnd); reflexivity).
    erewrite bindM_ok by reflexivity.
    erewrite bindM_ok by reflexivity.
    reflexivity.
  - intros d uf' mf Hd. unfold _load.
    erewrite bindM_ok by reflexivity.
    erewrite bindM_ok by reflexivity.
    rewrite bindM_run. unfold lift at 1. cbn [py_getitem]. unfold dict_getitem.
    rewrite Hd. reflexivity.
Qed.

End LedgerMore.

(* ================================================================== *)
(** * Value is created by coinbase transactions only *)
(* ================================================================== *)

Section ValueFacts.
Context {float : Type} `{Lib : Library float} `{Cfg : Config}.

(* The record types, taken at the section's [float]. *)
#[local] Abbreviation Transaction := (Transaction float).
#[local] Abbreviation Block := (Block float).
#[local] Abbreviation State := (State float).
#[local] Abbreviation M := (M float).

Lemma value_cons (kv : UTXOKey * TxOutput) (u : UtxoDict) :
  value (kv :: u) = (out_amount (snd kv) + value u)%Z.
Proof. unfold value, amounts. cbn [map]. apply sum_Z_cons. Qed.

Lemma value_remove (u : UtxoDict) (k : UTXOKey) :
  value (dict_remove u k)
  = (value u - match dict_get u k with Some o => out_amount o | None => 0 end)%Z.
Proof.
  induction u as [|[k0 o0] u IH]; cbn [dict_remove dict_get]; [lia|].
  destruct (decide (k0 = k)) as [->|Hne].
  - rewrite value_cons. cbn [snd]. lia.
  - rewrite !value_cons, IH. cbn [snd]. lia.
Qed.

Lemma value_set (u : UtxoDict) (k : UTXOKey) (o : TxOutput) :
  value (dict_set u k o)
  = (value u - match dict_get u k with Some o' => out_amount o' | None => 0 end
     + out_amount o)%Z.
Proof.
  induction u as [|[k0 o0] u IH]; cbn [dict_set dict_get].
  - rewrite value_cons. cbn [snd]. unfold value, amounts, sum_Z. simpl. lia.
  - destruct (decide (k0 = k)) as [->|Hne].
    + rewrite !value_cons. cbn [snd]. lia.
    + rewrite !value_cons, IH. cbn [snd]. lia.
Qed.

Lemma nonneg_get (u : UtxoDict) (k : UTXOKey) :
  nonneg u -> (0 <= match dict_get u k with Some o => out_amount o | None => 0 end)%Z.
Proof.
  intros Hu. destruct (dict_get u k) as [o|] eqn:Hget; [|lia].
  apply dict_get_Some_elem in Hget. unfold nonneg in Hu. rewrite Forall_forall in Hu.
  exact (Hu _ Hget).
Qed.

Lemma nonneg_remove (u : UtxoDict) (k : UTXOKey) : nonneg u -> nonneg (dict_remove u k).
Proof.
  unfold nonneg. induction u as [|[k0 o0] u IH]; cbn [dict_remove]; [trivial|].
  intros H. apply Forall_cons in H as [H0 H].
  destruct (decide (k0 = k)); [exact H|]. constructor; auto.
Qed.

Lemma nonneg_set (u : UtxoDict) (k : UTXOKey) (o : TxOutput) :
  nonneg u -> (0 <= out_amount o)%Z -> nonneg (dict_set u k o).
Proof.
  unfold nonneg. intros H Ho. induction u as [|[k0 o0] u IH]; cbn [dict_set].
  - constructor; [exact Ho|constructor].
  - apply Forall_cons in H as [H0 H].
    destruct (decide (k0 = k)); constructor; auto.
Qed.

(** Adding outputs: the value grows by no more than they are worth. *)
Lemma put_outputs_value_from (t : option string) (outs : list TxOutput) (g : nat -> Z)
    (u : UtxoDict) :
  nonneg u -> Forall (fun o => (0 <= out_amount o)%Z) outs ->
  let u' := fold_left (fun d (io : Z * TxOutput) => dict_set d (t, fst io) (snd io))
                      (imap (fun i x => (g i, x)) outs) u in
  (value u' <= value u + sum_Z (map out_amount outs))%Z /\
  nonneg u' /\
  (NoDup (dict_keys u) -> NoDup (dict_keys u')).
Proof.
  revert g u. induction outs as [|o outs IH]; intros g u Hu Ho.
  - cbv zeta. cbn [imap fold_left map].
    replace (sum_Z []) with 0%Z by reflexivity. split; [lia|]. auto.
  - apply Forall_cons in Ho as [Ho Houts]. cbv zeta. cbn [imap fold_left map fst snd].
    rewrite sum_Z_cons.
    change (imap ((fun (i : nat) (x : TxOutput) => (g i, x)) ∘ S) outs)
      with (imap (fun (i : nat) (x : TxOutput) => ((g ∘ S) i, x)) outs).
    destruct (IH (g ∘ S) (dict_set u (t, g 0%nat) o)) as (Hv & Hn & Hd);
      [apply nonneg_set; assumption|exact Houts|].
    cbv zeta in Hv, Hn, Hd. rewrite value_set in Hv. pose proof (nonneg_get u (t, g 0%nat) Hu).
    split; [lia|]. split; [exact Hn|].
    intros Hnd. apply Hd, dict_set_NoDup, Hnd.
Qed.

Lemma put_outputs_value (u : UtxoDict) (tx : Transaction) :
  nonneg u -> outputs_nonneg tx ->
  (value (put_outputs u tx) <= value u + total_out tx)%Z /\
  nonneg (put_outputs u tx) /\
  (NoDup (dict_keys u) -> NoDup (dict_keys (put_outputs u tx))).
Proof.
  intros Hu Ho. exact (put_outputs_value_from (tx_txid tx) (tx_outputs tx) Z.of_nat u Hu Ho).
Qed.


Lemma spend_run_present (u u1 : UtxoDict) (ins : list TxInput) :
  spend_run u ins = (inr tt, u1) -> Forall (fun j => ref_of j ∈ dict_keys u) ins.
Proof.
  intros Hrun. apply Forall_forall. intros j Hj.
  destruct (decide (ref_of j ∈ dict_keys u)) as [Hin|Hnin]; [exact Hin|].
  pose proof (spend_run_absent u ins (ex_intro _ j (conj Hj Hnin))) as Hf.
  rewrite Hrun in Hf. discriminate.
Qed.

(** Removing the outputs the inputs name: the value goes down, by what
    [verify] counted as the total of the inputs when every removal found
    its output. *)
Lemma spend_run_value (u u1 : UtxoDict) (ins : list TxInput) (r : bool + unit) :
  NoDup (dict_keys u) -> nonneg u ->
  spend_run u ins = (r, u1) ->
  (value u1 <= value u)%Z /\ nonneg u1 /\ NoDup (dict_keys u1) /\
  (r = inr tt -> value u1 = (value u - sum_Z (map (input_amount u) ins))%Z).
Proof.
  revert u. induction ins as [|i ins IH]; intros u Hnd Hu; cbn [spend_run].
  - intros [= <- <-]. split; [lia|]. split; [exact Hu|]. split; [exact Hnd|].
    intros _. cbn [map]. replace (sum_Z []) with 0%Z by reflexivity. lia.
  - destruct (dict_contains u (ref_of i)) eqn:Hc.
    + intros Hrun.
      destruct (IH (dict_remove u (ref_of i)) (dict_remove_NoDup _ _ Hnd)
                  (nonneg_remove _ _ Hu) Hrun) as (Hle & Hn1 & Hd1 & Heq).
      rewrite value_remove in Hle, Heq. pose proof (nonneg_get u (ref_of i) Hu) as Hge.
      split; [lia|]. split; [exact Hn1|]. split; [exact Hd1|].
      intros ->. specialize (Heq eq_refl). cbn [map]. rewrite sum_Z_cons.
      fold (input_amount u i) in Hge, Heq.
      apply spend_run_present in Hrun.
      assert (Hsame : map (input_amount (dict_remove u (ref_of i))) ins
                      = map (input_amount u) ins).
      { apply map_ext_Forall. eapply Forall_impl; [exact Hrun|]. intros j Hj.
        unfold input_amount. rewrite dict_get_remove_ne; [reflexivity|].
        intros Heqj. apply (dict_remove_gone u (ref_of i) Hnd).
        cbv beta in Hj. rewrite Heqj in Hj. exact Hj. }
      rewrite Hsame in Heq. lia.
    + intros [= <- <-]. split; [lia|]. split; [exact Hu|]. split; [exact Hnd|].
      discriminate.
Qed.

Lemma tx_step_value (u : UtxoDict) (tx : Transaction) :
  NoDup (dict_keys u) -> nonneg u -> outputs_nonneg tx ->
  (value (snd (tx_step u tx))
   <= value u + (if tx_coinbase tx then total_out tx else 0))%Z /\
  nonneg (snd (tx_step u tx)) /\ NoDup (dict_keys (snd (tx_step u tx))).
Proof.
  intros Hnd Hu Ho. unfold tx_step. destruct (tx_coinbase tx) eqn:Hcb; cbn [snd].
  - destruct (put_outputs_value u tx Hu Ho) as (Hv & Hn & Hd). auto.
  - destruct (verify tx u) as [[|]| | |] eqn:Hver; cbn [snd];
      try (split; [lia|split; assumption]).
    destruct (spend_run u (tx_inputs tx)) as [[b|[]] u1] eqn:Hrun; cbn [snd];
      destruct (spend_run_value _ _ _ _ Hnd Hu Hrun) as (Hle & Hn1 & Hd1 & Heq).
    + split; [lia|]. split; assumption.
    + specialize (Heq eq_refl).
      destruct (put_outputs_value u1 tx Hn1 Ho) as (Hv & Hn & Hd).
      apply verify_true_checks in Hver as [_ Hamt _]; [|exact Hcb].
      unfold total_in in Hamt. split; [lia|]. split; [exact Hn|]. apply Hd, Hd1.
Qed.

Lemma coinbase_total_cons (tx : Transaction) (txs : list Transaction) :
  coinbase_total (tx :: txs)
  = ((if tx_coinbase tx then total_out tx else 0) + coinbase_total txs)%Z.
Proof.
  unfold coinbase_total. destruct (tx_coinbase tx) eqn:Hcb.
  - rewrite filter_cons_True by exact Hcb. cbn [map]. apply sum_Z_cons.
  - rewrite filter_cons_False by (rewrite Hcb; discriminate). lia.
Qed.

Lemma replay_value (u u' : UtxoDict) (txs : list Transaction) :
  replay u txs u' ->
  NoDup (dict_keys u) -> nonneg u -> Forall outputs_nonneg txs ->
  (value u' <= value u + coinbase_total txs)%Z /\ nonneg u' /\ NoDup (dict_keys u').
Proof.
  intros Hrep. apply replay_run_replay in Hrep. revert u Hrep.
  induction txs as [|tx txs IH]; intros u Hrep Hnd Hu Hall.
  - cbn in Hrep. injection Hrep as <-. unfold coinbase_total. cbn.
    replace (sum_Z []) with 0%Z by reflexivity. split; [lia|]. auto.
  - apply Forall_cons in Hall as [Ho Hall]. cbn [replay_run] in Hrep.
    destruct (tx_step_value u tx Hnd Hu Ho) as (Hv & Hn & Hd).
    destruct (tx_step u tx) as [[[b|[]]| | |] u1]; try discriminate.
    cbn [snd] in *. destruct (IH u1 Hrep Hd Hn Hall) as (Hv' & Hn' & Hd').
    rewrite coinbase_total_cons. split; [lia|]. auto.
Qed.

(** What a block that [try_add_block] took in did to the dictionary. *)
Lemma try_add_block_true (block : Block) (s s' : State) :
  try_add_block block s = (Ok true, s') ->
  replay (utxos s) (blk_txs block) (utxos s').
Proof.
  unfold try_add_block. intros H.
  apply bindM_inv in H as (c & s0 & Hc & H). injection Hc as <- <-.
  destruct (negb _); [discriminate|].
  apply bindM_inv in H as (latest & s1 & Hl & H).
  rewrite latest_block_run in Hl.
  destruct (list.last (chain s)) as [tip|]; [|discriminate]. injection Hl as <- <-.
  apply bindM_inv in H as (ok & s2 & Hval & H).
  destruct ok; cbn [negb] in H; [|discriminate].
  apply validate_block_true in Hval as (_ & u' & Hrep & ->).
  apply bindM_inv in H as ([] & s3 & Hcommit & H).
  rewrite (commit_txs_replay (blk_txs block) (with_temps (temps s ++ [u']) s) u' Hrep)
    in Hcommit.
  injection Hcommit as <-.
  apply bindM_inv in H as ([] & s4 & Hmod & H). injection Hmod as <-.
  apply bindM_inv in H as ([] & s5 & Hper & H). injection H as <-.
  match type of Hper with _persist ?st = _ =>
    destruct (persist_memory st) as [(_ & Hu & _) _] end.
  rewrite Hper in Hu. cbn [snd] in Hu. rewrite Hu. exact Hrep.
Qed.

(** Let the dictionary have no negative amount, and the transactions at
    hand no negative output.  [apply_tx] of a transaction that is not a
    coinbase never raises the sum of the amounts of the dictionary,
    whether it goes through, is refused, or stops half way; and a block
    that [try_add_block] takes in raises it by no more than the coinbase
    transactions of the block pay out.  Amounts stay non-negative. *)
Theorem transfers_create_no_value :
  (forall (tx : Transaction) (s : State),
     tx_coinbase tx = false ->
     NoDup (dict_keys (utxos s)) -> nonneg (utxos s) -> outputs_nonneg tx ->
     (value (utxos (snd (apply_tx tx s))) <= value (utxos s))%Z /\
     nonneg (utxos (snd (apply_tx tx s)))) /\
  (forall (block : Block) (s s' : State),
     try_add_block block s = (Ok true, s') ->
     NoDup (dict_keys (utxos s)) -> nonneg (utxos s) ->
     Forall outputs_nonneg (blk_txs block) ->
     (value (utxos s') <= value (utxos s) + coinbase_total (blk_txs block))%Z /\
     nonneg (utxos s')).
Proof.
  split.
  - intros tx s Hcb Hnd Hu Ho. rewrite apply_tx_run. cbn [snd utxos with_utxos].
    destruct (tx_step_value (utxos s) tx Hnd Hu Ho) as (Hv & Hn & _).
    rewrite Hcb in Hv. split; [lia|exact Hn].
  - intros block s s' Hrun Hnd Hu Hall. apply try_add_block_true in Hrun.
    destruct (replay_value _ _ _ Hrun Hnd Hu Hall) as (Hv & Hn & _). auto.
Qed.

End ValueFacts.

(* ================================================================== *)
(** * No output is spent twice by one transaction of a block *)
(* ================================================================== *)

Section DoubleSpendFacts.
Context {float : Type} `{Lib : Library float} `{Cfg : Config}.

(* The record types, taken at the section's [float]. *)
#[local] Abbreviation Transaction := (Transaction float).
#[local] Abbreviation Block := (Block float).
#[local] Abbreviation State := (State float).
#[local] Abbreviation M := (M float).

Lemma put_outputs_NoDup (u : UtxoDict) (tx : Transaction) :
  NoDup (dict_keys u) -> NoDup (dict_keys (put_outputs u tx)).
Proof.
  unfold put_outputs. generalize (enumerate (tx_outputs tx)) as l.
  intros l. revert u. induction l as [|io l IH]; intros u Hnd; [exact Hnd|].
  cbn [fold_left]. apply IH, dict_set_NoDup, Hnd.
Qed.

Lemma spend_run_NoDup (u : UtxoDict) (ins : list TxInput) :
  NoDup (dict_keys u) -> NoDup (dict_keys (snd (spend_run u ins))).
Proof.
  revert u. induction ins as [|i ins IH]; intros u Hnd; cbn [spend_run]; [exact Hnd|].
  destruct (dict_contains u (ref_of i)); [|exact Hnd].
  apply IH, dict_remove_NoDup, Hnd.
Qed.

Lemma replay_inputs_distinct (u u' : UtxoDict) (txs : list Transaction) :
  replay u txs u' -> NoDup (dict_keys u) ->
  Forall (fun tx => tx_coinbase tx = false -> NoDup (map ref_of (tx_inputs tx))) txs.
Proof.
  induction 1 as [u|u tx txs u' Hcb _ IH|u tx txs u1 u' Hcb Hv Hsp _ IH]; intros Hnd.
  - constructor.
  - constructor; [congruence|]. apply IH, put_outputs_NoDup, Hnd.
  - unfold spend in Hsp.
    destruct (spend_run u (tx_inputs tx)) as [[b|[]] u2] eqn:Hrun; [discriminate|].
    injection Hsp as ->. constructor.
    + intros _. destruct (decide (NoDup (map ref_of (tx_inputs tx)))) as [Hd|Hd];
        [exact Hd|].
      pose proof (spend_run_duplicate u (tx_inputs tx) Hnd Hd) as Hf.
      rewrite Hrun in Hf. discriminate.
    + apply IH, put_outputs_NoDup.
      pose proof (spend_run_NoDup u (tx_inputs tx) Hnd) as H1. rewrite Hrun in H1.
      exact H1.
Qed.

(** A block one of whose transactions, not a coinbase, names the same
    output in two of its inputs is never accepted: [validate_block] does
    not answer true for it, and [try_add_block] does not take it in.  The
    second removal of the output from the copy of the dictionary finds it
    gone and the replay stops. *)
Theorem block_with_double_spend_rejected (block prev : Block) (s : State) :
  NoDup (dict_keys (utxos s)) ->
  Exists (fun tx => tx_coinbase tx = false /\ ~ NoDup (map ref_of (tx_inputs tx)))
         (blk_txs block) ->
  fst (validate_block block prev s) <> Ok true /\
  fst (try_add_block block s) <> Ok true.
Proof.
  intros Hnd Hex.
  assert (Hno : forall u', ~ replay (utxos s) (blk_txs block) u').
  { intros u' Hrep. pose proof (replay_inputs_distinct _ _ _ Hrep Hnd) as Hall.
    apply Exists_exists in Hex as (tx & Hin & Hcb & Hdup).
    rewrite Forall_forall in Hall. exact (Hdup (Hall tx Hin Hcb)). }
  split.
  - intros Hv.
    destruct (validate_block block prev s) as [r s1] eqn:Hrun. cbn [fst] in Hv. subst r.
    apply validate_block_true in Hrun as (_ & u' & Hrep & _). exact (Hno u' Hrep).
  - intros Hv.
    destruct (try_add_block block s) as [r s1] eqn:Hrun. cbn [fst] in Hv. subst r.
    apply try_add_block_true in Hrun. exact (Hno _ Hrun).
Qed.

End DoubleSpendFacts.

(* ================================================================== *)
(** * Mining a pending transfer *)
(* ================================================================== *)

Section ScenarioFacts.
Context {float : Type} `{Lib : Library float} `{Cfg : Config}.

(* The record types, taken at the section's [float]. *)
#[local] Abbreviation Transaction := (Transaction float).
#[local] Abbreviation Block := (Block float).
#[local] Abbreviation State := (State float).
#[local] Abbreviation M := (M float).

(** *** [verify] looks at the dictionary through the references only *)

Lemma verify_input_ext (u1 u2 : UtxoDict) (pre : bytes) (tin : TxInput) (acc : Z) :
  dict_get u1 (ref_of tin) = dict_get u2 (ref_of tin) ->
  verify_input u1 pre tin acc = verify_input u2 pre tin acc.
Proof. intros H. unfold verify_input. rewrite H. reflexivity. Qed.

Lemma for_loop_ext {A S R} (f g : A -> S -> result (R + S)) (l : list A) (acc : S) :
  Forall (fun a => forall s, f a s = g a s) l -> for_loop f l acc = for_loop g l acc.
Proof.
  intros H. revert acc. induction H as [|a l Ha _ IH]; intros acc; [reflexivity|].
  cbn [for_loop]. rewrite Ha. destruct (g a acc) as [[v|acc']| | |]; cbn [mbind result_bind];
    try reflexivity.
  apply IH.
Qed.

Lemma verify_ext (tx : Transaction) (u1 u2 : UtxoDict) :
  Forall (fun i => dict_get u1 (ref_of i) = dict_get u2 (ref_of i)) (tx_inputs tx) ->
  verify tx u1 = verify tx u2.
Proof.
  intros H. unfold verify, verify_body.
  destruct (tx_coinbase tx); [reflexivity|].
  destruct (preimage_of tx) as [pre| | |]; cbn [mbind result_bind]; try reflexivity.
  rewrite (for_loop_ext (verify_input u1 pre) (verify_input u2 pre)); [reflexivity|].
  eapply Forall_impl; [exact H|]. intros i Hi acc. apply verify_input_ext, Hi.
Qed.

(** *** The selection loop of [mine] on a transaction that verifies *)

Lemma del_run_distinct (u : UtxoDict) (ins : list TxInput) :
  NoDup (map ref_of ins) ->
  Forall (fun i => ref_of i ∈ dict_keys u) ins ->
  del_run u ins = (Ok tt, remove_refs u ins).
Proof.
  revert u. induction ins as [|i ins IH]; intros u Hnd Hall; [reflexivity|].
  cbn [map] in Hnd. apply NoDup_cons in Hnd as [Hnin Hnd].
  apply Forall_cons in Hall as [Hi Hall].
  cbn [del_run remove_refs fold_left].
  apply dict_contains_true in Hi. rewrite Hi.
  apply IH; [exact Hnd|].
  rewrite Forall_forall in *. intros j Hj.
  apply dict_keys_remove_ne; [|apply Hall, Hj].
  intros Heq. apply Hnin. rewrite <- Heq. apply list_elem_of_fmap. eauto.
Qed.

Lemma select_tx_run (r : dref) (tx : Transaction) (sel : list Transaction) (s : State) :
  valid r s -> tx_coinbase tx = false ->
  verify tx (deref r s) = Ok true ->
  NoDup (map ref_of (tx_inputs tx)) ->
  select_tx r tx sel s
  = (Ok (sel ++ [tx]),
     store r (put_outputs (remove_refs (deref r s) (tx_inputs tx)) tx) s).
Proof.
  intros Hv Hcb Hver Hnd. unfold select_tx.
  rewrite bindM_run. unfold verify_at at 1. rewrite Hver. cbn beta iota.
  rewrite bindM_run, del_inputs_run by exact Hv.
  rewrite (del_run_distinct _ _ Hnd (verify_inputs_present _ _ Hcb Hver)).
  cbn [fst snd]. rewrite bindM_run, add_outputs_run by (apply valid_store; exact Hv).
  rewrite deref_store by exact Hv. rewrite store_store. reflexivity.
Qed.

(** *** Balances under the writes to a dictionary *)

Lemma balance_of_cons (addr : string) (kv : UTXOKey * TxOutput) (u : UtxoDict) :
  balance_of addr (kv :: u) = (held addr (Some (snd kv)) + balance_of addr u)%Z.
Proof.
  unfold balance_of, owned_by, amounts, held.
  destruct (decide (out_address (snd kv) = addr)) as [Heq|Hne].
  - rewrite filter_cons_True by exact Heq. rewrite bool_decide_eq_true_2 by exact Heq.
    cbn [map]. apply sum_Z_cons.
  - rewrite filter_cons_False by exact Hne. rewrite bool_decide_eq_false_2 by exact Hne.
    lia.
Qed.

Lemma balance_of_nil (addr : string) : balance_of addr [] = 0%Z.
Proof. reflexivity. Qed.

Lemma balance_of_app (addr : string) (u1 u2 : UtxoDict) :
  balance_of addr (u1 ++ u2) = (balance_of addr u1 + balance_of addr u2)%Z.
Proof.
  induction u1 as [|kv u1 IH]; [rewrite balance_of_nil; cbn [app]; lia|].
  cbn [app]. rewrite !balance_of_cons, IH. lia.
Qed.

Lemma balance_of_remove (addr : string) (u : UtxoDict) (k : UTXOKey) :
  balance_of addr (dict_remove u k)
  = (balance_of addr u - held addr (dict_get u k))%Z.
Proof.
  induction u as [|[k0 o0] u IH]; cbn [dict_remove dict_get].
  - rewrite balance_of_nil. cbn [held]. lia.
  - destruct (decide (k0 = k)) as [->|Hne].
    + rewrite balance_of_cons. cbn [snd]. lia.
    + rewrite !balance_of_cons, IH. cbn [snd]. lia.
Qed.

Lemma balance_of_set_fresh (addr : string) (u : UtxoDict) (k : UTXOKey) (o : TxOutput) :
  k ∉ dict_keys u ->
  balance_of addr (dict_set u k o) = (balance_of addr u + held addr (Some o))%Z.
Proof.
  intros Hk. rewrite (dict_set_fresh _ _ _ Hk), balance_of_app, balance_of_cons.
  rewrite balance_of_nil. cbn [snd]. lia.
Qed.

Lemma paid_to_cons (addr : string) (o : TxOutput) (outs : list TxOutput) :
  paid_to addr (o :: outs) = (held addr (Some o) + paid_to addr outs)%Z.
Proof.
  unfold paid_to, held. destruct (decide (out_address o = addr)) as [Heq|Hne].
  - rewrite filter_cons_True by exact Heq. rewrite bool_decide_eq_true_2 by exact Heq.
    cbn [map]. apply sum_Z_cons.
  - rewrite filter_cons_False by exact Hne. rewrite bool_decide_eq_false_2 by exact Hne.
    lia.
Qed.

(** Outputs that go under keys not yet in the dictionary add what they pay
    to the address. *)
Lemma put_outputs_balance_from (addr : string) (t : option string) (outs : list TxOutput)
    (g : nat -> Z) (u : UtxoDict) :
  (forall i j, g i = g j -> i = j) ->
  (forall i, (t, g i) ∉ dict_keys u) ->
  balance_of addr
    (fold_left (fun d (io : Z * TxOutput) => dict_set d (t, fst io) (snd io))
               (imap (fun i x => (g i, x)) outs) u)
  = (balance_of addr u + paid_to addr outs)%Z.
Proof.
  revert g u. induction outs as [|o outs IH]; intros g u Hinj Hfresh.
  - cbn [imap fold_left]. unfold paid_to. cbn. unfold sum_Z. cbn. lia.
  - cbn [imap fold_left fst snd].
    change (imap ((fun (i : nat) (x : TxOutput) => (g i, x)) ∘ S) outs)
      with (imap (fun (i : nat) (x : TxOutput) => ((g ∘ S) i, x)) outs).
    rewrite (IH (g ∘ S)).
    + rewrite balance_of_set_fresh by apply Hfresh. rewrite paid_to_cons. lia.
    + intros i j Hij. apply Hinj in Hij. congruence.
    + intros i Hin. rewrite dict_keys_set in Hin.
      destruct (dict_contains u (t, g 0%nat)); [exact (Hfresh _ Hin)|].
      apply elem_of_app in Hin as [Hin|Heq]; [exact (Hfresh _ Hin)|].
      apply list_elem_of_singleton in Heq. injection Heq as Heq.
      apply Hinj in Heq. discriminate.
Qed.

Lemma put_outputs_balance (addr : string) (u : UtxoDict) (tx : Transaction) :
  (forall z, (tx_txid tx, z) ∉ dict_keys u) ->
  balance_of addr (put_outputs u tx) = (balance_of addr u + paid_to addr (tx_outputs tx))%Z.
Proof.
  intros Hfresh.
  apply (put_outputs_balance_from addr (tx_txid tx) (tx_outputs tx) Z.of_nat u).
  - intros i j. lia.
  - intros i. apply Hfresh.
Qed.

(** Removing the outputs the inputs name, each once, takes away what they
    held for the address. *)
Lemma remove_refs_balance (addr : string) (u : UtxoDict) (ins : list TxInput) :
  NoDup (map ref_of ins) ->
  balance_of addr (remove_refs u ins) = (balance_of addr u - spent_from addr u ins)%Z.
Proof.
  revert u. induction ins as [|i ins IH]; intros u Hnd.
  - unfold spent_from, remove_refs. cbn [map fold_left].
    replace (sum_Z []) with 0%Z by reflexivity. lia.
  - cbn [map] in Hnd. apply NoDup_cons in Hnd as [Hnin Hnd].
    unfold remove_refs. cbn [fold_left]. fold (remove_refs (dict_remove u (ref_of i)) ins).
    rewrite IH by exact Hnd. rewrite balance_of_remove.
    unfold spent_from. cbn [map]. rewrite sum_Z_cons.
    assert (Hsame : map (fun j => held addr (dict_get (dict_remove u (ref_of i)) (ref_of j))) ins
                    = map (fun j => held addr (dict_get u (ref_of j))) ins).
    { apply map_ext_Forall. apply Forall_forall. intros j Hj.
      rewrite dict_get_remove_ne; [reflexivity|].
      intros Heq. apply Hnin. rewrite <- Heq. apply list_elem_of_fmap. eauto. }
    rewrite Hsame. lia.
Qed.

Lemma remove_refs_keys (u : UtxoDict) (ins : list TxInput) (k : UTXOKey) :
  k ∈ dict_keys (remove_refs u ins) -> k ∈ dict_keys u.
Proof.
  revert u. induction ins as [|i ins IH]; intros u Hk; [exact Hk|].
  unfold remove_refs in Hk. cbn [fold_left] in Hk. apply IH in Hk.
  eapply dict_keys_remove_subseteq, Hk.
Qed.

Lemma remove_refs_gone (u : UtxoDict) (ins : list TxInput) (i : TxInput) :
  NoDup (dict_keys u) -> i ∈ ins -> ref_of i ∉ dict_keys (remove_refs u ins).
Proof.
  revert u. induction ins as [|j ins IH]; intros u Hnd Hin; [inversion Hin|].
  unfold remove_refs. cbn [fold_left]. fold (remove_refs (dict_remove u (ref_of j)) ins).
  destruct (decide (ref_of i = ref_of j)) as [Heq|Hne].
  - intros Hk. apply remove_refs_keys in Hk. rewrite Heq in Hk.
    exact (dict_remove_gone u (ref_of j) Hnd Hk).
  - apply elem_of_cons in Hin as [->|Hin]; [congruence|].
    apply IH; [apply dict_remove_NoDup, Hnd|exact Hin].
Qed.

Lemma put_outputs_keys (u : UtxoDict) (tx : Transaction) (k : UTXOKey) :
  k ∈ dict_keys (put_outputs u tx) -> k ∈ dict_keys u \/ exists z, k = (tx_txid tx, z).
Proof.
  unfold put_outputs. generalize (enumerate (tx_outputs tx)) as l. intros l.
  revert u. induction l as [|io l IH]; intros u Hk; [left; exact Hk|].
  cbn [fold_left] in Hk. apply IH in Hk as [Hk|Hk]; [|right; exact Hk].
  rewrite dict_keys_set in Hk.
  destruct (dict_contains u (tx_txid tx, fst io)); [left; exact Hk|].
  apply elem_of_app in Hk as [Hk|Hk]; [left; exact Hk|].
  apply list_elem_of_singleton in Hk. right. eauto.
Qed.

(** *** [mine] from the selection on *)

Lemma mine_run_selected (now_cb now_blk : float) (clock : Z -> float) (fuel : nat)
    (miner : string) (s s1 : State) (cb : Transaction) (sel : list Transaction) :
  make_coinbase now_cb miner BLOCK_REWARD = Ok cb ->
  foldM (select_tx (Temp (length (temps s)))) (mempool s) [cb]
        (with_temps (temps s ++ [utxos s]) s) = (Ok sel, s1) ->
  mine now_cb now_blk clock fuel miner s
  = (latest ← latest_block;
     match blk_hash latest with
     | None => lift Untyped
     | Some prev_hash =>
         let block := {| blk_index := Z.of_nat (length (chain s1)); blk_prev_hash := prev_hash;
                         blk_timestamp := now_blk; blk_nonce := 0%Z; blk_txs := sel;
                         blk_merkle_root := None; blk_hash := None |} in
         mined ← lift (mine_block fuel clock block DIFFICULTY);
         latest ← latest_block;
         ok ← validate_block mined latest;
         if ok : bool then
           _ ← commit_txs sel;
           _ ← modify (fun s => with_chain (chain s ++ [mined]) s);
           _ ← _persist;
           mret (Some mined)
         else mret None
     end) s1.
Proof.
  intros Hcb Hsel. unfold mine. rewrite bindM_run. unfold lift at 1. rewrite Hcb.
  cbn beta iota. rewrite bindM_run, dict_copy_run. cbn beta iota.
  rewrite bindM_run. unfold gets at 1. cbn beta iota.
  cbn [mempool with_temps deref]. rewrite bindM_run.
  change (mempool (with_temps (temps s ++ [utxos s]) s)) with (mempool s).
  rewrite Hsel. cbn beta iota.
  rewrite bindM_run. unfold gets at 1. cbn beta iota. reflexivity.
Qed.

(** The header of a block that [mine_block] returns, against the block
    whose hash it was given as the previous hash. *)
Lemma mined_header_ok (fuel : nat) (clock : Z -> float) (b mined tip : Block)
    (cb : Transaction) (rest : list Transaction) :
  mine_block fuel clock b DIFFICULTY = Ok mined ->
  (0 < DIFFICULTY)%Z ->
  blk_hash tip = Some (blk_prev_hash b) ->
  blk_txs b = cb :: rest -> tx_coinbase cb = true ->
  sum_Z (map out_amount (tx_outputs cb)) = BLOCK_REWARD ->
  block_header_ok mined tip.
Proof.
  intros Hmine Hd Htip Htxs Hcb Hsum.
  unfold mine_block in Hmine. apply bind_Ok in Hmine as (m & Hm & Hloop).
  apply mine_loop_post in Hloop as (Hhash & Hpre & Ht & Hmr & _ & Hph & _).
  cbn in Ht, Hmr, Hph. split.
  - rewrite Hph. exact Htip.
  - exists (compute_hash mined). split; [exact Hhash|]. split; [|exact Hpre].
    eapply startswith_zeros_nonempty; eassumption.
  - exact Hhash.
  - unfold compute_merkle in *. rewrite Ht, Hmr. exact Hm.
  - exists cb, rest. split; [congruence|]. split; assumption.
Qed.

(** With one transfer pending that [verify] accepts and whose inputs name
    distinct outputs, [mine] returns the block [mine_block] finds for the
    coinbase followed by the transfer.  The block goes to the end of the
    chain and the mempool is empty afterwards; the UTXO dictionary has the
    reward output added, the outputs the transfer names removed and the
    outputs of the transfer added.  When the keys of the new outputs are
    new, no output the transfer spent is left in the dictionary, and the
    balance of every address is what it was, plus the reward for the
    miner, less what the spent outputs held for the address, plus what the
    transfer pays to it. *)
Theorem mine_pending_transfer (now_cb now_blk : float) (clock : Z -> float) (fuel : nat)
    (miner : string) (s : State) (tip mined : Block) (h : string)
    (cb tx : Transaction) :
  mempool s = [tx] ->
  list.last (chain s) = Some tip -> blk_hash tip = Some h ->
  persistable s -> (0 < DIFFICULTY)%Z ->
  NoDup (dict_keys (utxos s)) ->
  tx_coinbase tx = false -> verify tx (utxos s) = Ok true ->
  NoDup (map ref_of (tx_inputs tx)) ->
  make_coinbase now_cb miner BLOCK_REWARD = Ok cb ->
  (tx_txid cb, 0%Z) ∉ dict_keys (utxos s) ->
  mine_block fuel clock
    {| blk_index := Z.of_nat (length (chain s)); blk_prev_hash := h;
       blk_timestamp := now_blk; blk_nonce := 0%Z; blk_txs := [cb; tx];
       blk_merkle_root := None; blk_hash := None |} DIFFICULTY = Ok mined ->
  let r := mine now_cb now_blk clock fuel miner s in
  fst r = Ok (Some mined) /\
  chain (snd r) = chain s ++ [mined] /\
  mempool (snd r) = [] /\
  utxos (snd r)
  = put_outputs (remove_refs (put_outputs (utxos s) cb) (tx_inputs tx)) tx /\
  ((forall z, (tx_txid tx, z) ∉ dict_keys (utxos s)) -> tx_txid tx <> tx_txid cb ->
   (forall i, i ∈ tx_inputs tx -> ref_of i ∉ dict_keys (utxos (snd r))) /\
   (forall addr,
      fst (balance addr (snd r))
      = Ok (balance_of addr (utxos s)
            + (if bool_decide (miner = addr) then BLOCK_REWARD else 0)
            - spent_from addr (utxos s) (tx_inputs tx)
            + paid_to addr (tx_outputs tx))%Z)).
Proof.
  intros Hmp Hlast Hh Hp Hd Hnd Hcbx Hver Hrefs Hcb Hfresh Hmine r.
  destruct (make_coinbase_ok now_cb miner BLOCK_REWARD) as (t & Hcb').
  rewrite Hcb in Hcb'. injection Hcb' as ->.
  set (o := {| out_amount := BLOCK_REWARD; out_address := miner |}) in *.
  set (cb := {| tx_inputs := []; tx_outputs := [o];
                tx_timestamp := now_cb; tx_txid := Some t; tx_coinbase := true |}) in *.
  set (u := utxos s) in *.
  set (u0 := dict_set u (Some t, 0%Z) o).
  assert (Hu0 : put_outputs u cb = u0) by reflexivity.
  rewrite Hu0.
  set (u' := put_outputs (remove_refs u0 (tx_inputs tx)) tx).
  pose proof (verify_inputs_present _ _ Hcbx Hver) as Hpres.
  assert (Hne : Forall (fun i => ref_of i <> (Some t, 0%Z)) (tx_inputs tx)).
  { eapply Forall_impl; [exact Hpres|]. intros i Hi Heq. cbv beta in Hi.
    rewrite Heq in Hi. exact (Hfresh Hi). }
  assert (Hget : Forall (fun i => dict_get u0 (ref_of i) = dict_get u (ref_of i))
                        (tx_inputs tx)).
  { eapply Forall_impl; [exact Hne|]. intros i Hi. cbv beta in Hi.
    unfold u0. apply dict_get_set_ne. congruence. }
  assert (Hver0 : verify tx u0 = Ok true) by (rewrite (verify_ext tx u0 u Hget); exact Hver).
  assert (Hpres0 : Forall (fun i => ref_of i ∈ dict_keys u0) (tx_inputs tx))
    by exact (verify_inputs_present _ _ Hcbx Hver0).
  pose proof (mine_block_txs _ _ _ _ _ Hmine) as Htxs. cbn [blk_txs] in Htxs.
  assert (Hhdr : block_header_ok mined tip).
  { eapply mined_header_ok; [exact Hmine|exact Hd|exact Hh|reflexivity|reflexivity|].
    cbn [tx_outputs cb map out_amount o]. apply sum_Z_singleton. }
  assert (Hrep : replay u [cb; tx] u').
  { apply replay_coinbase; [reflexivity|]. rewrite Hu0.
    eapply replay_spend; [exact Hcbx|exact Hver0| |constructor].
    unfold spend. rewrite (spend_run_distinct _ _ Hrefs Hpres0). reflexivity. }
  assert (Htx : tx_dataclass tx).
  { destruct Hp as [_ Hpm]. rewrite Hmp in Hpm. apply Forall_cons in Hpm as [Hpm _].
    exact Hpm. }
  assert (Hrun : exists s3 : State,
            r = (_persist ≫= fun _ => mret (Some mined)) s3 /\
            chain s3 = chain s ++ [mined] /\ utxos s3 = u' /\ mempool s3 = [] /\
            persistable s3).
  { subst r.
    set (sa := with_temps (temps s ++ [u]) s).
    set (s1 := with_temps (temps s ++ [put_outputs (remove_refs u (tx_inputs tx)) tx]) s).
    assert (Hsel : foldM (select_tx (Temp (length (temps s)))) (mempool s) [cb] sa
                   = (Ok [cb; tx], s1)).
    { rewrite Hmp, foldM_cons. unfold sa.
      rewrite select_tx_run.
      - rewrite deref_fresh, store_fresh. reflexivity.
      - cbn [valid with_temps temps]. rewrite length_app. cbn [length]. lia.
      - exact Hcbx.
      - rewrite deref_fresh. exact Hver.
      - exact Hrefs. }
    rewrite (mine_run_selected _ _ _ _ _ _ _ _ _ Hcb Hsel).
    assert (Hlast1 : latest_block s1 = (Ok tip, s1))
      by (rewrite latest_block_run; cbn [chain s1 with_temps]; rewrite Hlast; reflexivity).
    rewrite bindM_run, Hlast1, Hh. cbn beta iota zeta.
    change (chain s1) with (chain s).
    rewrite bindM_run. unfold lift at 1. rewrite Hmine. cbn beta iota.
    rewrite bindM_run, Hlast1. cbn beta iota.
    assert (Hrep1 : replay (utxos s1) (blk_txs mined) u') by (rewrite Htxs; exact Hrep).
    rewrite bindM_run.
    rewrite (proj2 (validate_block_true mined tip s1 (with_temps (temps s1 ++ [u']) s1))
               (conj Hhdr (ex_intro _ u' (conj Hrep1 eq_refl)))).
    cbn beta iota.
    set (s2 := with_temps (temps s1 ++ [u']) s1).
    rewrite bindM_run.
    rewrite (commit_txs_replay [cb; tx] s2 u' Hrep). cbn beta iota.
    rewrite bindM_run. unfold modify at 1. cbn beta iota.
    eexists. split; [reflexivity|].
    cbn [chain utxos mempool s2 s1 with_chain with_mempool with_utxos with_temps].
    rewrite Hmp. split; [reflexivity|]. split; [reflexivity|]. split.
    { unfold prune. rewrite filter_cons_False; [reflexivity|].
      intros Hn. apply Hn. cbn [map]. right. left. }
    destruct Hp as [Hpc Hpm]. split.
    - cbn [chain with_chain]. apply Forall_app. split; [exact Hpc|].
      constructor; [|constructor]. rewrite Htxs.
      constructor; [constructor|]. constructor; [exact Htx|constructor].
    - cbn [mempool with_chain with_mempool]. apply Forall_forall.
      intros x Hx. apply list_elem_of_filter in Hx as [_ Hx].
      rewrite Forall_forall in Hpm. apply Hpm. rewrite Hmp. exact Hx. }
  destruct Hrun as (s3 & -> & Hc3' & Hu3' & Hm3' & Hp3).
  rewrite bindM_run.
  pose proof (persist_ok _ Hp3) as Hok.
  destruct (persist_memory s3) as [(Hc3 & Hu3 & Hm3 & _) _].
  destruct (_persist s3) as [res s4]. cbn [fst snd] in *. subst res.
  cbn [fst snd mret M_ret].
  split; [reflexivity|]. split; [congruence|]. split; [congruence|].
  split; [rewrite Hu3, Hu3'; reflexivity|].
  intros Hout Htid.
  assert (Hnd0 : NoDup (dict_keys u0)) by (apply dict_set_NoDup, Hnd).
  assert (Hout0 : forall z, (tx_txid tx, z) ∉ dict_keys (remove_refs u0 (tx_inputs tx))).
  { intros z Hk. apply remove_refs_keys in Hk. unfold u0 in Hk.
    rewrite dict_keys_set in Hk.
    destruct (dict_contains u (Some t, 0%Z)); [exact (Hout z Hk)|].
    apply elem_of_app in Hk as [Hk|Hk]; [exact (Hout z Hk)|].
    apply list_elem_of_singleton in Hk. injection Hk as Hk _. apply Htid. exact Hk. }
  split.
  - intros i Hi Hk. rewrite Hu3, Hu3' in Hk. unfold u' in Hk. apply put_outputs_keys in Hk as [Hk|(z & Hk)].
    + exact (remove_refs_gone u0 (tx_inputs tx) i Hnd0 Hi Hk).
    + rewrite Forall_forall in Hpres. specialize (Hpres i Hi). cbv beta in Hpres.
      rewrite Hk in Hpres. exact (Hout z Hpres).
  - intros addr. unfold balance, gets. cbn [fst]. rewrite Hu3, Hu3'. f_equal.
    enough (Hb : balance_of addr u'
                 = (balance_of addr u
                    + (if bool_decide (miner = addr) then BLOCK_REWARD else 0)
                    - spent_from addr u (tx_inputs tx)
                    + paid_to addr (tx_outputs tx))%Z) by exact Hb.
    unfold u'.
    rewrite (put_outputs_balance addr _ tx Hout0).
    rewrite (remove_refs_balance addr u0 _ Hrefs).
    assert (Hsp : spent_from addr u0 (tx_inputs tx) = spent_from addr u (tx_inputs tx)).
    { unfold spent_from. f_equal. apply map_ext_Forall.
      eapply Forall_impl; [exact Hget|]. intros i Hi. cbv beta in Hi. rewrite Hi.
      reflexivity. }
    rewrite Hsp. unfold u0. rewrite (balance_of_set_fresh addr u (Some t, 0%Z) o Hfresh).
    cbn [held out_address out_amount o]. lia.
Qed.

(** *** Pending transactions that no longer verify *)

Lemma select_tx_refused (r : dref) (tx : Transaction) (sel : list Transaction) (s : State) :
  verify tx (deref r s) = Ok false -> select_tx r tx sel s = (Ok sel, s).
Proof.
  intros Hver. unfold select_tx. rewrite bindM_run. unfold verify_at at 1.
  rewrite Hver. reflexivity.
Qed.

Lemma select_all_refused (r : dref) (mp sel : list Transaction) (s : State) :
  Forall (fun t => verify t (deref r s) = Ok false) mp ->
  foldM (select_tx r) mp sel s = (Ok sel, s).
Proof.
  induction 1 as [|t mp Ht _ IH]; [reflexivity|].
  rewrite foldM_cons, (select_tx_refused _ _ _ _ Ht). exact IH.
Qed.

(** [mine] passes over the pending transactions that [verify] refuses
    against the copy of the UTXO dictionary, and nothing takes them out of
    the mempool.  When every pending transaction is refused, the block
    holds the coinbase alone, the reward output is the one change to the
    UTXO dictionary, and the mempool is what it was, less the transactions
    that carry the txid of the coinbase. *)
Theorem mine_keeps_refused_pending (now_cb now_blk : float) (clock : Z -> float)
    (fuel : nat) (miner : string) (s : State) (tip mined : Block) (h : string)
    (cb : Transaction) :
  Forall (fun t => verify t (utxos s) = Ok false) (mempool s) ->
  list.last (chain s) = Some tip -> blk_hash tip = Some h ->
  persistable s -> (0 < DIFFICULTY)%Z ->
  make_coinbase now_cb miner BLOCK_REWARD = Ok cb ->
  mine_block fuel clock
    {| blk_index := Z.of_nat (length (chain s)); blk_prev_hash := h;
       blk_timestamp := now_blk; blk_nonce := 0%Z; blk_txs := [cb];
       blk_merkle_root := None; blk_hash := None |} DIFFICULTY = Ok mined ->
  let r := mine now_cb now_blk clock fuel miner s in
  fst r = Ok (Some mined) /\
  blk_txs mined = [cb] /\
  chain (snd r) = chain s ++ [mined] /\
  mempool (snd r) = filter (fun t => tx_txid t <> tx_txid cb) (mempool s) /\
  utxos (snd r)
  = dict_set (utxos s) (tx_txid cb, 0%Z)
             {| out_amount := BLOCK_REWARD; out_address := miner |}.
Proof.
  intros Href Hlast Hh Hp Hd Hcb Hmine r.
  destruct (make_coinbase_ok now_cb miner BLOCK_REWARD) as (t & Hcb').
  rewrite Hcb in Hcb'. injection Hcb' as ->.
  set (o := {| out_amount := BLOCK_REWARD; out_address := miner |}) in *.
  set (cb := {| tx_inputs := []; tx_outputs := [o];
                tx_timestamp := now_cb; tx_txid := Some t; tx_coinbase := true |}) in *.
  set (u' := dict_set (utxos s) (Some t, 0%Z) o).
  pose proof (mine_block_txs _ _ _ _ _ Hmine) as Htxs. cbn [blk_txs] in Htxs.
  assert (Hhdr : block_header_ok mined tip).
  { eapply mined_header_ok; [exact Hmine|exact Hd|exact Hh|reflexivity|reflexivity|].
    cbn [tx_outputs cb map out_amount o]. apply sum_Z_singleton. }
  assert (Hrun : exists s3 : State,
            r = (_persist ≫= fun _ => mret (Some mined)) s3 /\
            chain s3 = chain s ++ [mined] /\ utxos s3 = u' /\
            mempool s3 = filter (fun t => tx_txid t <> tx_txid cb) (mempool s) /\
            persistable s3).
  { subst r.
    set (s1 := with_temps (temps s ++ [utxos s]) s).
    assert (Hsel : foldM (select_tx (Temp (length (temps s)))) (mempool s) [cb] s1
                   = (Ok [cb], s1)).
    { apply select_all_refused. unfold s1. rewrite deref_fresh. exact Href. }
    rewrite (mine_run_selected _ _ _ _ _ _ _ _ _ Hcb Hsel).
    assert (Hlast1 : latest_block s1 = (Ok tip, s1))
      by (rewrite latest_block_run; cbn [chain s1 with_temps]; rewrite Hlast; reflexivity).
    rewrite bindM_run, Hlast1, Hh. cbn beta iota zeta.
    change (chain s1) with (chain s).
    rewrite bindM_run. unfold lift at 1. rewrite Hmine. cbn beta iota.
    rewrite bindM_run, Hlast1. cbn beta iota.
    assert (Hrep : replay (utxos s1) (blk_txs mined) u').
    { rewrite Htxs. apply replay_coinbase; [reflexivity|]. constructor. }
    rewrite bindM_run.
    rewrite (proj2 (validate_block_true mined tip s1 (with_temps (temps s1 ++ [u']) s1))
               (conj Hhdr (ex_intro _ u' (conj Hrep eq_refl)))).
    cbn beta iota.
    set (s2 := with_temps (temps s1 ++ [u']) s1).
    rewrite bindM_run.
    assert (Hrep2 : replay (utxos s2) [cb] u') by (rewrite <- Htxs; exact Hrep).
    rewrite (commit_txs_replay [cb] s2 u' Hrep2). cbn beta iota.
    rewrite bindM_run. unfold modify at 1. cbn beta iota.
    eexists. split; [reflexivity|].
    cbn [chain utxos mempool s2 s1 with_chain with_mempool with_utxos with_temps].
    split; [reflexivity|]. split; [reflexivity|]. split.
    { rewrite prune_cons, prune_nil. reflexivity. }
    destruct Hp as [Hpc Hpm]. split.
    - cbn [chain with_chain]. apply Forall_app. split; [exact Hpc|].
      constructor; [|constructor]. rewrite Htxs. constructor; [constructor|constructor].
    - cbn [mempool with_chain with_mempool]. apply Forall_forall.
      intros x Hx. apply list_elem_of_filter in Hx as [_ Hx].
      rewrite Forall_forall in Hpm. apply Hpm. exact Hx. }
  destruct Hrun as (s3 & -> & Hc3' & Hu3' & Hm3' & Hp3).
  rewrite bindM_run.
  pose proof (persist_ok _ Hp3) as Hok.
  destruct (persist_memory s3) as [(Hc3 & Hu3 & Hm3 & _) _].
  destruct (_persist s3) as [res s4]. cbn [fst snd] in *. subst res.
  cbn [fst snd mret M_ret].
  split; [reflexivity|]. split; [exact Htxs|]. split; [congruence|].
  split; [rewrite Hm3, Hm3'; reflexivity|].
  rewrite Hu3, Hu3'. reflexivity.
Qed.

End ScenarioFacts.

(* ================================================================== *)
(** * What a block that [mine] returns is *)
(* ================================================================== *)

Section MineSound.
Context {float : Type} `{Lib : Library float} `{Cfg : Config}.

(* The record types, taken at the section's [float]. *)
#[local] Abbreviation Transaction := (Transaction float).
#[local] Abbreviation Block := (Block float).
#[local] Abbreviation State := (State float).
#[local] Abbreviation M := (M float).

Lemma same_live_store (n : nat) (d : UtxoDict) (s : State) :
  same_live s (store (Temp n) d s).
Proof. repeat split. Qed.

Lemma same_live_trans (s1 s2 s3 : State) :
  same_live s1 s2 -> same_live s2 s3 -> same_live s1 s3.
Proof. unfold same_live. intros (? & ? & ?) (? & ? & ?). repeat split; congruence. Qed.

(** The selection loop writes to the copy only, and selects pending
    transactions in the order of the mempool. *)
Lemma select_tx_live (n : nat) (tx : Transaction) (sel sel' : list Transaction)
    (s s' : State) :
  valid (Temp n) s ->
  select_tx (Temp n) tx sel s = (Ok sel', s') ->
  same_live s s' /\ valid (Temp n) s' /\ (sel' = sel ++ [tx] \/ sel' = sel).
Proof.
  intros Hv H. pose proof (select_tx_result _ _ _ _ _ _ H) as Hres.
  unfold select_tx in H. apply bindM_inv in H as ([|] & s1 & Hver & H).
  - unfold verify_at in Hver. injection Hver as _ <-.
    apply bindM_inv in H as ([] & s2 & Hdel & H).
    rewrite del_inputs_run in Hdel by exact Hv.
    apply (f_equal snd) in Hdel. cbn [snd] in Hdel. subst s2.
    apply bindM_inv in H as ([] & s3 & Hadd & H).
    rewrite add_outputs_run in Hadd by (apply valid_store; exact Hv).
    apply (f_equal snd) in Hadd. cbn [snd] in Hadd. subst s3.
    apply (f_equal snd) in H. cbn [snd] in H. subst s'.
    split; [|split; [|exact Hres]].
    + eapply same_live_trans; apply same_live_store.
    + apply valid_store, valid_store, Hv.
  - unfold verify_at in Hver. injection Hver as _ <-. injection H as _ <-.
    split; [repeat split|]. split; [exact Hv|exact Hres].
Qed.

Lemma select_loop_live (n : nat) (mp sel sel' : list Transaction) (s s' : State) :
  valid (Temp n) s ->
  foldM (select_tx (Temp n)) mp sel s = (Ok sel', s') ->
  same_live s s' /\ exists extra, sel' = sel ++ extra /\ sublist extra mp.
Proof.
  revert sel s. induction mp as [|tx mp IH]; intros sel s Hv.
  - intros [= <- <-]. split; [repeat split|]. exists []. rewrite app_nil_r.
    split; [reflexivity|constructor].
  - rewrite foldM_cons.
    destruct (select_tx (Temp n) tx sel s) as [[x|e| |] s1] eqn:Hsel; try discriminate.
    intros H. apply select_tx_live in Hsel as (Hl1 & Hv1 & Hres); [|exact Hv].
    apply IH in H as (Hl2 & extra & -> & Hsub); [|exact Hv1].
    split; [eapply same_live_trans; eassumption|].
    destruct Hres as [->| ->].
    + exists (tx :: extra). rewrite <- app_assoc. split; [reflexivity|].
      apply sublist_skip, Hsub.
    + exists extra. split; [reflexivity|]. apply sublist_cons, Hsub.
Qed.

(** Taking [mine] apart when it returned a block. *)
Lemma mine_Some_inv (now_cb now_blk : float) (clock : Z -> float) (fuel : nat)
    (miner : string) (s s' : State) (b : Block) :
  mine now_cb now_blk clock fuel miner s = (Ok (Some b), s') ->
  exists tip cb rest u',
    list.last (chain s) = Some tip /\
    block_header_ok b tip /\
    blk_index b = Z.of_nat (length (chain s)) /\
    make_coinbase now_cb miner BLOCK_REWARD = Ok cb /\
    blk_txs b = cb :: rest /\ sublist rest (mempool s) /\
    replay (utxos s) (blk_txs b) u' /\
    chain s' = chain s ++ [b] /\ utxos s' = u' /\
    mempool s' = prune (blk_txs b) (mempool s) /\
    fst (_persist (with_chain (chain s ++ [b])
                     (with_mempool (prune (blk_txs b) (mempool s))
                        (with_utxos u' s)))) = Ok tt.
Proof.
  unfold mine. intros H.
  apply bindM_inv in H as (cb & s1 & Hcb & H).
  apply lift_inv in Hcb as [Hcb ->].
  apply bindM_inv in H as (r & s2 & Hcopy & H).
  rewrite dict_copy_run in Hcopy. injection Hcopy as <- <-.
  apply bindM_inv in H as (mp & s3 & Hmp & H).
  unfold gets in Hmp. injection Hmp as <- <-.
  apply bindM_inv in H as (sel & s4 & Hsel & H).
  apply select_loop_live in Hsel as (Hlive & rest & -> & Hsub);
    [|cbn [valid with_temps temps]; rewrite length_app; cbn [length]; lia].
  destruct Hlive as (Hc4 & Hu4 & Hm4).
  cbn [chain utxos mempool with_temps deref] in Hc4, Hu4, Hm4, Hsub.
  apply bindM_inv in H as (c & s5 & Hc & H).
  unfold gets in Hc. injection Hc as <- <-.
  apply bindM_inv in H as (latest & s6 & Hlat & H).
  rewrite latest_block_run in Hlat.
  destruct (list.last (chain s4)) as [tip|] eqn:Htip; [|discriminate].
  injection Hlat as <- <-.
  destruct (blk_hash tip) as [ph|] eqn:Hph; [|discriminate].
  apply bindM_inv in H as (mined & s7 & Hmined & H).
  apply lift_inv in Hmined as [Hmined ->].
  apply bindM_inv in H as (latest' & s8 & Hlat' & H).
  rewrite latest_block_run, Htip in Hlat'. injection Hlat' as <- <-.
  apply bindM_inv in H as ([|] & s9 & Hval & H); [|discriminate].
  apply validate_block_true in Hval as (Hhdr & u' & Hrep & ->).
  pose proof (mine_block_txs _ _ _ _ _ Hmined) as Htxs. cbn [blk_txs] in Htxs.
  apply bindM_inv in H as ([] & s10 & Hcommit & H).
  rewrite (commit_txs_replay _ _ u') in Hcommit
    by (cbn [utxos with_temps]; rewrite <- Htxs; exact Hrep).
  injection Hcommit as <-.
  apply bindM_inv in H as ([] & s11 & Hmod & H).
  unfold modify in Hmod. injection Hmod as <-.
  apply bindM_inv in H as ([] & s12 & Hper & H).
  injection H as <- <-.
  assert (Hidx : blk_index mined = Z.of_nat (length (chain s))).
  { unfold mine_block in Hmined. apply bind_Ok in Hmined as (m & _ & Hloop).
    apply mine_loop_post in Hloop as (_ & _ & _ & _ & Hi & _). cbn in Hi.
    rewrite Hi, Hc4. reflexivity. }
  exists tip, cb, rest, u'.
  rewrite Hc4 in Htip. rewrite Hu4 in Hrep.
  split; [exact Htip|]. split; [exact Hhdr|]. split; [exact Hidx|].
  split; [exact Hcb|]. split; [exact Htxs|]. split; [exact Hsub|].
  split; [exact Hrep|].
  match type of Hper with _persist ?st = _ =>
    destruct (persist_memory st) as [(Hpc & Hpu & Hpm & _) _];
    rewrite Hper in Hpc, Hpu, Hpm; cbn [snd] in Hpc, Hpu, Hpm end.
  cbn [chain utxos mempool with_chain with_mempool with_utxos with_temps] in Hpc, Hpu, Hpm.
  rewrite Htxs in *. rewrite Hc4 in Hpc. rewrite Hm4 in Hpm.
  split; [exact Hpc|]. split; [exact Hpu|]. split; [exact Hpm|].
  rewrite persist_run in Hper |- *.
  cbn [chain utxos mempool with_chain with_mempool with_utxos with_temps] in Hper |- *.
  rewrite Hc4, Hm4 in Hper. change ([cb] ++ rest) with (cb :: rest) in *.
  destruct (mapM block_to_raw (chain s ++ [mined])) as [blocks| | |]; try discriminate.
  destruct (mapM tx_to_raw (prune (cb :: rest) (mempool s))) as [txs| | |];
    try discriminate.
  reflexivity.
Qed.

(** Whenever [mine] returns a block, the block is one [validate_block]
    accepts on top of the last block of the chain: its index is the
    length of the chain, it starts with the coinbase made for the miner,
    and the transactions after the coinbase were pending, in the order of
    the mempool.  The block is at the end of the chain afterwards, the
    UTXO dictionary is the one the replay of the block leaves, and no
    transaction with the txid of a transaction of the block is pending any
    more. *)
Theorem mine_returns_valid_block (now_cb now_blk : float) (clock : Z -> float)
    (fuel : nat) (miner : string) (s s' : State) (b : Block) :
  mine now_cb now_blk clock fuel miner s = (Ok (Some b), s') ->
  exists tip cb rest,
    list.last (chain s) = Some tip /\
    block_header_ok b tip /\
    blk_index b = Z.of_nat (length (chain s)) /\
    make_coinbase now_cb miner BLOCK_REWARD = Ok cb /\
    blk_txs b = cb :: rest /\ sublist rest (mempool s) /\
    replay (utxos s) (blk_txs b) (utxos s') /\
    chain s' = chain s ++ [b] /\
    mempool s' = prune (blk_txs b) (mempool s) /\
    Forall (fun t => tx_txid t ∉ map tx_txid (blk_txs b)) (mempool s').
Proof.
  intros H.
  apply mine_Some_inv in H
    as (tip & cb & rest & u' & Htip & Hhdr & Hidx & Hcb & Htxs & Hsub & Hrep &
        Hc & Hu & Hm & _).
  exists tip, cb, rest. subst u'.
  do 9 (split; [assumption|]).
  rewrite Hm. apply Forall_forall. intros t Ht.
  unfold prune in Ht. apply list_elem_of_filter in Ht as [Ht _]. exact Ht.
Qed.

(** A block [mine] returned on one ledger is taken in by [try_add_block]
    on any ledger that holds the same chain and the same UTXO dictionary
    as the first did before mining (a peer that is in step), whatever is
    pending there: the answer is true, and the peer ends with the chain
    and the UTXO dictionary of the miner, its own mempool less the
    transactions of the block. *)
Theorem mined_block_accepted_in_step (now_cb now_blk : float) (clock : Z -> float)
    (fuel : nat) (miner : string) (s s' p : State) (b : Block) :
  mine now_cb now_blk clock fuel miner s = (Ok (Some b), s') ->
  chain p = chain s -> utxos p = utxos s ->
  Forall tx_dataclass (mempool p) ->
  fst (try_add_block b p) = Ok true /\
  chain (snd (try_add_block b p)) = chain s' /\
  utxos (snd (try_add_block b p)) = utxos s' /\
  mempool (snd (try_add_block b p)) = prune (blk_txs b) (mempool p).
Proof.
  intros H Hcp Hup Hmp.
  apply mine_Some_inv in H
    as (tip & cb & rest & u' & Htip & Hhdr & Hidx & Hcb & Htxs & Hsub & Hrep &
        Hc & Hu & Hm & Hper).
  set (sp := with_chain (chain p ++ [b])
               (with_mempool (prune (blk_txs b) (mempool p))
                  (with_utxos u' (with_temps (temps p ++ [u']) p)))).
  assert (Hrun : try_add_block b p = (_persist ≫= fun _ => mret true) sp).
  { unfold try_add_block. rewrite bindM_run. unfold gets at 1. cbn beta iota.
    rewrite Hcp. rewrite bool_decide_eq_true_2 by exact Hidx. cbn [negb].
    rewrite bindM_run, latest_block_run, Hcp, Htip. cbn beta iota.
    rewrite bindM_run.
    rewrite (proj2 (validate_block_true b tip p (with_temps (temps p ++ [u']) p))).
    2:{ split; [exact Hhdr|]. exists u'. rewrite Hup. split; [exact Hrep|reflexivity]. }
    cbn beta iota. cbn [negb].
    rewrite bindM_run.
    rewrite (commit_txs_replay (blk_txs b) (with_temps (temps p ++ [u']) p) u')
      by (cbn [utxos with_temps]; rewrite Hup; exact Hrep).
    cbn beta iota. rewrite bindM_run. unfold modify at 1. cbn beta iota.
    reflexivity. }
  assert (Hok : fst (_persist sp) = Ok tt).
  { rewrite persist_run in Hper |- *.
    cbn [chain mempool sp with_chain with_mempool with_utxos with_temps] in Hper |- *.
    rewrite Hcp.
    destruct (mapM block_to_raw (chain s ++ [b])) as [blocks| | |]; try discriminate.
    rewrite (mapM_Ok_map tx_to_raw tx_raw); [reflexivity|].
    apply Forall_forall. intros t Ht. apply tx_to_raw_dataclass.
    unfold prune in Ht. apply list_elem_of_filter in Ht as [_ Ht].
    rewrite Forall_forall in Hmp. exact (Hmp t Ht). }
  rewrite Hrun, bindM_run.
  destruct (persist_memory sp) as [(Hpc & Hpu & Hpm & _) _].
  destruct (_persist sp) as [res sq]. cbn [fst snd] in *. subst res.
  cbn [fst snd mret M_ret].
  split; [reflexivity|].
  cbn [chain utxos mempool sp with_chain with_mempool with_utxos with_temps] in Hpc, Hpu, Hpm.
  split; [rewrite Hpc, Hc, Hcp; reflexivity|].
  split; [rewrite Hpu, Hu; reflexivity|exact Hpm].
Qed.

End MineSound.

(* ================================================================== *)
(** * The theorems at work on the sample ledgers *)
(* ================================================================== *)

Section SampleRuns.
#[local] Existing Instance Toy.lib.
#[local] Existing Instance Toy.cfg.

(** *** The small instance keeps the laws asked of the libraries *)

Lemma toy_fromhex_byte (x : byte) (rest : string) :
  Toy.fromhex (byte_hex x +:+ rest)
  = match Toy.fromhex rest with
    | Returns r => Returns (x :: r)
    | Raises _ => Raises "ValueError"
    end.
Proof. destruct x; reflexivity. Qed.

Lemma toy_hex_roundtrip : hex_roundtrip.
Proof.
  intros b. induction b as [|x b IH]; [reflexivity|].
  change (lib_fromhex (bytes_hex (x :: b))) with (Toy.fromhex (byte_hex x +:+ bytes_hex b)).
  rewrite toy_fromhex_byte. change (Toy.fromhex (bytes_hex b)) with (lib_fromhex (bytes_hex b)).
  rewrite IH. reflexivity.
Qed.


(** The signed transfer of the sample ledger passes every check. *)
Lemma verify_checks_witness : checks_pass Sample.tx_pay Sample.u0.
Proof.
  apply (proj2 (proj1 (proj2 (verify_checks Sample.tx_pay Sample.u0)) eq_refl)).
  vm_compute. reflexivity.
Defined.

(** The block mined on top of the sample genesis block validates. *)
Lemma validate_block_sound_witness :
  blk_hash Sample.genesis_block = Some (blk_prev_hash Sample.block_1) /\
  compute_merkle Sample.block_1 = Ok (blk_merkle_root Sample.block_1) /\
  exists u', replay [] (blk_txs Sample.block_1) u'.
Proof.
  destruct (validate_block_sound Sample.block_1 Sample.genesis_block
              Sample.s_genesis
              (snd (validate_block Sample.block_1 Sample.genesis_block
                      Sample.s_genesis)))
    as (Hprev & _ & Hm & _ & Hrep).
  - vm_compute. reflexivity.
  - split; [exact Hprev|]. split; [exact Hm|exact Hrep].
Defined.

(** The same block is taken in by the ledger that holds the genesis block
    only, and turned down by the ledger that is empty. *)
Lemma try_add_block_spec_witness :
  chain (snd (try_add_block Sample.block_1 Sample.s_genesis))
  = [Sample.genesis_block; Sample.block_1] /\
  try_add_block Sample.block_1 (Sample.no_files [] [] [])
  = (Ok false, Sample.no_files [] [] []).
Proof.
  pose proof (try_add_block_spec Sample.block_1 Sample.s_genesis)
    as [_ Hacc].
  pose proof (try_add_block_spec Sample.block_1 (Sample.no_files [] [] []))
    as [Hrej _].
  split.
  - destruct (Hacc Sample.genesis_block
                (snd (validate_block Sample.block_1 Sample.genesis_block
                        Sample.s_genesis)))
      as (u' & _ & _ & _ & Hc & _).
    + reflexivity.
    + reflexivity.
    + vm_compute. reflexivity.
    + exact Hc.
  - apply Hrej. discriminate.
Defined.

(** A transaction without inputs or outputs that is not a coinbase: its
    outputs add up to no more than its inputs, so that [verify] accepts it
    against every dictionary. *)
Definition tx_free : Transaction Z :=
  {| tx_inputs := []; tx_outputs := []; tx_timestamp := 110%Z;
     tx_txid := Some "25"; tx_coinbase := false |}.

(** A coinbase transaction without txid whose one input is an object of a
    class made by [type], as [_load] rebuilds inputs. *)
Definition cb_loaded : Transaction Z :=
  {| tx_inputs := [{| tin_class := Synthesized; tin_txid := "08"; tin_vout := 0;
                      tin_signature := None; tin_pubkey := None |}];
     tx_outputs := []; tx_timestamp := 110%Z; tx_txid := None; tx_coinbase := true |}.

(** Three inputs at which the claim fails.  A transfer that carries no
    txid fails [verify] as it stands, and is admitted all the same:
    rejection does not follow from the failure of [verify] on the
    transaction as submitted.  The transaction without inputs is admitted,
    mined into a block, which takes it out of the mempool, and admitted
    again: the same transaction, twice.  And the coinbase transaction whose
    txid cannot be computed is not answered with false: the call raises. *)
Lemma add_transaction_counterexample :
  ~ (forall (tx : Transaction Z) (s : State Z),
       verify tx (utxos s) = Ok false ->
       add_transaction tx s = (Ok false, s)) /\
  (let s1 := snd (add_transaction tx_free Sample.s_genesis) in
   let s2 := snd (mine 111%Z 112%Z (fun n => n) 60 "MINER" s1) in
   fst (add_transaction tx_free Sample.s_genesis) = Ok true /\
   mempool s1 = [tx_free] /\
   (exists b, fst (mine 111%Z 112%Z (fun n => n) 60 "MINER" s1) = Ok (Some b) /\
              tx_free ∈ blk_txs b) /\
   mempool s2 = [] /\
   fst (add_transaction tx_free s2) = Ok true /\
   mempool (snd (add_transaction tx_free s2)) = [tx_free]) /\
  (tx_coinbase cb_loaded = true /\
   add_transaction cb_loaded Sample.s_genesis = (Raise AttributeError, Sample.s_genesis)).
Proof.
  split; [|split].
  - intros H. specialize (H Sample.tx_pay_no_txid Sample.s_u0 eq_refl).
    vm_compute in H. discriminate H.
  - cbv zeta. split; [vm_compute; reflexivity|]. split; [vm_compute; reflexivity|].
    split.
    + eexists. split; [vm_compute; reflexivity|]. right. left.
    + split; [vm_compute; reflexivity|]. split; vm_compute; reflexivity.
  - split; vm_compute; reflexivity.
Qed.

(** The signed transfer of the sample ledger is admitted once, and not
    again while it is pending. *)
Lemma add_transaction_spec_witness :
  assign_txid Sample.tx_pay = Ok Sample.tx_pay /\
  mempool (snd (add_transaction Sample.tx_pay Sample.s_u0))
  = [Sample.tx_pay] /\
  fst (add_transaction Sample.tx_pay
         (snd (add_transaction Sample.tx_pay Sample.s_u0)))
  = Ok false.
Proof.
  split; [reflexivity|]. split; [vm_compute; reflexivity|].
  destruct (proj2 (proj2 (add_transaction_spec Sample.tx_pay Sample.s_u0))
              Sample.tx_pay eq_refl) as (_ & _ & _ & Hagain).
  rewrite Hagain.
  - reflexivity.
  - vm_compute. reflexivity.
Defined.

(** The sample transaction that names the one output of the sample ledger
    twice: it pays out 100 from an output of 50, is admitted, and makes the
    next [mine] raise. *)
Lemma duplicate_input_mine_raises_witness :
  verify Sample.tx_dup Sample.u0 = Ok true /\
  total_in Sample.u0 Sample.tx_dup = 100%Z /\
  fst (add_transaction Sample.tx_dup Sample.s_u0) = Ok true /\
  fst (mine 0%Z 0%Z (fun n => n) 1000 "CYPHd6"
         (snd (add_transaction Sample.tx_dup Sample.s_u0)))
  = Raise KeyError.
Proof.
  assert (Hpass : checks_pass Sample.tx_dup (utxos Sample.s_u0)).
  { apply verify_true_checks; [reflexivity|]. vm_compute. reflexivity. }
  destruct (duplicate_input_mine_raises Sample.tx_dup Sample.s_u0
              0%Z 0%Z (fun n => n) 1000 "CYPHd6")
    as (Hv & Hsum & Hadd & _ & Hmine).
  - reflexivity.
  - intros Hnd. apply NoDup_cons in Hnd as [Hnin _]. apply Hnin. left.
  - exact Hpass.
  - apply NoDup_singleton.
  - reflexivity.
  - split; constructor.
  - split; [exact Hv|]. split; [|split; [exact Hadd|exact Hmine]].
    exact (Hsum _ _ eq_refl eq_refl).
Defined.

(** The coinbase transaction of the genesis block, as [_init_genesis]
    creates it over the small instance, has no output at all. *)
Lemma genesis_coinbase_counterexample :
  ~ (forall (g : Block Z) (tx : Transaction Z),
       g ∈ chain (snd (_init_genesis 100%Z 101%Z (fun n => n) 200
                         (new_ledger Missing Missing Missing))) ->
       tx ∈ blk_txs g -> tx_coinbase tx = true ->
       exists o, tx_outputs tx = [o] /\ out_amount o = BLOCK_REWARD).
Proof.
  intros H.
  destruct (H Sample.genesis_block
              {| tx_inputs := []; tx_outputs := []; tx_timestamp := 100%Z;
                 tx_txid := Some "dc"; tx_coinbase := true |})
    as (o & Habs & _).
  - vm_compute. left.
  - left.
  - reflexivity.
  - discriminate Habs.
Qed.

(** Mining on top of the sample genesis block gives a block that starts
    with a coinbase of one output of 50. *)
Lemma coinbase_shapes_witness :
  exists cb rest,
    blk_txs Sample.block_1 = cb :: rest /\ tx_coinbase cb = true /\
    tx_inputs cb = [] /\
    tx_outputs cb = [{| out_amount := 50; out_address := "CYPH16" |}].
Proof.
  refine (proj1 (proj2 coinbase_shapes) 102%Z 103%Z (fun n => n) 500%nat "CYPH16"
            Sample.s_genesis
            (snd (mine 102%Z 103%Z (fun n => n) 500 "CYPH16" Sample.s_genesis))
            Sample.block_1 _).
  vm_compute. reflexivity.
Defined.



(** The owner of the sample key holds an output of 100 and, after it, one
    of -60 (a block whose coinbase pays 110 and -60 passes
    [validate_block], which compares the sum with the reward). *)
Definition u_neg : UtxoDict :=
  [((Some "a1", 0%Z), {| out_amount := 100; out_address := "CYPHd6" |});
   ((Some "b2", 0%Z), {| out_amount := -60; out_address := "CYPHd6" |})].

(** Two inputs at which the claim fails.  The owner of [u_neg] holds 40 in
    all, less than the 50 asked for, and [build_simple_tx] returns a
    transaction (the first output covers the amount): the error of
    insufficient funds is not raised exactly when the owner's total falls
    short.  And for an amount of 0 the accumulated amount covers the
    amount before anything is taken, so that a selection that stops as
    soon as it does takes nothing; [build_simple_tx] takes the output of
    the sample ledger. *)
Lemma build_simple_tx_counterexample :
  ~ (forall (utxos : UtxoDict) (amount : Z) (owner : string),
       pubkey_to_address "aa" = Ok owner ->
       (build_simple_tx 104%Z utxos "aa" "aa" "BOB" amount None
        = Raise (ValueError "Insufficient funds")
        <-> (sum_Z (amounts (owned_by owner utxos)) < amount)%Z)) /\
  ~ (forall (utxos : UtxoDict) (amount : Z) (owner : string) (tx : Transaction Z),
       pubkey_to_address "aa" = Ok owner ->
       build_simple_tx 104%Z utxos "aa" "aa" "BOB" amount None = Ok tx ->
       exists total,
         stops_as_soon_as_covered (owned_by owner utxos) amount
           (map ref_of (tx_inputs tx)) total).
Proof.
  split.
  - intros H. specialize (H u_neg 50%Z "CYPHd6" eq_refl).
    apply proj2 in H. assert (Hlt : (sum_Z (amounts (owned_by "CYPHd6" u_neg)) < 50)%Z)
      by (vm_compute; reflexivity).
    specialize (H Hlt). vm_compute in H. discriminate H.
  - intros H.
    destruct (build_simple_tx 104%Z Sample.u0 "aa" "aa" "BOB" 0%Z None) as [tx| | |] eqn:Hb;
      try (vm_compute in Hb; discriminate Hb).
    destruct (H Sample.u0 0%Z "CYPHd6" tx eq_refl Hb) as (total & k & Hkeys & _ & _ & Hmin).
    vm_compute in Hb. injection Hb as <-.
    destruct k as [|k]; [discriminate Hkeys|].
    specialize (Hmin 0%nat ltac:(lia)). vm_compute in Hmin. discriminate Hmin.
Qed.

(** The transfer of 20 out of the sample ledger is built: one input taken,
    one output to the recipient, 30 of change to the owner. *)
Lemma build_simple_tx_first_fit_witness :
  exists tx,
    build_simple_tx 104%Z Sample.u0 "aa" "aa" "BOB" 20%Z None = Ok tx /\
    map ref_of (tx_inputs tx) = [(Some "08", 0%Z)] /\
    tx_outputs tx = [{| out_amount := 20; out_address := "BOB" |};
                     {| out_amount := 30; out_address := "CYPHd6" |}].
Proof.
  destruct (build_simple_tx_first_fit 104%Z Sample.u0 "aa" "aa" "BOB" 20%Z None "CYPHd6")
    as (keys & total & Hff & _ & _ & _ & _ & Hshape & Hret).
  - reflexivity.
  - assert (Hsel : keys = [(Some "08", 0%Z)] /\ total = 50%Z).
    { destruct Hff as (k & Hk & Ht & Hstop & _).
      assert (Hown : owned_by "CYPHd6" Sample.u0 = Sample.u0) by reflexivity.
      rewrite Hown in Hk, Ht, Hstop.
      destruct k as [|k].
      - exfalso. destruct Hstop as [Habs|[Habs _]]; [discriminate Habs|lia].
      - unfold Sample.u0 in Hk, Ht. rewrite firstn_cons, take_nil in Hk, Ht.
        split; [exact Hk|exact Ht]. }
    destruct Hsel as [-> ->].
    destruct (Hret [xaa]) as (tx & Htx).
    + exists [xaa]. split; reflexivity.
    + reflexivity.
    + apply NoDup_singleton.
    + constructor; [discriminate|constructor].
    + lia.
    + exists tx. split; [exact Htx|].
      destruct (Hshape tx Htx) as (_ & Hin & Hout). split; [exact Hin|exact Hout].
Defined.

(** C9 at work.  The ledger that holds the sample genesis block takes in
    the block of the peer; it writes its files; a ledger started on these
    files holds the same chain and an unspent output under the key
    [("ab", 1)], where the ledger that wrote them holds it under
    [("ab:1", 0)]. *)
Theorem reload_changes_utxo_key :
  let s := snd (try_add_block Sample.block_foreign Sample.s_genesis) in
  fst (try_add_block Sample.block_foreign Sample.s_genesis) = Ok true /\
  fst (reload s) = Ok tt /\
  chain (snd (reload s)) = chain s /\
  utxos s = [((Some "ab:1", 0%Z), {| out_amount := 50; out_address := "CYPHd6" |})] /\
  utxos (snd (reload s))
  = [((Some "ab", 1%Z), {| out_amount := 50; out_address := "CYPHd6" |})].
Proof. vm_compute. auto 6. Qed.

End SampleRuns.

(* ================================================================== *)
(** * The further theorems at work on the sample ledgers *)
(* ================================================================== *)

Section SampleRunsMore.
#[local] Existing Instance Toy.lib.
#[local] Existing Instance Toy.cfg.

(** The key whose one byte is [aa]. *)
Definition sample_key : SigningKey := [xaa].

Lemma toy_key_ok : signing_key_ok sample_key.
Proof.
  split.
  - discriminate.
  - intros m. discriminate.
  - intros m. exists sample_key. split; [reflexivity|].
    cbn. unfold Toy.verify_sig. rewrite bool_decide_eq_true_2 by reflexivity. reflexivity.
Qed.

Lemma toy_key_of : key_of "aa" sample_key.
Proof. exists [xaa]. split; reflexivity. Qed.

(** The sample transfer before it was signed. *)
Definition tx_unsigned : Transaction Z :=
  {| tx_inputs := [{| tin_class := Dataclass; tin_txid := "08"; tin_vout := 0;
                      tin_signature := None; tin_pubkey := None |}];
     tx_outputs := tx_outputs Sample.tx_pay;
     tx_timestamp := 104%Z; tx_txid := None; tx_coinbase := false |}.


(** The sample block mined on the sample genesis block, before the
    search. *)
Definition block_1_candidate : Block Z :=
  {| blk_index := 1; blk_prev_hash := "09"; blk_timestamp := 103%Z; blk_nonce := 0;
     blk_txs := blk_txs Sample.block_1; blk_merkle_root := None; blk_hash := None |}.

(** A ledger that holds the two sample blocks, the sample output and the
    sample transfer pending. *)
Definition s_pending : State Z :=
  Sample.no_files [Sample.genesis_block; Sample.block_1] Sample.u0 [Sample.tx_pay].

(** *** Witnesses *)

(** The ledger with the sample transfer pending comes back from its files
    with the same UTXO dictionary, and the transfer with its one input an
    object of a synthesized class. *)
Lemma reload_restores_plain_ledger_witness :
  utxos (snd (reload (snd (_persist s_pending)))) = Sample.u0 /\
  mempool (snd (reload (snd (_persist s_pending)))) = [as_loaded_tx Sample.tx_pay].
Proof.
  destruct (reload_restores_plain_ledger s_pending) as (_ & _ & Hu & Hm & _).
  - split; repeat constructor.
  - repeat constructor. set_solver.
  - constructor; [|constructor]. exists "08". split; reflexivity.
  - vm_compute. reflexivity.
  - split; [exact Hu|exact Hm].
Defined.

(** The key of the sample output is read back as written. *)
Lemma utxo_key_roundtrip_iff_witness :
  utxo_key_of_str (utxo_key_str (Some "08", 0%Z)) = Ok (Some "08", 0%Z).
Proof.
  apply (proj1 (utxo_key_roundtrip_iff (Some "08", 0%Z))).
  exists "08". split; reflexivity.
Defined.

(** The sample transfer has the txid it had before it was signed. *)
Lemma txid_ignores_signatures_witness :
  compute_txid Sample.tx_pay = compute_txid tx_unsigned.
Proof.
  apply (txid_ignores_signatures Sample.tx_pay tx_unsigned).
  split; [|repeat split]. constructor; [repeat split|constructor].
Defined.

(** Signing the sample transfer against the sample dictionary gives the
    signed sample transfer; against an empty dictionary it raises. *)
Lemma sign_inputs_outcomes_witness :
  sign_inputs tx_unsigned "aa" [] = Raise (ValueError "Referenced UTXO not found") /\
  exists pre t,
    sign_inputs tx_unsigned "aa" Sample.u0
    = Ok (set_txid (signed_with sample_key pre tx_unsigned) (Some t)).
Proof.
  split.
  - destruct (sign_inputs_outcomes tx_unsigned "aa" [] sample_key "CYPHd6")
      as [Hraise _]; [reflexivity|exact toy_key_of|reflexivity|].
    destruct (Hraise [] _ [] eq_refl) as [Hnone _]; [constructor|].
    apply Hnone. reflexivity.
  - destruct (sign_inputs_outcomes tx_unsigned "aa" Sample.u0 sample_key "CYPHd6")
      as [_ Hok]; [reflexivity|exact toy_key_of|reflexivity|].
    destruct Hok as (pre & t & _ & _ & Hsign).
    + constructor; [|constructor]. eexists. split; reflexivity.
    + constructor; [reflexivity|constructor].
    + exists pre, t. exact Hsign.
Defined.

(** The signed sample transfer, 50 in and 50 out, verifies. *)
Lemma signed_transaction_verifies_witness :
  verify Sample.tx_pay Sample.u0 = Ok true.
Proof.
  destruct (signed_transaction_verifies tx_unsigned Sample.tx_pay "aa" Sample.u0 sample_key)
    as [Hle _].
  - exact toy_hex_roundtrip.
  - exact toy_key_of.
  - exact toy_key_ok.
  - reflexivity.
  - vm_compute. reflexivity.
  - apply Hle. vm_compute. discriminate.
Defined.

(** The transfer of 20 built on the sample dictionary verifies, leaves no
    fee, and is admitted by the ledger that holds the dictionary. *)
Lemma build_simple_tx_verifies_witness :
  total_out Sample.tx_pay = total_in Sample.u0 Sample.tx_pay /\
  verify Sample.tx_pay Sample.u0 = Ok true /\
  fst (add_transaction Sample.tx_pay Sample.s_u0) = Ok true.
Proof.
  destruct (build_simple_tx_verifies 104%Z Sample.u0 "aa" "aa" "BOB" 20%Z None
              Sample.tx_pay sample_key) as (_ & Hfee & Hver & Hadd).
  - exact toy_hex_roundtrip.
  - exact toy_key_of.
  - exact toy_key_ok.
  - apply NoDup_singleton.
  - vm_compute. reflexivity.
  - split; [exact Hfee|]. split; [exact Hver|].
    destruct (Hadd Sample.s_u0) as [Hok _].
    + reflexivity.
    + split; constructor.
    + intros t Ht. apply elem_of_nil in Ht. contradiction.
    + intros t j i Ht. apply elem_of_nil in Ht. contradiction.
    + exact Hok.
Defined.

(** The sample transaction that names the sample output twice is given up
    half way by [apply_tx]: the answer is false and the output is gone. *)
Lemma apply_tx_outcomes_witness :
  fst (apply_tx Sample.tx_dup Sample.s_u0) = Ok false /\
  utxos (snd (apply_tx Sample.tx_dup Sample.s_u0)) = [].
Proof.
  destruct (apply_tx_outcomes Sample.tx_dup Sample.s_u0) as (_ & _ & _ & _ & Hdup).
  destruct Hdup as [Hfalse _].
  - reflexivity.
  - vm_compute. reflexivity.
  - apply NoDup_singleton.
  - intros Hnd. apply NoDup_cons in Hnd as [Hnin _]. apply Hnin. left.
  - split; [exact Hfalse|]. vm_compute. reflexivity.
Defined.

(** The sample block validates on the sample genesis block. *)
Lemma validate_block_complete_witness :
  fst (validate_block Sample.block_1 Sample.genesis_block Sample.s_genesis) = Ok true.
Proof.
  assert (Hrun : validate_block Sample.block_1 Sample.genesis_block Sample.s_genesis
                 = (Ok true, snd (validate_block Sample.block_1 Sample.genesis_block
                                    Sample.s_genesis)))
    by (vm_compute; reflexivity).
  apply validate_block_true in Hrun as (Hhdr & u' & Hrep & _).
  rewrite (validate_block_complete Sample.block_1 Sample.genesis_block Sample.s_genesis u'
             Hhdr Hrep).
  reflexivity.
Defined.

(** The search for the sample block stops at nonce 12, given more fuel
    than that. *)
Lemma mine_block_search_witness :
  mine_block 20 (fun n => n) block_1_candidate 1 = Ok Sample.block_1.
Proof.
  rewrite (proj1 (mine_block_search (fun n => n) block_1_candidate 1)
             (Some "08") 12%nat 20%nat).
  - reflexivity.
  - reflexivity.
  - reflexivity.
  - intros k Hk. do 12 (destruct k as [|k]; [vm_compute; reflexivity|]). lia.
  - vm_compute. reflexivity.
  - lia.
Defined.

(** The sample block is as [finalize] leaves it. *)
Lemma finalize_stores_root_and_hash_witness :
  finalize Sample.block_1 = Ok Sample.block_1 /\
  blk_hash Sample.block_1 = Some (compute_hash Sample.block_1).
Proof.
  destruct (proj1 (finalize_stores_root_and_hash Sample.block_1) Sample.block_1)
    as (_ & Hh & Hf & _).
  - vm_compute. reflexivity.
  - split; [exact Hf|exact Hh].
Defined.

(** The Merkle root of the sample block is the txid of its one
    transaction. *)
Lemma merkle_root_single_and_decoding_witness :
  compute_merkle Sample.block_1 = Ok (Some "08").
Proof.
  exact (proj1 (proj2 merkle_root_single_and_decoding) Sample.block_1 _ eq_refl).
Defined.

(** Three txids, and the same three with the last one repeated: one
    root. *)
Lemma merkle_root_odd_duplicate_witness :
  merkle_root_hex [Some "aa"; Some "bb"; Some "cc"]
  = merkle_root_hex [Some "aa"; Some "bb"; Some "cc"; Some "cc"].
Proof.
  apply (merkle_root_odd_duplicate [Some "aa"; Some "bb"] (Some "cc")).
  - exists 1%nat. reflexivity.
  - simpl. lia.
Defined.

(** The sample transfer, once it came back from the files, no longer
    verifies. *)
Lemma synthesized_input_effects_witness :
  compute_txid (as_loaded_tx Sample.tx_pay) = Raise AttributeError /\
  verify (as_loaded_tx Sample.tx_pay) Sample.u0 = Ok false.
Proof.
  destruct (synthesized_input_effects (as_loaded_tx Sample.tx_pay))
    as (_ & Hid & Hver & _).
  - intros H. apply Forall_cons in H as [H _]. discriminate H.
  - split; [exact Hid|exact (Hver Sample.u0)].
Defined.

(** The ledger with the sample transfer pending, read back from its
    files, cannot be written again: the mempool file is left empty. *)
Lemma persist_after_reload_raises_witness :
  fst (_persist (snd (reload (snd (_persist s_pending))))) = Raise AttributeError /\
  mempool_file (snd (_persist (snd (reload (snd (_persist s_pending)))))) = Empty.
Proof.
  destruct (proj1 (proj2 (persist_after_reload_raises
                            (snd (reload (snd (_persist s_pending))))))) as (Hr & He & _).
  - vm_compute. repeat constructor.
  - vm_compute. constructor. intros H. apply Forall_cons in H as [H _]. discriminate H.
  - split; [exact Hr|exact He].
Defined.

(** The sample transfer makes the trip through its payload unchanged. *)
Lemma payload_tx_roundtrip_witness :
  payload_to_tx (tx_to_payload Sample.tx_pay) = Ok Sample.tx_pay.
Proof.
  apply (proj2 (proj2 (payload_tx_roundtrip Sample.tx_pay))).
  - constructor; [reflexivity|constructor].
  - reflexivity.
Defined.

(** So does the sample block. *)
Lemma payload_block_roundtrip_witness :
  payload_to_block (block_to_payload Sample.block_1) = Ok Sample.block_1.
Proof.
  apply (proj2 (proj2 (payload_block_roundtrip Sample.block_1))).
  constructor; [|constructor]. split; [constructor|reflexivity].
Defined.

(** A payload with inputs, outputs and timestamp only is a transaction
    that is not a coinbase, with a computed txid. *)
Lemma payload_to_tx_rejects_witness :
  payload_to_tx (PDict [("outputs", PList []); ("timestamp", PFloat 7%Z)])
  = Raise KeyError /\
  exists t,
    payload_to_tx (PDict [("inputs", PList []); ("outputs", PList []);
                          ("timestamp", PFloat 7%Z)])
    = Ok {| tx_inputs := []; tx_outputs := []; tx_timestamp := 7%Z;
            tx_txid := Some t; tx_coinbase := false |}.
Proof.
  destruct payload_to_tx_rejects as (_ & Hkey & _ & _ & _ & Hok).
  split; [apply Hkey; reflexivity|].
  exact (Hok [("inputs", PList []); ("outputs", PList []); ("timestamp", PFloat 7%Z)]
           [] [] 7%Z eq_refl eq_refl eq_refl eq_refl eq_refl).
Defined.

(** A ledger without a block: a block of index 0 makes [try_add_block]
    raise. *)
Lemma empty_chain_raises_witness :
  try_add_block Sample.genesis_block (Sample.no_files [] [] [])
  = (Raise IndexError, Sample.no_files [] [] []).
Proof.
  apply (proj1 (proj2 (empty_chain_raises (Sample.no_files [] [] []) eq_refl))).
  reflexivity.
Defined.

(** Mining on the sample genesis block with nothing pending: the sample
    block, and 50 for the miner. *)
Lemma mine_empty_mempool_witness :
  fst (mine 102%Z 103%Z (fun n => n) 20 "CYPH16" Sample.s_genesis)
  = Ok (Some Sample.block_1) /\
  fst (balance "CYPH16" (snd (mine 102%Z 103%Z (fun n => n) 20 "CYPH16" Sample.s_genesis)))
  = Ok 50%Z.
Proof.
  destruct (mine_empty_mempool 102%Z 103%Z (fun n => n) 20 "CYPH16" Sample.s_genesis
              Sample.genesis_block Sample.block_1 "09"
              {| tx_inputs := [];
                 tx_outputs := [{| out_amount := 50; out_address := "CYPH16" |}];
                 tx_timestamp := 102%Z; tx_txid := Some "08"; tx_coinbase := true |})
    as (Hres & _ & _ & _ & Hbal).
  - reflexivity.
  - reflexivity.
  - reflexivity.
  - split; repeat constructor.
  - reflexivity.
  - reflexivity.
  - vm_compute. reflexivity.
  - split; [exact Hres|].
    destruct Hbal as (z & Hz & Hz'); [apply not_elem_of_nil|].
    injection Hz as <-. exact Hz'.
Defined.


(** The files of the sample ledger without the mempool file: the ledger
    loads, with nothing pending.  A chain document that lists its blocks
    under another key is a [KeyError]. *)
Lemma load_missing_files_witness :
  fst (_load (new_ledger (Json (PDict [("chain", PList (map block_raw [Sample.genesis_block]))]))
                         (Json (utxos_to_raw Sample.u0)) Missing)) = Ok tt /\
  fst (_load (new_ledger (Json (PDict [("blocks", PList (F := Z) [])]))
                         (Json (utxos_to_raw Sample.u0)) Missing)) = Raise KeyError.
Proof.
  destruct (load_missing_files [Sample.genesis_block] Sample.u0) as (_ & Hok & _ & Hkey).
  - apply NoDup_singleton.
  - constructor; [|constructor]. exists "08". split; reflexivity.
  - split; [rewrite Hok; reflexivity|].
    rewrite (Hkey [("blocks", PList (F := Z) [])]); reflexivity.
Defined.

(** [apply_tx] of the sample transfer leaves the 50 of the sample
    dictionary at 50. *)
Lemma transfers_create_no_value_witness :
  (value (utxos (snd (apply_tx Sample.tx_pay Sample.s_u0))) <= 50)%Z.
Proof.
  destruct (proj1 transfers_create_no_value Sample.tx_pay Sample.s_u0) as [Hv _].
  - reflexivity.
  - apply NoDup_singleton.
  - constructor; [cbn; lia|constructor].
  - constructor; [cbn; lia|]. constructor; [cbn; lia|constructor].
  - exact Hv.
Defined.

(** The coinbase [make_coinbase] builds for the address [MINER] at time
    107. *)
Definition cb_miner : Transaction Z :=
  {| tx_inputs := []; tx_outputs := [{| out_amount := 50; out_address := "MINER" |}];
     tx_timestamp := 107%Z; tx_txid := Some "d6"; tx_coinbase := true |}.

(** The block [mine_block] finds on top of the sample genesis block for
    that coinbase followed by the sample transaction that names the one
    output of the sample dictionary twice. *)
Definition block_dup : Block Z :=
  {| blk_index := 1; blk_prev_hash := "09"; blk_timestamp := 106%Z; blk_nonce := 13;
     blk_txs := [cb_miner; Sample.tx_dup];
     blk_merkle_root := Some "2a"; blk_hash := Some "06" |}.

(** The link, the proof of work, the hash, the Merkle root and the
    coinbase of that block are in order, and its second transaction
    verifies when its turn comes; the ledger that holds the output does not
    take the block in, and the refusal comes from the replay. *)
Lemma block_with_double_spend_rejected_witness :
  block_header_ok block_dup Sample.genesis_block /\
  verify Sample.tx_dup (put_outputs Sample.u0 cb_miner) = Ok true /\
  fst (validate_block block_dup Sample.genesis_block
         (Sample.no_files [Sample.genesis_block] Sample.u0 [])) <> Ok true /\
  fst (try_add_block block_dup
         (Sample.no_files [Sample.genesis_block] Sample.u0 [])) <> Ok true.
Proof.
  split; [|split; [vm_compute; reflexivity|]].
  - split.
    + reflexivity.
    + exists "06". split; [reflexivity|]. split; [discriminate|reflexivity].
    + vm_compute. reflexivity.
    + vm_compute. reflexivity.
    + exists cb_miner, [Sample.tx_dup]. split; [reflexivity|]. split; reflexivity.
  - refine (block_with_double_spend_rejected block_dup Sample.genesis_block
              (Sample.no_files [Sample.genesis_block] Sample.u0 []) _ _).
    + apply NoDup_singleton.
    + apply Exists_cons_tl, Exists_cons_hd. split; [reflexivity|].
      intros Hnd. apply NoDup_cons in Hnd as [Hnin _]. apply Hnin. left.
Defined.

(** The sample ledger with the sample transfer pending, and the block
    [mine] makes of it for the address [MINER]. *)
Definition s_one_pending : State Z :=
  Sample.no_files [Sample.genesis_block] Sample.u0 [Sample.tx_pay].

Definition block_pay : Block Z :=
  {| blk_index := 1; blk_prev_hash := "09"; blk_timestamp := 108%Z; blk_nonce := 4;
     blk_txs := [cb_miner; Sample.tx_pay];
     blk_merkle_root := Some "21"; blk_hash := Some "05" |}.

(** Mining the sample transfer: the sender is left with the change of 30,
    the recipient has 20 and the miner 50. *)
Lemma mine_pending_transfer_witness :
  fst (mine 107%Z 108%Z (fun n => n) 40 "MINER" s_one_pending) = Ok (Some block_pay) /\
  fst (balance "CYPHd6" (snd (mine 107%Z 108%Z (fun n => n) 40 "MINER" s_one_pending)))
  = Ok 30%Z /\
  fst (balance "BOB" (snd (mine 107%Z 108%Z (fun n => n) 40 "MINER" s_one_pending)))
  = Ok 20%Z /\
  fst (balance "MINER" (snd (mine 107%Z 108%Z (fun n => n) 40 "MINER" s_one_pending)))
  = Ok 50%Z.
Proof.
  destruct (mine_pending_transfer 107%Z 108%Z (fun n => n) 40 "MINER" s_one_pending
              Sample.genesis_block block_pay "09" cb_miner Sample.tx_pay)
    as (Hres & _ & _ & _ & Hbal).
  - reflexivity.
  - reflexivity.
  - reflexivity.
  - split; repeat constructor.
  - reflexivity.
  - apply NoDup_singleton.
  - reflexivity.
  - vm_compute. reflexivity.
  - apply NoDup_singleton.
  - reflexivity.
  - intros Hin. apply list_elem_of_singleton in Hin. discriminate.
  - vm_compute. reflexivity.
  - split; [exact Hres|].
    destruct Hbal as [_ Hbal].
    + intros z Hin. apply list_elem_of_singleton in Hin. discriminate.
    + discriminate.
    + rewrite !Hbal. repeat split; vm_compute; reflexivity.
Defined.

(** The sample transfer pending on a ledger that holds no output: the
    block is mined without it and it stays pending. *)
Definition s_stale : State Z :=
  Sample.no_files [Sample.genesis_block] [] [Sample.tx_pay].

Definition block_miner : Block Z :=
  {| blk_index := 1; blk_prev_hash := "09"; blk_timestamp := 108%Z; blk_nonce := 11;
     blk_txs := [cb_miner]; blk_merkle_root := Some "d6"; blk_hash := Some "0b" |}.

Lemma mine_keeps_refused_pending_witness :
  fst (mine 107%Z 108%Z (fun n => n) 40 "MINER" s_stale) = Ok (Some block_miner) /\
  mempool (snd (mine 107%Z 108%Z (fun n => n) 40 "MINER" s_stale)) = [Sample.tx_pay].
Proof.
  destruct (mine_keeps_refused_pending 107%Z 108%Z (fun n => n) 40 "MINER" s_stale
              Sample.genesis_block block_miner "09" cb_miner)
    as (Hres & _ & _ & Hmp & _).
  - constructor; [vm_compute; reflexivity|constructor].
  - reflexivity.
  - reflexivity.
  - split; repeat constructor.
  - reflexivity.
  - reflexivity.
  - vm_compute. reflexivity.
  - split; [exact Hres|]. rewrite Hmp. reflexivity.
Defined.

(** The block mined for the sample transfer extends the sample chain. *)
Lemma mine_returns_valid_block_witness :
  chain (snd (mine 107%Z 108%Z (fun n => n) 40 "MINER" s_one_pending))
  = chain s_one_pending ++ [block_pay].
Proof.
  destruct (mine_returns_valid_block 107%Z 108%Z (fun n => n) 40 "MINER" s_one_pending
              (snd (mine 107%Z 108%Z (fun n => n) 40 "MINER" s_one_pending)) block_pay)
    as (tip & cb & rest & _ & _ & _ & _ & _ & _ & _ & Hc & _).
  - vm_compute. reflexivity.
  - exact Hc.
Defined.

(** A ledger with the sample chain and dictionary and nothing pending
    takes that block in. *)
Lemma mined_block_accepted_in_step_witness :
  fst (try_add_block block_pay (Sample.no_files [Sample.genesis_block] Sample.u0 []))
  = Ok true.
Proof.
  refine (proj1 (mined_block_accepted_in_step 107%Z 108%Z (fun n => n) 40 "MINER"
                   s_one_pending
                   (snd (mine 107%Z 108%Z (fun n => n) 40 "MINER" s_one_pending))
                   (Sample.no_files [Sample.genesis_block] Sample.u0 []) block_pay
                   _ _ _ _)).
  - vm_compute. reflexivity.
  - reflexivity.
  - reflexivity.
  - constructor.
Defined.

End SampleRunsMore.
